(** * HDA: the spreadsheet cleansing pipeline of [excelProcessor.ts]

    A shallow embedding of [parseDate], [parseAmount] and [processData]
    (the later of the two revisions of the file, the one with the
    bare-year branch of [parseDate] and the mapped-column guard of the
    document check), together with the types of [types/index.ts].  What
    the earlier revision does differently is in the module [Earlier].

    Conventions of the embedding.
    - A JavaScript string is a sequence of UTF-16 code units.  The model
      keeps the code units below 256 (Basic Latin and Latin-1 Supplement,
      which cover Portuguese text), one [ascii] per code unit, so that
      [String.length] is the JavaScript [length].
    - A JavaScript number is a rational: arithmetic is exact, and neither
      NaN nor the infinities are cell values.
    - A [Date] is its time value (milliseconds since the epoch, UTC) or
      the invalid date.  Local time is UTC plus a constant offset of the
      host (no daylight saving).
    - The builtins whose result depends on the engine (case mapping,
      [parseFloat], number and date printing, date-string parsing, the
      time zone, the spreadsheet library's serial-date decoder) are the
      fields of the class [Host]; the general theorems hold for every
      host, and the concrete rows are run on the host [Host0.host].
    - What a function throws is the left injection of a sum: [Error msg]
      for its own [throw new Error(msg)], [TypeError] for the call of
      what is no function.
    - The clock ([new Date()]) is an explicit argument. *)

From Stdlib Require Import ZArith QArith Qround Qminmax String Ascii List Lia.
From stdpp Require Import gmap strings list pretty sorting.

Local Open Scope string_scope.
Local Open Scope Z_scope.

(** ** Strings *)

(** A one code unit string, for the Latin-1 letters of the literals. *)
Definition cu (n : nat) : string := String (ascii_of_nat n) EmptyString.

Definition a_acute : string := cu 225.
Definition i_acute : string := cu 237.
Definition a_tilde : string := cu 227.
Definition e_acute : string := cu 233.

(** [\d] of a regular expression without the unicode flag. *)
Definition isDigit (c : ascii) : bool :=
  let n := nat_of_ascii c in (48 <=? n)%nat && (n <=? 57)%nat.

(** [\s], and the characters [trim] removes: WhiteSpace and
    LineTerminator, of which TAB, LF, VT, FF, CR, SP and NBSP are below
    256. *)
Definition isWhiteSpace (c : ascii) : bool :=
  let n := nat_of_ascii c in
  ((9 <=? n)%nat && (n <=? 13)%nat) || (n =? 32)%nat || (n =? 160)%nat.

Fixpoint trimStart (s : string) : string :=
  match s with
  | String c s' => if isWhiteSpace c then trimStart s' else s
  | EmptyString => EmptyString
  end.

Definition reverse_string (s : string) : string :=
  string_of_list_ascii (rev (list_ascii_of_string s)).

Definition trimEnd (s : string) : string :=
  reverse_string (trimStart (reverse_string s)).

(** [s.trim()] *)
Definition trim (s : string) : string := trimEnd (trimStart s).

(** [s.includes(k)] *)
Fixpoint includes (s k : string) : bool :=
  String.prefix k s ||
  match s with
  | String _ s' => includes s' k
  | EmptyString => false
  end.

(** [s.includes(c)] for a one character needle. *)
Fixpoint includesChar (s : string) (c : ascii) : bool :=
  match s with
  | String d s' => Ascii.eqb d c || includesChar s' c
  | EmptyString => false
  end.

(** [s.replace(/c/g, '')] for a single character [c]. *)
Fixpoint removeAll (c : ascii) (s : string) : string :=
  match s with
  | String d s' => if Ascii.eqb d c then removeAll c s' else String d (removeAll c s')
  | EmptyString => EmptyString
  end.

(** [s.replace(c, r)] with a string pattern: the first occurrence only. *)
Fixpoint replaceFirst (c r : ascii) (s : string) : string :=
  match s with
  | String d s' => if Ascii.eqb d c then String r s' else String d (replaceFirst c r s')
  | EmptyString => EmptyString
  end.

(** [s.replace(/R\$\s*/g, '')]: every [R$] goes, with the white space
    that follows it.  [skipping] holds while the [\s*] of a match is
    being consumed. *)
Fixpoint stripCurrency (skipping : bool) (s : string) : string :=
  match s with
  | EmptyString => EmptyString
  | String c rest =>
      if skipping && isWhiteSpace c then stripCurrency true rest
      else
        match c, rest with
        | "R"%char, String "$"%char rest' => stripCurrency true rest'
        | _, _ => String c (stripCurrency false rest)
        end
  end.

(** [s.replace(/[^0-9]/g, '')] *)
Fixpoint digitsOnly (s : string) : string :=
  match s with
  | String c s' => if isDigit c then String c (digitsOnly s') else digitsOnly s'
  | EmptyString => EmptyString
  end.

(** [parseInt] on a string of decimal digits (the only strings the code
    passes to it are captures of [\d{n}]). *)
Definition digitValue (c : ascii) : Z := Z.of_nat (nat_of_ascii c) - 48.

Fixpoint parseIntFrom (acc : Z) (s : string) : Z :=
  match s with
  | String c s' => if isDigit c then parseIntFrom (10 * acc + digitValue c) s' else acc
  | EmptyString => acc
  end.

Definition parseInt (s : string) : Z := parseIntFrom 0 s.

(** [arr.join(', ')] *)
Fixpoint join (sep : string) (l : list string) : string :=
  match l with
  | [] => ""
  | [x] => x
  | x :: rest => x ++ sep ++ join sep rest
  end.

(** *** The three date patterns *)

(** [\d{n}] at the head of [s]: the digits matched and what follows. *)
Fixpoint takeDigits (n : nat) (s : string) : option (string * string) :=
  match n with
  | O => Some (EmptyString, s)
  | S n' =>
      match s with
      | String c s' =>
          if isDigit c
          then '(d, rest) ← takeDigits n' s'; Some (String c d, rest)
          else None
      | EmptyString => None
      end
  end.

Definition takeChar (c : ascii) (s : string) : option string :=
  match s with
  | String d s' => if Ascii.eqb d c then Some s' else None
  | EmptyString => None
  end.

Definition atEnd (s : string) : bool :=
  match s with EmptyString => true | _ => false end.

(** [s.match(/^(\d{a})c(\d{b})c(\d{n})$/)]: the three captures. *)
Definition matchGroups (a b n : nat) (c : ascii) (s : string)
  : option (string * string * string) :=
  '(g1, s1) ← takeDigits a s;
  s2 ← takeChar c s1;
  '(g2, s3) ← takeDigits b s2;
  s4 ← takeChar c s3;
  '(g3, s5) ← takeDigits n s4;
  if atEnd s5 then Some (g1, g2, g3) else None.

(** [/^\d{4}$/.test(s)] *)
Definition isFourDigits (s : string) : bool :=
  match takeDigits 4 s with
  | Some (_, rest) => atEnd rest
  | None => false
  end.

(** ** Numbers *)

(** ToIntegerOrInfinity on a finite number: truncation towards zero. *)
Definition truncate (q : Q) : Z :=
  if Qle_bool 0 q then Qfloor q else Qceiling q.

Definition Qltb (x y : Q) : bool := negb (Qle_bool y x).

(** ** Dates: the time-value arithmetic of ECMAScript *)

Inductive Date := InvalidDate | DateOf (tv : Z).

Definition msPerDay : Z := 86400000.

Definition Day (t : Z) : Z := t / msPerDay.
Definition TimeWithinDay (t : Z) : Z := t mod msPerDay.

Definition isLeapYear (y : Z) : bool :=
  ((y mod 4 =? 0) && negb (y mod 100 =? 0)) || (y mod 400 =? 0).

Definition DaysInYear (y : Z) : Z := if isLeapYear y then 366 else 365.

Definition DayFromYear (y : Z) : Z :=
  365 * (y - 1970) + (y - 1969) / 4 - (y - 1901) / 100 + (y - 1601) / 400.

(** The largest [y] with [DayFromYear y <= Day t]: the mean year length
    gives a candidate at most one year off, which is then corrected. *)
Definition YearFromTime (t : Z) : Z :=
  let d := Day t in
  let y := 1970 + (d * 400) / 146097 in
  if d <? DayFromYear y then y - 1
  else if DayFromYear (y + 1) <=? d then y + 1
  else y.

Definition DayWithinYear (t : Z) : Z := Day t - DayFromYear (YearFromTime t).

Definition InLeapYear (t : Z) : Z :=
  if isLeapYear (YearFromTime t) then 1 else 0.

(** The day of the year on which month [m] (0 to 11) starts. *)
Definition monthStart (leap m : Z) : Z :=
  match m with
  | 0 => 0
  | 1 => 31
  | 2 => 59 + leap
  | 3 => 90 + leap
  | 4 => 120 + leap
  | 5 => 151 + leap
  | 6 => 181 + leap
  | 7 => 212 + leap
  | 8 => 243 + leap
  | 9 => 273 + leap
  | 10 => 304 + leap
  | _ => 334 + leap
  end.

Definition MonthFromTime (t : Z) : Z :=
  let d := DayWithinYear t in
  let l := InLeapYear t in
  if d <? 31 then 0
  else if d <? 59 + l then 1
  else if d <? 90 + l then 2
  else if d <? 120 + l then 3
  else if d <? 151 + l then 4
  else if d <? 181 + l then 5
  else if d <? 212 + l then 6
  else if d <? 243 + l then 7
  else if d <? 273 + l then 8
  else if d <? 304 + l then 9
  else if d <? 334 + l then 10
  else 11.

Definition DateFromTime (t : Z) : Z :=
  DayWithinYear t - monthStart (InLeapYear t) (MonthFromTime t) + 1.

(** [MakeDay(year, month, date)] on integers. *)
Definition MakeDay (year month date : Z) : Z :=
  let ym := year + month / 12 in
  let mn := month mod 12 in
  DayFromYear ym + monthStart (if isLeapYear ym then 1 else 0) mn + date - 1.

Definition MakeDate (day time : Z) : Z := day * msPerDay + time.

Definition TimeClip (t : Z) : Date :=
  if Z.abs t <=? 8640000000000000 then DateOf t else InvalidDate.

(** [d1 < d2] on dates: the comparison of two time values, false as
    soon as one of them is NaN. *)
Definition date_lt (d1 d2 : Date) : bool :=
  match d1, d2 with
  | DateOf t1, DateOf t2 => t1 <? t2
  | _, _ => false
  end.

(** ** Cells, rows and the host *)

(** A raw cell as [sheet_to_json] delivers it; [row[k]] is [row !! k],
    and [None] is [undefined]. *)
Inductive Cell :=
| CNull
| CBool (b : bool)
| CNum (n : Q)
| CStr (s : string)
| CDate (d : Date).

Abbreviation Row := (gmap string Cell).

(** The builtins of the engine and of the spreadsheet library. *)
Class Host := {
  (** [String.prototype.toUpperCase] *)
  toUpperCase : string -> string;
  (** [parseFloat]; [None] is NaN *)
  parseFloat : string -> option Q;
  (** [String(n)] and [`${n}`] on a number *)
  Number_toString : Q -> string;
  (** [String(d)] on a date *)
  Date_toString : Date -> string;
  (** [new Date(s)] on a string *)
  Date_parse : string -> Date;
  (** [d.toLocaleDateString('pt-BR')] *)
  toLocaleDateString : Date -> string;
  (** the offset of local time from UTC, in milliseconds *)
  LocalTZA : Z;
  (** [XLSX.SSF.parse_date_code]: year, month (1 to 12) and day of a
      serial date, or [None] for [null] *)
  parse_date_code : Q -> option (Z * Z * Z);
  (** the empty string has no letters to map *)
  toUpperCase_empty : toUpperCase "" = "";
  (** a time zone is less than a day away from UTC *)
  LocalTZA_range : - msPerDay < LocalTZA < msPerDay;
}.

(** [!v] is [negb (truthy v)]. *)
Definition truthy (v : option Cell) : bool :=
  match v with
  | None => false
  | Some CNull => false
  | Some (CBool b) => b
  | Some (CNum n) => negb (Qeq_bool n 0)
  | Some (CStr s) => negb (String.eqb s "")
  | Some (CDate _) => true
  end.

(** A mapped optional column ([mapping.cpf_cnpj ? ... : ...]): defined
    and not the empty string. *)
Definition mapped (col : option string) : bool :=
  match col with
  | Some c => negb (String.eqb c "")
  | None => false
  end.

(** ** The types of [types/index.ts] *)

Record ColumnMapping := {
  debt_id : string;
  taxpayer_name : string;
  cpf_cnpj : option string;
  due_date : string;
  amount : string;
  tribute_type : option string;
  tax_year : option string;
}.

Module PrescriptionRules.
Record t := { enabled : bool; years : Q; reference_date : option string }.
End PrescriptionRules.

Module ImmunityRules.
Record t := { enabled : bool; keywords : list string }.
End ImmunityRules.

Module ExemptionRules.
Record t := { enabled : bool; amount_threshold : Q; tributes : list string }.
End ExemptionRules.

Module IncompleteRules.
Record t := { enabled : bool; keywords : list string; check_cpf_cnpj : bool }.
End IncompleteRules.

Record CleansingConfig := {
  mapping : ColumnMapping;
  prescription : PrescriptionRules.t;
  immunity : ImmunityRules.t;
  exemption : ExemptionRules.t;
  incomplete : IncompleteRules.t;
}.

Record CleansingResult := {
  total_records : nat;
  processed_records : nat;
  prescribed_count : nat;
  immune_count : nat;
  exempt_count : nat;
  incomplete_count : nat;
  valid_count : nat;
  total_amount_removed : Q;
  total_amount_valid : Q;
}.

Record ProcessResult := {
  summary : CleansingResult;
  preview : list Row;
  processedData : list Row;
}.

(** The five values the variable [status] takes. *)
Inductive Status := Valido | Prescrito | Imune | Isento | DadosIncompletos.

Definition status_eqb (a b : Status) : bool :=
  match a, b with
  | Valido, Valido | Prescrito, Prescrito | Imune, Imune
  | Isento, Isento | DadosIncompletos, DadosIncompletos => true
  | _, _ => false
  end.

Definition label_valido : string := Eval cbv in ("V" ++ a_acute ++ "lido").

Definition label (s : Status) : string :=
  match s with
  | Valido => label_valido
  | Prescrito => "Prescrito"
  | Imune => "Imune"
  | Isento => "Isento"
  | DadosIncompletos => "Dados Incompletos"
  end.

Definition motivo_imune : string := "Entidade Imune identificada por palavra-chave".
Definition motivo_tributo : string := "Tributo Isento".
Definition motivo_incompleto : string :=
  Eval cbv in ("Nome ou CPF/CNPJ inv" ++ a_acute ++ "lido/gen" ++ e_acute ++ "rico").
Definition erro_colunas : string :=
  Eval cbv in ("Colunas n" ++ a_tilde ++ "o encontradas: ").

Definition status_concluido : string := Eval cbv in ("Conclu" ++ i_acute ++ "do!").

Definition col_status : string := "Status_Higienizacao".
Definition col_motivo : string := "Motivo_Higienizacao".

Section Pipeline.
Context {host : Host}.

(** *** Date objects *)

Definition LocalTime (t : Z) : Z := t + LocalTZA.
Definition UTC (t : Z) : Z := t - LocalTZA.

(** [new Date(year, month, date)]: local midnight of that day; a year
    from 0 to 99 means 1900 + year. *)
Definition newDate (year : Q) (month date : Z) : Date :=
  let yi := truncate year in
  let yr := if (0 <=? yi) && (yi <=? 99) then 1900 + yi else yi in
  TimeClip (UTC (MakeDate (MakeDay yr month date) 0)).

(** [d.getFullYear()]; [None] is NaN. *)
Definition getFullYear (d : Date) : option Z :=
  match d with
  | DateOf tv => Some (YearFromTime (LocalTime tv))
  | InvalidDate => None
  end.

(** [d.setFullYear(year)] on a valid date (month, day and time of day
    are kept, in local time). *)
Definition setFullYear (tv : Z) (year : Q) : Date :=
  let t := LocalTime tv in
  let day := MakeDay (truncate year) (MonthFromTime t) (DateFromTime t) in
  TimeClip (UTC (MakeDate day (TimeWithinDay t))).

(** [String(v)] *)
Definition ToString (v : Cell) : string :=
  match v with
  | CNull => "null"
  | CBool true => "true"
  | CBool false => "false"
  | CNum n => Number_toString n
  | CStr s => s
  | CDate d => Date_toString d
  end.

(** [String(v || '')] *)
Definition stringOrEmpty (v : option Cell) : string :=
  match v with
  | Some c => if truthy v then ToString c else ""
  | None => ""
  end.

(** ** [parseDate] *)

Definition formats : list (string -> option (string * string * string)) :=
  [ matchGroups 2 2 4 "/" ;   (* DD/MM/YYYY *)
    matchGroups 4 2 2 "-" ;   (* YYYY-MM-DD *)
    matchGroups 2 2 4 "-" ].  (* DD-MM-YYYY *)

(** The loop over [formats]; [i] is the index of the head of [fs]. *)
Fixpoint tryFormats (i : nat) (fs : list (string -> option (string * string * string)))
    (cleaned : string) : option Date :=
  match fs with
  | [] => None
  | format :: fs' =>
      match format cleaned with
      | Some (m1, m2, m3) =>
          if (i =? 0)%nat || (i =? 2)%nat
          then Some (newDate (inject_Z (parseInt m3)) (parseInt m2 - 1) (parseInt m1))
          else Some (newDate (inject_Z (parseInt m1)) (parseInt m2 - 1) (parseInt m3))
      | None => tryFormats (S i) fs' cleaned
      end
  end.

Definition parseDate (value : option Cell) : option Date :=
  if negb (truthy value) then None
  else
    match value with
    | Some (CDate d) => Some d
    | Some (CNum n) =>
        if Qle_bool 1900 n && Qle_bool n 2100
        then Some (newDate n 0 1)
        else
          match parse_date_code n with
          | Some (y, m, d) => Some (newDate (inject_Z y) (m - 1) d)
          | None => None
          end
    | Some (CStr s) =>
        let cleaned := trim s in
        let year := parseInt cleaned in
        if isFourDigits cleaned && (1900 <=? year) && (year <=? 2100)
        then Some (newDate (inject_Z year) 0 1)
        else tryFormats 0 formats cleaned
    | _ => None
    end.

(** ** [parseAmount] *)

Definition parseAmount (value : option Cell) : Q :=
  if negb (truthy value) then 0%Q
  else
    match value with
    | Some (CNum n) => n
    | Some (CStr s) =>
        let cleaned := trim (stripCurrency false s) in
        let cleaned :=
          if includesChar cleaned "," && includesChar cleaned "."
          then replaceFirst "," "." (removeAll "." cleaned)
          else if includesChar cleaned ","
          then replaceFirst "," "." cleaned
          else cleaned in
        match parseFloat cleaned with
        | Some num => num
        | None => 0%Q
        end
    | _ => 0%Q
    end.

(** ** [processData]: the values parsed from a row *)

(** [col ? f(row[col]) : ''] for an optional column. *)
Definition optionalField (col : option string) (f : string -> string) (row : Row) : string :=
  match col with
  | Some c => if mapped col then f (stringOrEmpty (row !! c)) else ""
  | None => ""
  end.

Definition tempDate (m : ColumnMapping) (row : Row) : option Date :=
  parseDate (row !! due_date m).

Definition tempAmount (m : ColumnMapping) (row : Row) : Q :=
  parseAmount (row !! amount m).

Definition tempName (m : ColumnMapping) (row : Row) : string :=
  toUpperCase (stringOrEmpty (row !! taxpayer_name m)).

Definition tempDoc (m : ColumnMapping) (row : Row) : string :=
  optionalField (cpf_cnpj m) digitsOnly row.

Definition tempTribute (m : ColumnMapping) (row : Row) : string :=
  optionalField (tribute_type m) toUpperCase row.

(** ** [processData]: the four rules

    The code keeps [status] and [motivo] in two variables that four
    consecutive [if] blocks may overwrite; each block is a function on
    that pair. *)

Definition isValido (st : Status * string) : bool := status_eqb (fst st) Valido.

(** [reference_date ? new Date(reference_date) : new Date()] *)
Definition refDate (now : Z) (p : PrescriptionRules.t) : Date :=
  match PrescriptionRules.reference_date p with
  | Some s => if String.eqb s "" then DateOf now else Date_parse s
  | None => DateOf now
  end.

(** [cutoffDate.setFullYear(cutoffDate.getFullYear() - years)]; on an
    invalid date [getFullYear] is NaN and the date stays invalid. *)
Definition cutoffDate (now : Z) (p : PrescriptionRules.t) : Date :=
  match refDate now p with
  | DateOf tv =>
      match getFullYear (DateOf tv) with
      | Some y => setFullYear tv (inject_Z y - PrescriptionRules.years p)
      | None => InvalidDate
      end
  | InvalidDate => InvalidDate
  end.

Definition motivo_prescrito (cutoff : Date) : string :=
  "Vencimento anterior a " ++ toLocaleDateString cutoff.

Definition motivo_valor (threshold : Q) : string :=
  "Valor abaixo de R$ " ++ Number_toString threshold.

(** [tempDate && tempDate < cutoffDate] *)
Definition isPrescribed (now : Z) (p : PrescriptionRules.t) (d : option Date) : bool :=
  match d with
  | Some d => date_lt d (cutoffDate now p)
  | None => false
  end.

Definition checkPrescription (now : Z) (config : CleansingConfig) (row : Row)
    (st : Status * string) : Status * string :=
  let p := prescription config in
  if PrescriptionRules.enabled p && isValido st then
    if isPrescribed now p (tempDate (mapping config) row)
    then (Prescrito, motivo_prescrito (cutoffDate now p))
    else st
  else st.

(** [keywords.map(k => k.toUpperCase()).some(keyword => name.includes(keyword))] *)
Definition hasKeyword (keywords : list string) (name : string) : bool :=
  existsb (fun keyword => includes name keyword) (map toUpperCase keywords).

Definition checkImmunity (config : CleansingConfig) (row : Row)
    (st : Status * string) : Status * string :=
  let r := immunity config in
  if ImmunityRules.enabled r && isValido st then
    if hasKeyword (ImmunityRules.keywords r) (tempName (mapping config) row)
    then (Imune, motivo_imune)
    else st
  else st.

(** [amount_threshold > 0 && tempAmount < amount_threshold] *)
Definition belowThreshold (e : ExemptionRules.t) (a : Q) : bool :=
  Qltb 0 (ExemptionRules.amount_threshold e) && Qltb a (ExemptionRules.amount_threshold e).

(** [tributes.map(t => t.toUpperCase()).includes(tempTribute)] *)
Definition isExemptTribute (e : ExemptionRules.t) (tribute : string) : bool :=
  existsb (String.eqb tribute) (map toUpperCase (ExemptionRules.tributes e)).

(** The first block of the exemption rule: the amount. *)
Definition exemptByAmount (config : CleansingConfig) (row : Row)
    (st : Status * string) : Status * string :=
  let e := exemption config in
  if belowThreshold e (tempAmount (mapping config) row)
  then (Isento, motivo_valor (ExemptionRules.amount_threshold e))
  else st.

(** The second block of the exemption rule: the tribute. *)
Definition exemptByTribute (config : CleansingConfig) (row : Row)
    (st : Status * string) : Status * string :=
  let e := exemption config in
  if (0 <? length (ExemptionRules.tributes e))%nat then
    if isExemptTribute e (tempTribute (mapping config) row)
    then (Isento, motivo_tributo)
    else st
  else st.

Definition checkExemption (config : CleansingConfig) (row : Row)
    (st : Status * string) : Status * string :=
  if ExemptionRules.enabled (exemption config) && isValido st
  then exemptByTribute config row (exemptByAmount config row st)
  else st.

Definition isBadName (r : IncompleteRules.t) (name : string) : bool :=
  hasKeyword (IncompleteRules.keywords r) name || (String.length name <? 3)%nat.

(** [check_cpf_cnpj && mapping.cpf_cnpj && tempDoc === ''] *)
Definition isBadDoc (config : CleansingConfig) (row : Row) : bool :=
  IncompleteRules.check_cpf_cnpj (incomplete config)
  && mapped (cpf_cnpj (mapping config))
  && String.eqb (tempDoc (mapping config) row) "".

Definition checkIncomplete (config : CleansingConfig) (row : Row)
    (st : Status * string) : Status * string :=
  let r := incomplete config in
  if IncompleteRules.enabled r && isValido st then
    if isBadName r (tempName (mapping config) row) || isBadDoc config row
    then (DadosIncompletos, motivo_incompleto)
    else st
  else st.

(** The body of the [data.map] callback, up to the returned object:
    the final [status] and [motivo] of a row.  [now] is what
    [new Date()] returns while the row is processed. *)
Definition classify (now : Z) (config : CleansingConfig) (row : Row) : Status * string :=
  let st := (Valido, "") in
  let st := checkPrescription now config row st in
  let st := checkImmunity config row st in
  let st := checkExemption config row st in
  checkIncomplete config row st.

(** [{...row, Status_Higienizacao: status, Motivo_Higienizacao: motivo}] *)
Definition annotate (row : Row) (st : Status * string) : Row :=
  <[col_motivo := CStr (snd st)]> (<[col_status := CStr (label (fst st))]> row).

(** ** [processData]: the validation of the columns *)

Definition requiredCols (m : ColumnMapping) : list string :=
  [debt_id m; taxpayer_name m; due_date m; amount m].

(** What [processData] throws: the [Error] it makes itself, with its
    message, or the [TypeError] of the engine for a call of what is no
    function. *)
Inductive Exception :=
  | Error (message : string)
  | TypeError.

(** [data[0]?.hasOwnProperty(col)]: [undefined], read as [false], when
    there is no first row.  The method is looked up on the row itself,
    where a column named [hasOwnProperty] comes before the method every
    object inherits; no cell is a function, so the call then throws. *)
Definition firstRowHas (data : list Row) (col : string) : Exception + bool :=
  match data with
  | row :: _ =>
      match row !! "hasOwnProperty" with
      | Some _ => inl TypeError
      | None => inr (bool_decide (is_Some (row !! col)))
      end
  | [] => inr false
  end.

(** [col && !data[0]?.hasOwnProperty(col)]: the call is not reached for
    the empty name. *)
Definition isMissing (data : list Row) (col : string) : Exception + bool :=
  if String.eqb col "" then inr false
  else match firstRowHas data col with
       | inl e => inl e
       | inr has => inr (negb has)
       end.

(** [l.filter(f)] for an [f] that may throw: the elements are tested
    in order and the first exception ends the filter. *)
Fixpoint filterE {A E : Type} (f : A -> E + bool) (l : list A) : E + list A :=
  match l with
  | [] => inr []
  | x :: rest =>
      match f x with
      | inl e => inl e
      | inr keep =>
          match filterE f rest with
          | inl e => inl e
          | inr kept => inr (if keep then x :: kept else kept)
          end
      end
  end.

Definition missingCols (data : list Row) (m : ColumnMapping) : Exception + list string :=
  filterE (isMissing data) (requiredCols m).

(** ** [processData]: the summary *)

Definition initialCounts : gmap string nat :=
  <[label Valido := 0%nat]>
    (<[label DadosIncompletos := 0%nat]>
      (<[label Isento := 0%nat]>
        (<[label Imune := 0%nat]>
          (<[label Prescrito := 0%nat]> ∅)))).

Record Totals := {
  statusCounts : gmap string nat;
  totalRemoved : Q;
  totalValid : Q;
}.

(** The property key an arbitrary value is converted to. *)
Definition propertyKey (v : option Cell) : string :=
  match v with
  | Some c => ToString c
  | None => "undefined"
  end.

(** [status !== 'Válido'] *)
Definition notValido (v : option Cell) : bool :=
  match v with
  | Some (CStr s) => negb (String.eqb s (label Valido))
  | _ => true
  end.

(** One turn of the [for (const row of processedData)] loop. *)
Definition tally (m : ColumnMapping) (acc : Totals) (row : Row) : Totals :=
  let status := row !! col_status in
  let key := propertyKey status in
  let counts :=
    match statusCounts acc !! key with
    | Some n => <[key := (n + 1)%nat]> (statusCounts acc)
    | None => statusCounts acc
    end in
  let amount := parseAmount (row !! amount m) in
  if notValido status
  then {| statusCounts := counts;
          totalRemoved := (totalRemoved acc + amount)%Q;
          totalValid := totalValid acc |}
  else {| statusCounts := counts;
          totalRemoved := totalRemoved acc;
          totalValid := (totalValid acc + amount)%Q |}.

Definition count (counts : gmap string nat) (s : Status) : nat :=
  default 0%nat (counts !! label s).

Definition summarise (m : ColumnMapping) (totalRows : nat) (rows : list Row)
  : CleansingResult :=
  let acc := fold_left (tally m) rows
               {| statusCounts := initialCounts; totalRemoved := 0; totalValid := 0 |} in
  {| total_records := totalRows;
     processed_records := totalRows;
     prescribed_count := count (statusCounts acc) Prescrito;
     immune_count := count (statusCounts acc) Imune;
     exempt_count := count (statusCounts acc) Isento;
     incomplete_count := count (statusCounts acc) DadosIncompletos;
     valid_count := count (statusCounts acc) Valido;
     total_amount_removed := totalRemoved acc;
     total_amount_valid := totalValid acc |}.

(** ** [processData]

    [clock i] is the reading of [new Date()] while row [i] is mapped.
    The optional [onProgress] callback neither reads nor changes what
    the function computes; the calls it receives are listed apart, in
    [progressCalls]. *)
Definition processRows (clock : nat -> Z) (config : CleansingConfig) (data : list Row)
  : list Row :=
  imap (fun index row => annotate row (classify (clock index) config row)) data.

Definition processData (clock : nat -> Z) (data : list Row) (config : CleansingConfig)
  : Exception + ProcessResult :=
  let m := mapping config in
  let totalRows := length data in
  match missingCols data m with
  | inl e => inl e
  | inr missing =>
      if (0 <? length missing)%nat then inl (Error (erro_colunas ++ join ", " missing))
      else
        let rows := processRows clock config data in
        inr {| summary := summarise m totalRows rows;
               preview := take 100 rows;
               processedData := rows |}
  end.

(** *** The progress reports *)

(** [Math.ceil(totalRows / 10)] *)
Definition progressStep (totalRows : nat) : nat := ((totalRows + 9) / 10)%nat.

(** The report made while row [index] is mapped, if there is one. *)
Definition rowProgress (totalRows index : nat) : option (Q * string) :=
  if (index mod progressStep totalRows =? 0)%nat
  then Some (Qmin (10 + inject_Z (Z.of_nat index) / inject_Z (Z.of_nat totalRows) * 80) 90,
             "Processando registros...")
  else None.

(** The arguments of the calls of [onProgress], in order; there is none
    when the validation throws. *)
Definition progressCalls (data : list Row) (config : CleansingConfig) : list (Q * string) :=
  match missingCols data (mapping config) with
  | inl _ => []
  | inr missing =>
      if (0 <? length missing)%nat then []
      else
        [(10%Q, "Preparando dados...")]
          ++ omap (rowProgress (length data)) (seq 0 (length data))
          ++ [(95%Q, "Calculando resumo...");
              (100%Q, status_concluido)]
  end.

(** ** The rules as the specification words them

    "Rules are evaluated in fixed order and the first match wins."  Each
    rule is a condition on the row, and [firstMatch] is the ordered,
    short-circuiting choice among them; [classify] above is what the
    code does, and the two are compared below. *)

Definition prescribes (now : Z) (config : CleansingConfig) (row : Row) : bool :=
  PrescriptionRules.enabled (prescription config)
  && isPrescribed now (prescription config) (tempDate (mapping config) row).

Definition immunises (config : CleansingConfig) (row : Row) : bool :=
  ImmunityRules.enabled (immunity config)
  && hasKeyword (ImmunityRules.keywords (immunity config)) (tempName (mapping config) row).

Definition exemptAmount (config : CleansingConfig) (row : Row) : bool :=
  belowThreshold (exemption config) (tempAmount (mapping config) row).

Definition exemptTribute (config : CleansingConfig) (row : Row) : bool :=
  isExemptTribute (exemption config) (tempTribute (mapping config) row).

Definition exempts (config : CleansingConfig) (row : Row) : bool :=
  ExemptionRules.enabled (exemption config)
  && (exemptAmount config row || exemptTribute config row).

Definition incompletes (config : CleansingConfig) (row : Row) : bool :=
  IncompleteRules.enabled (incomplete config)
  && (isBadName (incomplete config) (tempName (mapping config) row) || isBadDoc config row).

Definition firstMatch (now : Z) (config : CleansingConfig) (row : Row) : Status * string :=
  if prescribes now config row
  then (Prescrito, motivo_prescrito (cutoffDate now (prescription config)))
  else if immunises config row then (Imune, motivo_imune)
  else if exempts config row
  then (Isento,
        if exemptTribute config row then motivo_tributo
        else motivo_valor (ExemptionRules.amount_threshold (exemption config)))
  else if incompletes config row then (DadosIncompletos, motivo_incompleto)
  else (Valido, "").


(** The columns [classify] reads. *)
Definition columnsRead (m : ColumnMapping) : list string :=
  [taxpayer_name m; due_date m; amount m]
    ++ (if mapped (cpf_cnpj m) then option_list (cpf_cnpj m) else [])
    ++ (if mapped (tribute_type m) then option_list (tribute_type m) else []).

(** A column the annotation of a row leaves as it was. *)
Definition untouched (col : string) : Prop := col <> col_status /\ col <> col_motivo.

(** A reference date is configured: the clock is not read. *)
Definition hasReferenceDate (config : CleansingConfig) : bool :=
  mapped (PrescriptionRules.reference_date (prescription config)).

Definition sumQ (l : list Q) : Q := fold_right Qplus 0%Q l.

(** The status and the amount of every row, as the [map] callback
    computes them. *)
Definition classified (clock : nat -> Z) (config : CleansingConfig) (data : list Row)
  : list (Status * Q) :=
  imap (fun index row =>
          (fst (classify (clock index) config row), tempAmount (mapping config) row))
       data.

Definition amountsWhere (p : Status -> bool) (l : list (Status * Q)) : list Q :=
  map snd (List.filter (fun sa => p (fst sa)) l).

End Pipeline.

(** ** A concrete host

    An engine in the UTC time zone, used to run the model on concrete
    rows.  Its builtins are those of ECMAScript on the inputs the
    examples give them; where they are narrower than a real engine the
    comment says so. *)
Module Host0.

(** Case mapping of the code units below 256, one by one: [a-z] and
    the Latin-1 lower case letters move 32 down, sharp s becomes [SS];
    the micro sign and y with diaeresis, whose capitals are above 255,
    are left as they are. *)
Definition upperChar (c : ascii) : string :=
  let n := nat_of_ascii c in
  if ((97 <=? n) && (n <=? 122))%nat then cu (n - 32)
  else if (n =? 223)%nat then "SS"
  else if ((224 <=? n) && (n <=? 254) && negb (n =? 247))%nat then cu (n - 32)
  else String c EmptyString.

Fixpoint toUpperCase (s : string) : string :=
  match s with
  | String c s' => upperChar c ++ toUpperCase s'
  | EmptyString => EmptyString
  end.

(** The longest run of digits at the head of [s]: its value, its
    length and what follows. *)
Fixpoint readDigits (acc : Z) (n : nat) (s : string) : Z * nat * string :=
  match s with
  | String c s' =>
      if isDigit c then readDigits (10 * acc + digitValue c) (S n) s' else (acc, n, s)
  | EmptyString => (acc, n, s)
  end.

Definition readSign (s : string) : bool * string :=
  match s with
  | String "-"%char s' => (true, s')
  | String "+"%char s' => (false, s')
  | _ => (false, s)
  end.

Definition pow10 (n : Z) : Q :=
  if 0 <=? n then inject_Z (10 ^ n) else 1 # Z.to_pos (10 ^ (- n)).

(** The exponent part [e±ddd] at the head of [s], if there is one. *)
Definition readExponent (s : string) : Z :=
  match s with
  | String c s' =>
      if Ascii.eqb c "e" || Ascii.eqb c "E" then
        let '(neg, s'') := readSign s' in
        let '(e, n, _) := readDigits 0 0 s'' in
        if (n =? 0)%nat then 0 else if neg then - e else e
      else 0
  | EmptyString => 0
  end.

(** [parseFloat]: the longest prefix, after leading white space, that
    is a decimal literal.  The literal [Infinity] is not a rational and
    is read as NaN here. *)
Definition parseFloat (s : string) : option Q :=
  let '(neg, s1) := readSign (trimStart s) in
  let '(iv, ic, s2) := readDigits 0 0 s1 in
  let '(fv, fc, s3) :=
    match s2 with
    | String "."%char s2' => readDigits 0 0 s2'
    | _ => (0, 0%nat, s2)
    end in
  if ((ic =? 0) && (fc =? 0))%nat then None
  else
    let mantissa := (inject_Z iv + inject_Z fv * pow10 (- Z.of_nat fc))%Q in
    let value := (mantissa * pow10 (readExponent s3))%Q in
    Some (Qred (if neg then - value else value)%Q).

(** The digits of [num / den] after the decimal point, at most [fuel]
    of them. *)
Fixpoint fractionDigits (fuel : nat) (num den : Z) : string :=
  match fuel with
  | O => ""
  | S fuel' =>
      if num =? 0 then ""
      else pretty (10 * num / den) ++ fractionDigits fuel' (10 * num mod den) den
  end.

(** [String(n)]: exact on the integers and on the decimals of at most
    twenty places; no exponent notation. *)
Definition Number_toString (q : Q) : string :=
  let num := Z.abs (Qnum q) in
  let den := Z.pos (Qden q) in
  let frac := fractionDigits 20 (num mod den) den in
  (if Qnum q <? 0 then "-" else "")
    ++ pretty (num / den)
    ++ (if String.eqb frac "" then "" else "." ++ frac).

Definition pad2 (n : Z) : string :=
  if n <? 10 then "0" ++ pretty n else pretty n.

Definition pad4 (n : Z) : string :=
  if n <? 10 then "000" ++ pretty n
  else if n <? 100 then "00" ++ pretty n
  else if n <? 1000 then "0" ++ pretty n
  else pretty n.

(** [toLocaleDateString('pt-BR')]: day, month and year of a date of
    the common era. *)
Definition toLocaleDateString (d : Date) : string :=
  match d with
  | DateOf t =>
      pad2 (DateFromTime t) ++ "/" ++ pad2 (MonthFromTime t + 1) ++ "/"
        ++ pretty (YearFromTime t)
  | InvalidDate => "Invalid Date"
  end.

Definition weekDays : list string := ["Sun"; "Mon"; "Tue"; "Wed"; "Thu"; "Fri"; "Sat"].
Definition monthNames : list string :=
  ["Jan"; "Feb"; "Mar"; "Apr"; "May"; "Jun"; "Jul"; "Aug"; "Sep"; "Oct"; "Nov"; "Dec"].

(** [String(d)] for a date of the common era, in UTC. *)
Definition Date_toString (d : Date) : string :=
  match d with
  | DateOf t =>
      let s := TimeWithinDay t / 1000 in
      nth (Z.to_nat ((Day t + 4) mod 7)) weekDays "" ++ " "
        ++ nth (Z.to_nat (MonthFromTime t)) monthNames "" ++ " "
        ++ pad2 (DateFromTime t) ++ " " ++ pad4 (YearFromTime t) ++ " "
        ++ pad2 (s / 3600) ++ ":" ++ pad2 (s / 60 mod 60) ++ ":" ++ pad2 (s mod 60)
        ++ " GMT+0000 (Coordinated Universal Time)"
  | InvalidDate => "Invalid Date"
  end.

(** [new Date(s)] on the date-only form [YYYY-MM-DD], which is read as
    UTC midnight; any other string gives the invalid date here (a real
    engine accepts more forms). *)
Definition Date_parse (s : string) : Date :=
  match matchGroups 4 2 2 "-" s with
  | Some (y, m, d) =>
      let mi := parseInt m in
      let di := parseInt d in
      if (1 <=? mi) && (mi <=? 12) && (1 <=? di) && (di <=? 31)
      then TimeClip (MakeDate (MakeDay (parseInt y) (mi - 1) di) 0)
      else InvalidDate
  | None => InvalidDate
  end.

(** [XLSX.SSF.parse_date_code] with its default options: the 1900 date
    system, serial 60 being the 29th of February 1900 that never was. *)
Definition parse_date_code (v : Q) : option (Z * Z * Z) :=
  if Qltb 2958465 v || Qltb v 0 then None
  else
    let date := truncate v in
    let seconds := (86400 * (v - inject_Z date))%Q in
    let time := Qfloor seconds in
    let u := (seconds - inject_Z time)%Q in
    let date := if Qltb (9999 # 10000) u && (time + 1 =? 86400) then date + 1 else date in
    if date =? 60 then Some (1900, 2, 29)
    else if date =? 0 then Some (1900, 1, 0)
    else
      let date := if 60 <? date then date - 1 else date in
      let t := MakeDate (MakeDay 1900 0 1 + date - 1) 0 in
      Some (YearFromTime t, MonthFromTime t + 1, DateFromTime t).

Definition host : Host :=
  Build_Host toUpperCase parseFloat Number_toString Date_toString Date_parse
             toLocaleDateString 0 parse_date_code eq_refl (conj eq_refl eq_refl).

End Host0.


(** The configuration with the document check switched as given. *)
Definition withDocumentCheck (b : bool) (config : CleansingConfig) : CleansingConfig :=
  {| mapping := mapping config;
     prescription := prescription config;
     immunity := immunity config;
     exemption := exemption config;
     incomplete :=
       {| IncompleteRules.enabled := IncompleteRules.enabled (incomplete config);
          IncompleteRules.keywords := IncompleteRules.keywords (incomplete config);
          IncompleteRules.check_cpf_cnpj := b |} |}.


(** ** Auxiliary notions of the proofs *)

(** What [new Date(y, 0, 1)] has to be: local midnight of the first of
    January of year [y], far from the ends of the time-value range. *)
Definition januaryFirst (y : Z) : bool :=
  let t := MakeDate (MakeDay y 0 1) 0 in
  (YearFromTime t =? y) && (MonthFromTime t =? 0) && (DateFromTime t =? 1)
  && (TimeWithinDay t =? 0) && (Z.abs t + msPerDay <=? 8640000000000000).

(** The calendar at the ends of month [m] of year [y]: its first day
    and its last day are read back as such, and the day after the last
    is the first of the next month. *)
Definition calendarMonth (y m : Z) : bool :=
  let first := MakeDate (MakeDay y m 1) 0 in
  let last := MakeDate (MakeDay y (m + 1) 0) 0 in
  (YearFromTime first =? y) && (MonthFromTime first =? m) && (DateFromTime first =? 1)
  && (YearFromTime last =? y) && (MonthFromTime last =? m)
  && (MakeDay y m (DateFromTime last + 1) =? MakeDay y (m + 1) 1).

Definition calendarYear (y : Z) : bool := forallb (calendarMonth y) (seqZ 0 12).

Definition countsTotal (counts : gmap string nat) : nat :=
  (count counts Valido + count counts Prescrito + count counts Imune
   + count counts Isento + count counts DadosIncompletos)%nat.

(** The five counters are there. *)
Definition allLabels (counts : gmap string nat) : Prop :=
  forall s : Status, is_Some (counts !! label s).

(** The status column of a row holds one of the five labels. *)
Definition hasStatus (row : Row) : Prop :=
  exists s : Status, row !! col_status = Some (CStr (label s)).

Definition isValidoStatus (s : Status) : bool := status_eqb s Valido.
Definition isRemovedStatus (s : Status) : bool := negb (status_eqb s Valido).

(** ** The earlier revision

    The source holds an earlier revision of [excelProcessor.ts] too.
    It differs from the one above in [parseDate], which has no bare-year
    branch and does not trim, and in the document check, which does not
    ask whether the document column is mapped. *)
Module Earlier.
Section Pipeline.
Context {host : Host}.

Fixpoint tryFormats (i : nat) (fs : list (string -> option (string * string * string)))
    (value : string) : option Date :=
  match fs with
  | [] => None
  | format :: fs' =>
      match format value with
      | Some (m1, m2, m3) =>
          if (i =? 0)%nat || (i =? 2)%nat
          then Some (newDate (inject_Z (parseInt m3)) (parseInt m2 - 1) (parseInt m1))
          else Some (newDate (inject_Z (parseInt m1)) (parseInt m2 - 1) (parseInt m3))
      | None => tryFormats (S i) fs' value
      end
  end.

Definition parseDate (value : option Cell) : option Date :=
  if negb (truthy value) then None
  else
    match value with
    | Some (CDate d) => Some d
    | Some (CNum n) =>
        match parse_date_code n with
        | Some (y, m, d) => Some (newDate (inject_Z y) (m - 1) d)
        | None => None
        end
    | Some (CStr s) => tryFormats 0 formats s
    | _ => None
    end.

(** [check_cpf_cnpj && tempDoc === ''] *)
Definition isBadDoc (config : CleansingConfig) (row : Row) : bool :=
  IncompleteRules.check_cpf_cnpj (incomplete config)
  && String.eqb (tempDoc (mapping config) row) "".

End Pipeline.
End Earlier.

(** ** Concrete rows and configurations *)

Module Scenario.

Definition mapping0 : ColumnMapping :=
  {| debt_id := "ID"; taxpayer_name := "Nome"; cpf_cnpj := None;
     due_date := "Vencimento"; amount := "Valor";
     tribute_type := Some "Tributo"; tax_year := None |}.

(** Two days, at midnight UTC. *)
Definition jan_1_2019 : Date := DateOf 1546300800000.
Definition jan_31_2020 : Date := DateOf 1580428800000.

(** The first instant of 2024, UTC. *)
Definition now0 : Z := 1704067200000.

Definition prescription0 (years : Q) (reference : option string) : PrescriptionRules.t :=
  {| PrescriptionRules.enabled := true;
     PrescriptionRules.years := years;
     PrescriptionRules.reference_date := reference |}.

Definition immunity0 : ImmunityRules.t :=
  {| ImmunityRules.enabled := true;
     ImmunityRules.keywords := ["ESTADO"; "MUNICIPIO"; "TEMPLO"; "PARTIDO"; "SINDICATO"] |}.

Definition exemption0 (threshold : Q) (tributes : list string) : ExemptionRules.t :=
  {| ExemptionRules.enabled := true;
     ExemptionRules.amount_threshold := threshold;
     ExemptionRules.tributes := tributes |}.

Definition incomplete0 : IncompleteRules.t :=
  {| IncompleteRules.enabled := true;
     IncompleteRules.keywords := ["IGNORADO"; "DESCONHECIDO"; "SEM NOME"];
     IncompleteRules.check_cpf_cnpj := true |}.

Definition config0 (m : ColumnMapping) (p : PrescriptionRules.t) (e : ExemptionRules.t)
  : CleansingConfig :=
  {| mapping := m; prescription := p; immunity := immunity0;
     exemption := e; incomplete := incomplete0 |}.

(** The defaults of the application: five years, no exemption. *)
Definition defaults : CleansingConfig :=
  config0 mapping0 (prescription0 5 (Some "2024-01-01")) (exemption0 0 []).

Definition row0 (name due : string) (value : Cell) (tribute : string) : Row :=
  {[ "ID" := CNum 1; "Nome" := CStr name; "Vencimento" := CStr due;
     "Valor" := value; "Tributo" := CStr tribute ]}.

Definition maria : Row := row0 "Maria da Silva" "31/01/2023" (CStr "R$ 1.234,56") "IPTU".

(** A name of two letters, padded with three spaces. *)
Definition padded : Row := row0 "Jo   " "31/01/2023" (CNum 10) "".

(** Exemption below 100, and for the tribute IPTU. *)
Definition exempting : CleansingConfig :=
  config0 mapping0 (prescription0 5 (Some "2024-01-01")) (exemption0 100 ["iptu"]).

(** A small IPTU debt, due fourteen years before the reference date,
    and one due the year before it. *)
Definition oldDebt : Row := row0 "Maria da Silva" "01/01/2010" (CNum 10) "Iptu".
Definition newDebt : Row := row0 "Maria da Silva" "01/01/2023" (CNum 10) "Iptu".

(** Prescription after twenty years, and after five, by the clock. *)
Definition twentyYears : CleansingConfig :=
  config0 mapping0 (prescription0 20 None) (exemption0 0 []).
Definition fiveYears : CleansingConfig :=
  config0 mapping0 (prescription0 5 None) (exemption0 0 []).

(** A debt of a state, due ten years before [now0] to the day. *)
Definition bahia : Row := row0 "Estado da Bahia" "01/01/2014" (CNum 10) "ISS".

(** A debt due on the first day of 2019, and the clock one day before
    and one day after [now0]. *)
Definition due2019 : Row := row0 "Maria da Silva" "01/01/2019" (CNum 10) "ISS".
Definition dayBefore : Z := now0 - msPerDay.
Definition dayAfter : Z := now0 + msPerDay.

(** A sheet without the name and the due date columns. *)
Definition twoColumns : Row := {[ "ID" := CNum 1; "Valor" := CNum 10 ]}.

(** A sheet that already has a column [Motivo_Higienizacao], which the
    mapping takes for the amount. *)
Definition mappingMotivo : ColumnMapping :=
  {| debt_id := "ID"; taxpayer_name := "Nome"; cpf_cnpj := None;
     due_date := "Vencimento"; amount := col_motivo;
     tribute_type := None; tax_year := None |}.
Definition amountInMotivo : CleansingConfig :=
  config0 mappingMotivo (prescription0 5 (Some "2024-01-01")) (exemption0 0 []).
Definition exported : Row :=
  {[ "ID" := CNum 1; "Nome" := CStr "Maria da Silva";
     "Vencimento" := CStr "31/01/2023"; col_motivo := CNum 100 ]}.

Definition threeRows : list Row := [maria; bahia; padded].

(** A sheet with a column named [hasOwnProperty] and no due date
    column. *)
Definition ownMethodColumn : Row :=
  {[ "ID" := CNum 1; "Nome" := CStr "Maria da Silva"; "Valor" := CNum 10;
     "hasOwnProperty" := CStr "sim" ]}.

(** The summary of a run, if it returned one. *)
Definition summaryOf (r : Exception + ProcessResult) : option CleansingResult :=
  match r with
  | inr res => Some (summary res)
  | inl _ => None
  end.

End Scenario.

(** * More of the code

    The notions the further properties are stated with, then the model
    of [exportToExcel] and of the callers. *)

(** A string that does not begin with white space. *)
Definition startsClean (s : string) : bool :=
  match s with
  | String c _ => negb (isWhiteSpace c)
  | EmptyString => true
  end.

Definition endsClean (s : string) : bool := startsClean (reverse_string s).

Definition allDigits (s : string) : bool := forallb isDigit (list_ascii_of_string s).

Definition allWhite (s : string) : bool := forallb isWhiteSpace (list_ascii_of_string s).

(** Digits and dots, as before a decimal comma. *)
Definition isGrouped (s : string) : bool :=
  forallb (fun c => isDigit c || Ascii.eqb c ".") (list_ascii_of_string s).

(** No white space and no [R]: nothing for [trim] or for the currency
    pattern to take. *)
Definition isBare (s : string) : bool :=
  forallb (fun c => negb (isWhiteSpace c) && negb (Ascii.eqb c "R")) (list_ascii_of_string s).

(** What [parseAmount] hands to [parseFloat]. *)
Definition cleanedAmount (s : string) : string :=
  let cleaned := trim (stripCurrency false s) in
  if includesChar cleaned "," && includesChar cleaned "."
  then replaceFirst "," "." (removeAll "." cleaned)
  else if includesChar cleaned ","
  then replaceFirst "," "." cleaned
  else cleaned.

Definition noDigit (s : string) : bool :=
  forallb (fun c => negb (isDigit c)) (list_ascii_of_string s).

(** The number of rows with status [s]. *)
Definition rowsWith (s : Status) (l : list (Status * Q)) : nat :=
  length (List.filter (fun sa => status_eqb (fst sa) s) l).

Definition zeroSummary : CleansingResult :=
  {| total_records := 0; processed_records := 0; prescribed_count := 0;
     immune_count := 0; exempt_count := 0; incomplete_count := 0; valid_count := 0;
     total_amount_removed := 0; total_amount_valid := 0 |}.

(** The percentage reported at row [index], before the cap at 90. *)
Definition rowPercent (totalRows index : nat) : Q :=
  10 + inject_Z (Z.of_nat index) / inject_Z (Z.of_nat totalRows) * 80.

(** ** [exportToExcel]

    The workbook is written by the spreadsheet library; the model keeps
    what the function hands to it: the rows of the five data sheets and
    the two blocks of rows of the sheet [Resumo]. *)

Definition o_acute : string := cu 243.
Definition c_cedilla : string := cu 231.

Definition sheet_divida : string := Eval cbv in ("D" ++ i_acute ++ "vida Ativa").
Definition sheet_imunes : string := "Imunes e Isentos".
Definition sheet_prescritos : string := "Prescritos".
Definition sheet_ignorados : string := "Ignorados".
Definition sheet_validos : string :=
  Eval cbv in (sheet_divida ++ " ap" ++ o_acute ++ "s higieniza" ++ c_cedilla ++ a_tilde ++ "o").
Definition sheet_resumo : string := "Resumo".
Definition total_antes : string :=
  Eval cbv in ("Total antes de higieniza" ++ c_cedilla ++ a_tilde ++ "o").

(** [r.Status_Higienizacao === label] *)
Definition statusIs (s : Status) (row : Row) : bool :=
  match row !! col_status with
  | Some (CStr t) => String.eqb t (label s)
  | _ => false
  end.

Module YearStat.
Record t := { valid : Q; immune : Q; incomplete : Q; prescribed : Q }.
End YearStat.

Definition zeroStat : YearStat.t :=
  {| YearStat.valid := 0; YearStat.immune := 0;
     YearStat.incomplete := 0; YearStat.prescribed := 0 |}.

(** The members an empty object literal inherits from
    [Object.prototype]: [yearStats[year]] finds them though they are
    not years, and a write through them does not reach [yearStats]. *)
Definition inheritedNames : list string :=
  ["constructor"; "__proto__"; "hasOwnProperty"; "isPrototypeOf";
   "propertyIsEnumerable"; "toLocaleString"; "toString"; "valueOf";
   "__defineGetter__"; "__defineSetter__"; "__lookupGetter__"; "__lookupSetter__"].

Definition isInherited (name : string) : bool := existsb (String.eqb name) inheritedNames.

Record Workbook := {
  sheets : list (string * list Row);
  summaryRows : list Row;
  tableData : list Row;
}.

Section ExportModel.
Context {host : Host}.
(** [new Intl.NumberFormat('pt-BR', { style: 'currency', currency: 'BRL' }).format] *)
Variable formatCurrency : Q -> string.

(** [data.reduce((acc, row) => acc + parseAmount(row[mapping.amount]), 0)] *)
Definition totalAmount (m : ColumnMapping) (data : list Row) : Q :=
  fold_left (fun acc row => (acc + parseAmount (row !! amount m))%Q) data 0%Q.

(** [parseAmount(row[mapping.amount])] *)
Definition amountOf (m : ColumnMapping) (row : Row) : Q := parseAmount (row !! amount m).

(** The rows the summary adds to [totalValid]: [status !== 'Válido']
    is false. *)
Definition isValidRow (row : Row) : bool := negb (notValido (row !! col_status)).

(** [date.getFullYear().toString()] for the parsed due date, [N/A]
    without one. *)
Definition yearFromDate (m : ColumnMapping) (row : Row) : string :=
  if negb (String.eqb (due_date m) "") then
    match parseDate (row !! due_date m) with
    | Some (DateOf t) => Number_toString (inject_Z (YearFromTime (LocalTime t)))
    | Some InvalidDate => "NaN"
    | None => "N/A"
    end
  else "N/A".

(** The year a row is filed under: the tax year column when it is
    mapped and the cell is truthy, the year of the due date otherwise. *)
Definition yearOf (m : ColumnMapping) (row : Row) : string :=
  match tax_year m with
  | Some col =>
      if mapped (tax_year m) && truthy (row !! col)
      then match row !! col with Some c => ToString c | None => "N/A" end
      else yearFromDate m row
  | None => yearFromDate m row
  end.

(** The chain of [if]s on the status of a row. *)
Definition addAmount (row : Row) (a : Q) (st : YearStat.t) : YearStat.t :=
  if statusIs Valido row
  then {| YearStat.valid := YearStat.valid st + a;
          YearStat.immune := YearStat.immune st;
          YearStat.incomplete := YearStat.incomplete st;
          YearStat.prescribed := YearStat.prescribed st |}
  else if statusIs Imune row || statusIs Isento row
  then {| YearStat.valid := YearStat.valid st;
          YearStat.immune := YearStat.immune st + a;
          YearStat.incomplete := YearStat.incomplete st;
          YearStat.prescribed := YearStat.prescribed st |}
  else if statusIs DadosIncompletos row
  then {| YearStat.valid := YearStat.valid st;
          YearStat.immune := YearStat.immune st;
          YearStat.incomplete := YearStat.incomplete st + a;
          YearStat.prescribed := YearStat.prescribed st |}
  else if statusIs Prescrito row
  then {| YearStat.valid := YearStat.valid st;
          YearStat.immune := YearStat.immune st;
          YearStat.incomplete := YearStat.incomplete st;
          YearStat.prescribed := YearStat.prescribed st + a |}
  else st.

(** One turn of [data.forEach]. *)
Definition fileRow (m : ColumnMapping) (stats : gmap string YearStat.t) (row : Row)
  : gmap string YearStat.t :=
  let year := yearOf m row in
  if isInherited year then stats
  else
    let st := default zeroStat (stats !! year) in
    <[year := addAmount row (parseAmount (row !! amount m)) st]> stats.

Definition yearStats (m : ColumnMapping) (data : list Row) : gmap string YearStat.t :=
  fold_left (fileRow m) data ∅.

Definition leString (a b : string) : Prop := String.leb a b = true.

#[local] Instance leString_dec : RelDecision leString.
Proof. intros a b. unfold leString. apply _. Defined.

(** [Object.keys(yearStats).sort()] *)
Definition sortedYears (stats : gmap string YearStat.t) : list string :=
  merge_sort leString (fst <$> map_to_list stats).

Definition tableRow (stats : gmap string YearStat.t) (year : string) : Row :=
  let st := default zeroStat (stats !! year) in
  {[ "Ano" := CStr year;
     sheet_divida := CStr (formatCurrency (YearStat.valid st));
     "Imunes" := CStr (formatCurrency (YearStat.immune st));
     "Ignorados" := CStr (formatCurrency (YearStat.incomplete st));
     "Prescritos" := CStr (formatCurrency (YearStat.prescribed st)) ]}.

(** The file name only says where the workbook is written; it is left
    out. *)
Definition exportToExcel (data : list Row) (m : ColumnMapping) : Workbook :=
  let stats := yearStats m data in
  {| sheets :=
       [ (sheet_divida, data);
         (sheet_imunes, List.filter (fun r => statusIs Imune r || statusIs Isento r) data);
         (sheet_prescritos, List.filter (statusIs Prescrito) data);
         (sheet_ignorados, List.filter (statusIs DadosIncompletos) data);
         (sheet_validos, List.filter (statusIs Valido) data) ];
     summaryRows :=
       [ {[ "Resumo" := CStr total_antes;
            "Valor" := CStr (formatCurrency (totalAmount m data)) ]}; ∅ ];
     tableData := tableRow stats <$> sortedYears stats |}.

(** The amounts of the rows filed under [year] that satisfy [p]. *)
Definition filedUnder (m : ColumnMapping) (year : string) (p : Row -> bool)
    (rows : list Row) : Q :=
  sumQ (map (fun row => parseAmount (row !! amount m))
            (List.filter (fun row => String.eqb (yearOf m row) year && p row) rows)).

Definition statAt (stats : gmap string YearStat.t) (year : string) : YearStat.t :=
  default zeroStat (stats !! year).

End ExportModel.

(** A sum as a loop makes it: from 0, one addition for each element,
    in the order of the list. *)
Definition runningSum (l : list Q) : Q := fold_left Qplus l 0%Q.

(** ** The callers: the dashboard, the keyword fields, the file name *)

(** [(count / result.total_records) * 100], the width of a segment of
    the distribution bar. *)
Definition share (count total : Z) : Q := inject_Z count / inject_Z total * 100.

(** The widths of the five segments, in the order of the bar. *)
Definition distribution (r : CleansingResult) : list Q :=
  let total := Z.of_nat (total_records r) in
  [ share (Z.of_nat (valid_count r)) total;
    share (Z.of_nat (prescribed_count r)) total;
    share (Z.of_nat (immune_count r)) total;
    share (Z.of_nat (exempt_count r)) total;
    share (Z.of_nat (incomplete_count r)) total ].

(** [(total_records - valid_count) / total_records * 100], before
    [toFixed]. *)
Definition removedPercentage (r : CleansingResult) : Q :=
  share (Z.of_nat (total_records r) - Z.of_nat (valid_count r)) (Z.of_nat (total_records r)).

(** [s.split(c)] for a one character separator. *)
Fixpoint splitOn (c : ascii) (s : string) : list string :=
  match s with
  | EmptyString => [""]
  | String d s' =>
      if Ascii.eqb d c then "" :: splitOn c s'
      else match splitOn c s' with
           | x :: xs => String d x :: xs
           | [] => [String d ""]
           end
  end.

(** [value.split(',').map(k => k.trim()).filter(Boolean)], what the
    keyword fields of the rules form store. *)
Definition parseKeywords (value : string) : list string :=
  List.filter (fun k => negb (String.eqb k "")) (map trim (splitOn "," value)).

(** A keyword as the form stores it: not empty, no white space at
    either end, no comma. *)
Definition isKeyword (k : string) : bool :=
  negb (String.eqb k "") && startsClean k && endsClean k && negb (includesChar k ",").

(** [name.replace(/\.[^/.]+$/, '')] *)
Definition isExtension (s : string) : bool :=
  negb (String.eqb s "") && negb (includesChar s "/") && negb (includesChar s ".").

Fixpoint stripExtension (name : string) : string :=
  match name with
  | EmptyString => EmptyString
  | String c s =>
      if Ascii.eqb c "." && isExtension s then EmptyString
      else String c (stripExtension s)
  end.

(** [`higienizado_${file.name.replace(/\.[^/.]+$/, '')}.xlsx`] *)
Definition exportFileName (name : string) : string :=
  "higienizado_" ++ stripExtension name ++ ".xlsx".

(** ** Further concrete rows and configurations *)

Module Cases.
Import Scenario.

(** A stand-in for the currency format of the engine. *)
Definition plainCurrency (q : Q) : string := "R$ " ++ Host0.Number_toString q.

(** No rule enabled. *)
Definition allOff : CleansingConfig :=
  {| mapping := mapping0;
     prescription := {| PrescriptionRules.enabled := false; PrescriptionRules.years := 5;
                        PrescriptionRules.reference_date := None |};
     immunity := {| ImmunityRules.enabled := false; ImmunityRules.keywords := ["ESTADO"] |};
     exemption := {| ExemptionRules.enabled := false; ExemptionRules.amount_threshold := 100;
                     ExemptionRules.tributes := ["IPTU"] |};
     incomplete := {| IncompleteRules.enabled := false; IncompleteRules.keywords := [];
                      IncompleteRules.check_cpf_cnpj := true |} |}.

(** A reference date that is no date. *)
Definition badReference : CleansingConfig :=
  config0 mapping0 (prescription0 5 (Some "yesterday")) (exemption0 0 []).

(** A due date that is no date, and a row without a name. *)
Definition noDate : Row := row0 "Maria da Silva" "sem data" (CNum 10) "ISS".

(** The document column mapped, and a row whose document has no digit. *)
Definition mappingDoc : ColumnMapping :=
  {| debt_id := "ID"; taxpayer_name := "Nome"; cpf_cnpj := Some "CPF";
     due_date := "Vencimento"; amount := "Valor";
     tribute_type := None; tax_year := None |}.
Definition withDoc : CleansingConfig :=
  config0 mappingDoc (prescription0 5 (Some "2024-01-01")) (exemption0 0 []).
Definition noDocument : Row :=
  {[ "ID" := CNum 3; "Nome" := CStr "Maria da Silva"; "CPF" := CStr "N/A";
     "Vencimento" := CStr "31/01/2023"; "Valor" := CNum 10 ]}.

(** An empty keyword among the immunity keywords. *)
Definition emptyKeyword : CleansingConfig :=
  {| mapping := mapping0;
     prescription := prescription0 5 (Some "2024-01-01");
     immunity := {| ImmunityRules.enabled := true; ImmunityRules.keywords := ["ESTADO"; ""] |};
     exemption := exemption0 0 [];
     incomplete := incomplete0 |}.

(** No field mapped, as when the application starts. *)
Definition DEFAULT_MAPPING : ColumnMapping :=
  {| debt_id := ""; taxpayer_name := ""; cpf_cnpj := None; due_date := "";
     amount := ""; tribute_type := None; tax_year := None |}.
Definition unmapped : CleansingConfig :=
  config0 DEFAULT_MAPPING (prescription0 5 (Some "2024-01-01")) (exemption0 0 []).

(** The annotated rows of the run on the three rows. *)
Definition annotated : list Row :=
  @processRows Host0.host (fun _ => now0) defaults threeRows.

End Cases.

(** * Properties *)

(** ** The date and amount tables of the specification, on [Host0] *)

Module Examples.
Import Host0 Scenario.
#[local] Existing Instance host.

Example date_slash : parseDate (Some (CStr "31/01/2020")) = Some jan_31_2020.
Proof. reflexivity. Qed.
Example date_iso : parseDate (Some (CStr "2020-01-31")) = Some jan_31_2020.
Proof. reflexivity. Qed.
Example date_dash : parseDate (Some (CStr "31-01-2020")) = Some jan_31_2020.
Proof. reflexivity. Qed.
Example date_year_string : parseDate (Some (CStr "2019")) = Some jan_1_2019.
Proof. reflexivity. Qed.
Example date_year_number : parseDate (Some (CNum 2019)) = Some jan_1_2019.
Proof. reflexivity. Qed.
Example date_garbage : parseDate (Some (CStr "garbage")) = None.
Proof. reflexivity. Qed.
Example date_serial : parseDate (Some (CNum 43861)) = Some jan_31_2020.
Proof. vm_compute. reflexivity. Qed.
Example date_printed : toLocaleDateString jan_31_2020 = "31/01/2020".
Proof. vm_compute. reflexivity. Qed.

Example amount_brl : parseAmount (Some (CStr "R$ 1.234,56")) = (30864 # 25)%Q.
Proof. vm_compute. reflexivity. Qed.
Example amount_comma : parseAmount (Some (CStr "1234,56")) = (30864 # 25)%Q.
Proof. vm_compute. reflexivity. Qed.
Example amount_point : parseAmount (Some (CStr "1234.56")) = (30864 # 25)%Q.
Proof. vm_compute. reflexivity. Qed.
Example amount_empty : parseAmount (Some (CStr "")) = 0%Q.
Proof. reflexivity. Qed.
Example amount_letters : parseAmount (Some (CStr "abc")) = 0%Q.
Proof. reflexivity. Qed.

Example progress_three_rows :
  map fst (progressCalls threeRows defaults) = [10%Q; 30 # 3; 110 # 3; 190 # 3; 95%Q; 100%Q].
Proof. vm_compute. reflexivity. Qed.
Example progress_none_on_error : progressCalls [] defaults = [].
Proof. vm_compute. reflexivity. Qed.
End Examples.

Section Rules.
Context {host : Host}.
Implicit Types (config : CleansingConfig) (row : Row) (now : Z) (st : Status * string).

(** An empty list of tributes exempts nothing, so the guard on its
    length changes nothing. *)
Lemma isExemptTribute_nonempty (e : ExemptionRules.t) (tribute : string) :
  isExemptTribute e tribute = true -> (0 <? length (ExemptionRules.tributes e))%nat = true.
Proof.
  unfold isExemptTribute. destruct (ExemptionRules.tributes e); simpl; [discriminate | done].
Qed.

Lemma exemptByTribute_eq config row st :
  exemptByTribute config row st =
  if exemptTribute config row then (Isento, motivo_tributo) else st.
Proof.
  unfold exemptByTribute, exemptTribute.
  destruct (isExemptTribute _ _) eqn:E.
  - by rewrite (isExemptTribute_nonempty _ _ E).
  - by destruct (0 <? _)%nat.
Qed.

Lemma classify_firstMatch now config row :
  classify now config row = firstMatch now config row.
Proof.
  unfold classify, checkPrescription, checkImmunity, checkExemption, checkIncomplete.
  unfold firstMatch, prescribes, immunises, exempts, incompletes.
  rewrite !exemptByTribute_eq.
  unfold exemptByAmount, exemptAmount, isValido.
  destruct (PrescriptionRules.enabled _), (isPrescribed _ _ _);
    destruct (ImmunityRules.enabled _), (hasKeyword _ _);
    destruct (ExemptionRules.enabled _), (belowThreshold _ _), (exemptTribute _ _);
    destruct (IncompleteRules.enabled _), (isBadName _ _), (isBadDoc _ _);
    reflexivity.
Qed.

(** Without a mapped document column the document is never bad. *)
Lemma isBadDoc_unmapped config row :
  mapped (cpf_cnpj (mapping config)) = false -> isBadDoc config row = false.
Proof.
  intros Hm. unfold isBadDoc. rewrite Hm.
  by destruct (IncompleteRules.check_cpf_cnpj _).
Qed.

Lemma isBadDoc_unchecked config row : isBadDoc (withDocumentCheck false config) row = false.
Proof. reflexivity. Qed.

(** The document check enters the classification through [isBadDoc]
    alone. *)
Lemma classify_withDocumentCheck now config row (b : bool) :
  isBadDoc config row = isBadDoc (withDocumentCheck b config) row ->
  classify now config row = classify now (withDocumentCheck b config) row.
Proof.
  intros Hdoc.
  unfold classify, checkIncomplete. rewrite <- Hdoc.
  destruct config as [m p i e [en kw chk]]. reflexivity.
Qed.

(** ** The document check without a document column *)

(** C1. With the incomplete rule enabled, [check_cpf_cnpj] true and the
    [cpf_cnpj] field not mapped, the document check never fires: the
    row is classified as if the check were switched off, a status of
    Incomplete can only come from the name, and a row on which no other
    rule fires and whose name is good is Valid. *)
Theorem unmapped_document_never_incomplete now config row :
  IncompleteRules.enabled (incomplete config) = true ->
  IncompleteRules.check_cpf_cnpj (incomplete config) = true ->
  mapped (cpf_cnpj (mapping config)) = false ->
  isBadDoc config row = false
  /\ classify now config row = classify now (withDocumentCheck false config) row
  /\ (fst (classify now config row) = DadosIncompletos ->
      isBadName (incomplete config) (tempName (mapping config) row) = true)
  /\ (prescribes now config row = false ->
      immunises config row = false ->
      exempts config row = false ->
      isBadName (incomplete config) (tempName (mapping config) row) = false ->
      classify now config row = (Valido, "")).
Proof.
  intros Hen Hchk Hm.
  pose proof (isBadDoc_unmapped config row Hm) as Hdoc.
  split; [exact Hdoc |].
  split.
  { apply classify_withDocumentCheck. rewrite Hdoc. symmetry. apply isBadDoc_unchecked. }
  rewrite classify_firstMatch. unfold firstMatch, incompletes. rewrite Hen, Hdoc.
  split.
  - destruct (prescribes _ _ _); [discriminate |].
    destruct (immunises _ _); [discriminate |].
    destruct (exempts _ _); [discriminate |].
    destruct (isBadName _ _); [done | discriminate].
  - intros -> -> -> ->. reflexivity.
Qed.

(** ** The double write of the exemption rule *)

(** C4. With the exemption rule enabled, on a row that neither the
    prescription rule nor the immunity rule has taken, when the amount
    is below a positive threshold and the tribute is one of the exempt
    ones: the amount block writes its reason first, the tribute block
    overwrites it, and the row ends Exempt with the tribute reason. *)
Theorem exemption_tribute_reason_wins now config row :
  ExemptionRules.enabled (exemption config) = true ->
  prescribes now config row = false ->
  immunises config row = false ->
  belowThreshold (exemption config) (tempAmount (mapping config) row) = true ->
  isExemptTribute (exemption config) (tempTribute (mapping config) row) = true ->
  exemptByAmount config row (Valido, "")
    = (Isento, motivo_valor (ExemptionRules.amount_threshold (exemption config)))
  /\ exemptByTribute config row (exemptByAmount config row (Valido, ""))
    = (Isento, motivo_tributo)
  /\ classify now config row = (Isento, motivo_tributo).
Proof.
  intros Hen Hp Hi Ha Ht.
  assert (exemptByAmount config row (Valido, "")
          = (Isento, motivo_valor (ExemptionRules.amount_threshold (exemption config)))) as H1.
  { unfold exemptByAmount. by rewrite Ha. }
  split; [exact H1 |]. split.
  - rewrite exemptByTribute_eq. unfold exemptTribute. by rewrite Ht.
  - rewrite classify_firstMatch. unfold firstMatch, exempts, exemptAmount, exemptTribute.
    by rewrite Hp, Hi, Hen, Ha, Ht.
Qed.

(** ** The order of the rules *)

(** C5. The four consecutive blocks of the code compute the first match
    in the order prescription, immunity, exemption, incomplete; and a
    row whose due date is before the cutoff and whose name contains an
    immunity keyword, both rules enabled, is Prescribed, with the reason
    of the prescription rule. *)
Theorem first_matching_rule_wins now config row :
  classify now config row = firstMatch now config row
  /\ (PrescriptionRules.enabled (prescription config) = true ->
      ImmunityRules.enabled (immunity config) = true ->
      isPrescribed now (prescription config) (tempDate (mapping config) row) = true ->
      hasKeyword (ImmunityRules.keywords (immunity config)) (tempName (mapping config) row) = true ->
      classify now config row
        = (Prescrito, motivo_prescrito (cutoffDate now (prescription config)))
      /\ checkImmunity config row (checkPrescription now config row (Valido, ""))
        = checkPrescription now config row (Valido, "")).
Proof.
  split; [apply classify_firstMatch |].
  intros Hp Hi Hd Hk.
  rewrite classify_firstMatch. unfold firstMatch, prescribes. rewrite Hp, Hd. simpl.
  split; [reflexivity |].
  unfold checkPrescription, checkImmunity, isValido. rewrite Hp, Hd. simpl.
  by rewrite andb_false_r.
Qed.

End Rules.

(** ** Bare years *)


(** The calendar functions agree with one another at both ends of
    every month of the years around 1900, 2000 to 2024, and around
    2100. *)
Lemma calendar_checked :
  forallb calendarYear (seqZ 1896 10 ++ seqZ 2000 25 ++ seqZ 2096 9) = true.
Proof. vm_compute. reflexivity. Qed.

Lemma januaryFirst_1900_2100 (y : Z) : 1900 <= y <= 2100 -> januaryFirst y = true.
Proof.
  intros Hy.
  assert (forallb januaryFirst (seqZ 1900 201) = true) as Hall by (vm_compute; reflexivity).
  rewrite forallb_forall in Hall. apply Hall.
  apply list_elem_of_In, elem_of_seqZ. lia.
Qed.

Lemma truncate_range (n : Q) (a b : Z) :
  0 <= a -> (inject_Z a <= n <= inject_Z b)%Q -> a <= truncate n <= b.
Proof.
  intros Ha [Hl Hu]. unfold truncate.
  assert (Qle_bool 0 n = true) as ->.
  { apply Qle_bool_iff. eapply Qle_trans; [| exact Hl].
    unfold Qle; simpl. lia. }
  split.
  - rewrite <- (Qfloor_Z a). by apply Qfloor_resp_le.
  - rewrite <- (Qfloor_Z b). by apply Qfloor_resp_le.
Qed.

Section Parsing.
Context {host : Host}.

Lemma newDate_bare_year (n : Q) :
  (1900 <= n <= 2100)%Q ->
  exists tv, newDate n 0 1 = DateOf tv
    /\ YearFromTime (LocalTime tv) = truncate n
    /\ MonthFromTime (LocalTime tv) = 0
    /\ DateFromTime (LocalTime tv) = 1
    /\ TimeWithinDay (LocalTime tv) = 0.
Proof.
  intros Hn.
  pose proof (truncate_range n 1900 2100 ltac:(lia) Hn) as Hy.
  pose proof (januaryFirst_1900_2100 _ Hy) as Hj.
  unfold januaryFirst in Hj.
  repeat (apply andb_prop in Hj as [Hj ?]).
  pose proof LocalTZA_range as Htz. unfold msPerDay in *.
  exists (UTC (MakeDate (MakeDay (truncate n) 0 1) 0)).
  assert (LocalTime (UTC (MakeDate (MakeDay (truncate n) 0 1) 0))
          = MakeDate (MakeDay (truncate n) 0 1) 0) as -> by (unfold LocalTime, UTC; lia).
  split; [| repeat split; lia].
  unfold newDate.
  assert (((0 <=? truncate n) && (truncate n <=? 99)) = false) as -> by lia.
  unfold TimeClip, UTC.
  assert ((Z.abs (MakeDate (MakeDay (truncate n) 0 1) 0 - LocalTZA) <=? 8640000000000000)
          = true) as -> by lia.
  reflexivity.
Qed.

(** C2. A number from 1900 to 2100 is read as a year: [parseDate]
    answers [new Date(n, 0, 1)], a valid date whose local year is the
    integer part of [n], whose month is January and whose day is the
    first, at midnight; the serial-date decoder of the host is not
    consulted. *)
Theorem parseDate_bare_year_number (n : Q) :
  (1900 <= n <= 2100)%Q ->
  parseDate (Some (CNum n)) = Some (newDate n 0 1)
  /\ exists tv, newDate n 0 1 = DateOf tv
       /\ YearFromTime (LocalTime tv) = truncate n
       /\ MonthFromTime (LocalTime tv) = 0
       /\ DateFromTime (LocalTime tv) = 1
       /\ TimeWithinDay (LocalTime tv) = 0.
Proof.
  intros Hn. split; [| by apply newDate_bare_year].
  destruct Hn as [Hl Hu].
  unfold parseDate, truthy.
  assert (Qeq_bool n 0 = false) as ->.
  { destruct (Qeq_bool n 0) eqn:E; [| done].
    apply Qeq_bool_eq in E. rewrite E in Hl. by vm_compute in Hl. }
  simpl.
  assert (Qle_bool 1900 n = true) as -> by by apply Qle_bool_iff.
  assert (Qle_bool n 2100 = true) as -> by by apply Qle_bool_iff.
  reflexivity.
Qed.

(** ** The name *)



End Parsing.

(** ** The validation of the columns *)

(** [filterE] on a callback that throws nowhere on the list. *)
Lemma filterE_inr {A E : Type} (f : A -> E + bool) (p : A -> bool) (l : list A) :
  (forall x, In x l -> f x = inr (p x)) -> filterE f l = inr (List.filter p l).
Proof.
  induction l as [| x l IH]; intros Hf; simpl; [reflexivity |].
  rewrite (Hf x) by (by left). rewrite IH by (intros y Hy; apply Hf; by right).
  by destruct (p x).
Qed.

Lemma filterE_total {A E : Type} (f : A -> E + bool) (l : list A) :
  (forall x, In x l -> exists b, f x = inr b) -> exists kept, filterE f l = inr kept.
Proof.
  induction l as [| x l IH]; intros Hf; simpl; [by eexists |].
  destruct (Hf x) as [b ->]; [by left |].
  destruct IH as [kept ->]; [intros y Hy; apply Hf; by right |]. by eexists.
Qed.

Lemma filterE_In {A E : Type} (f : A -> E + bool) (l kept : list A) (x : A) :
  filterE f l = inr kept -> In x kept <-> In x l /\ f x = inr true.
Proof.
  revert kept. induction l as [| y l IH]; intros kept; simpl.
  - intros [= <-]. simpl. tauto.
  - destruct (f y) as [e | keep] eqn:Ey; [discriminate |].
    destruct (filterE f l) as [e | kept'] eqn:El; [discriminate |].
    intros [= <-]. specialize (IH kept' eq_refl).
    destruct keep; simpl; rewrite IH; split.
    + intros [<- | [H1 H2]]; [by split; [left |] | by split; [right |]].
    + intros [[<- | H1] H2]; [by left | by right].
    + intros [H1 H2]; by split; [right |].
    + intros [[<- | H1] H2]; [congruence | done].
Qed.

Lemma filterE_defined {A E : Type} (f : A -> E + bool) (l kept : list A) (x : A) :
  filterE f l = inr kept -> In x l -> exists b, f x = inr b.
Proof.
  revert kept. induction l as [| y l IH]; intros kept; simpl; [done |].
  destruct (f y) as [e | keep] eqn:Ey; [discriminate |].
  destruct (filterE f l) as [e | kept'] eqn:El; [discriminate |].
  intros _ [<- | Hin]; [by eexists | by eapply IH].
Qed.

Lemma filterE_sublist {A E : Type} (f : A -> E + bool) (l kept : list A) :
  filterE f l = inr kept -> sublist kept l.
Proof.
  revert kept. induction l as [| y l IH]; intros kept; simpl.
  - intros [= <-]. constructor.
  - destruct (f y) as [e | keep]; [discriminate |].
    destruct (filterE f l) as [e | kept']; [discriminate |].
    intros [= <-]. specialize (IH kept' eq_refl). destruct keep; by constructor.
Qed.

(** The exception of the filter is one its callback threw. *)
Lemma filterE_inl_inv {A E : Type} (f : A -> E + bool) (l : list A) (e : E) :
  filterE f l = inl e -> exists x, In x l /\ f x = inl e.
Proof.
  induction l as [| y l IH]; simpl; [discriminate |].
  destruct (f y) as [e' | keep] eqn:Ey.
  - intros [= <-]. exists y. by split; [left |].
  - destruct (filterE f l) as [e' | kept']; [| by destruct keep].
    intros [= <-]. destruct (IH eq_refl) as (x & Hin & Hx). exists x. by split; [right |].
Qed.

Lemma filterE_inl {A E : Type} (f : A -> E + bool) (l : list A) (e : E) (x : A) :
  In x l -> f x = inl e -> (forall y e', f y = inl e' -> e' = e) -> filterE f l = inl e.
Proof.
  intros Hin Hx Hone.
  destruct (filterE f l) as [e' | kept] eqn:El.
  - apply filterE_inl_inv in El as (y & _ & Hy). by rewrite (Hone y e' Hy).
  - destruct (filterE_defined f l kept x El Hin) as [b Hb]. congruence.
Qed.

Section Validation.
Context {host : Host}.

(** The call throws exactly on a first row with a column named
    [hasOwnProperty], whatever the column asked for. *)
Lemma firstRowHas_inl (data : list Row) (col : string) (e : Exception) :
  firstRowHas data col = inl e
  <-> e = TypeError /\ exists row, head data = Some row /\ is_Some (row !! "hasOwnProperty").
Proof.
  unfold firstRowHas. destruct data as [| row rest]; simpl.
  - split; [discriminate | intros (_ & row & [=] & _)].
  - destruct (row !! "hasOwnProperty") as [c |] eqn:E; split.
    + intros [= <-]. split; [reflexivity |]. exists row. rewrite E. by split.
    + by intros [-> _].
    + discriminate.
    + intros (_ & row' & [= <-] & [c Hc]). congruence.
Qed.

Lemma firstRowHas_defined (data : list Row) (col col' : string) (b : bool) :
  firstRowHas data col = inr b -> exists b', firstRowHas data col' = inr b'.
Proof.
  unfold firstRowHas. destruct data as [| row rest]; [by eexists |].
  destruct (row !! "hasOwnProperty"); [discriminate | by eexists].
Qed.

Lemma isMissing_true (data : list Row) (col : string) :
  isMissing data col = inr true <-> col <> "" /\ firstRowHas data col = inr false.
Proof.
  unfold isMissing. destruct (String.eqb_spec col "") as [-> | Hne].
  - split; [discriminate | by intros [? _]].
  - destruct (firstRowHas data col) as [e | []]; simpl; split;
      try discriminate; try (by intros [_ [=]]); by intros.
Qed.

Lemma isMissing_false (data : list Row) (col : string) :
  isMissing data col = inr false <-> (col <> "" -> firstRowHas data col = inr true).
Proof.
  unfold isMissing. destruct (String.eqb_spec col "") as [-> | Hne].
  - split; [by intros | reflexivity].
  - destruct (firstRowHas data col) as [e | []]; simpl; split;
      try discriminate; try reflexivity; try (by intros);
      intros H; by specialize (H Hne).
Qed.

Lemma isMissing_inl (data : list Row) (col : string) (e : Exception) :
  isMissing data col = inl e <-> col <> "" /\ firstRowHas data col = inl e.
Proof.
  unfold isMissing. destruct (String.eqb_spec col "") as [-> | Hne].
  - split; [discriminate | by intros [? _]].
  - destruct (firstRowHas data col) as [e' | b]; split;
      try discriminate; try (by intros [_ [=]]).
    + by intros [= <-].
    + by intros [_ [= <-]].
Qed.

Lemma missingCols_spec (data : list Row) (m : ColumnMapping) (missing : list string)
    (col : string) :
  missingCols data m = inr missing ->
  In col missing
  <-> In col (requiredCols m) /\ col <> "" /\ firstRowHas data col = inr false.
Proof.
  intros Hm. unfold missingCols in Hm.
  rewrite (filterE_In _ _ _ col Hm). by rewrite isMissing_true.
Qed.

(** Only the first row is looked at. *)
Lemma missingCols_head (data data' : list Row) (m : ColumnMapping) :
  head data = head data' -> missingCols data m = missingCols data' m.
Proof.
  intros Hh. unfold missingCols.
  assert (forall col, isMissing data col = isMissing data' col) as Hsame.
  { intros col. unfold isMissing, firstRowHas.
    destruct data, data'; simplify_eq/=; reflexivity. }
  generalize (requiredCols m). intros l.
  induction l as [| x l IH]; simpl; [reflexivity |]. by rewrite Hsame, IH.
Qed.

(** Without a column named [hasOwnProperty] in the first row the
    filter throws nothing. *)
Lemma missingCols_defined (data : list Row) (m : ColumnMapping) (col : string) (b : bool) :
  firstRowHas data col = inr b -> exists missing, missingCols data m = inr missing.
Proof.
  intros Hb. apply filterE_total. intros x _. unfold isMissing.
  destruct (String.eqb x ""); [by eexists |].
  destruct (firstRowHas_defined data col x b Hb) as [b' ->]. by eexists.
Qed.

Lemma missingCols_nil_iff (data : list Row) (m : ColumnMapping) :
  missingCols data m = inr []
  <-> forall col, In col (requiredCols m) -> col <> "" -> firstRowHas data col = inr true.
Proof.
  split.
  - intros Hm col Hin.
    destruct (filterE_defined _ _ _ col Hm Hin) as [[] Hb].
    + pose proof (proj2 (filterE_In _ _ _ col Hm) (conj Hin Hb)) as Hc. destruct Hc.
    + by apply isMissing_false.
  - intros Hall. unfold missingCols.
    rewrite (filterE_inr _ (fun _ => false)).
    + generalize (requiredCols m). intros l. by induction l.
    + intros col Hin. apply isMissing_false. by apply Hall.
Qed.

Lemma processData_thrown clock (data : list Row) config (e : Exception) :
  missingCols data (mapping config) = inl e -> processData clock data config = inl e.
Proof. intros Hm. unfold processData. by rewrite Hm. Qed.

Lemma processData_missing clock (data : list Row) config (missing : list string) :
  missingCols data (mapping config) = inr missing -> missing <> [] ->
  processData clock data config = inl (Error (erro_colunas ++ join ", " missing)).
Proof.
  intros Hm Hne. unfold processData. rewrite Hm.
  destruct missing; [done | reflexivity].
Qed.

Lemma processData_valid clock (data : list Row) config :
  missingCols data (mapping config) = inr [] ->
  processData clock data config
  = inr {| summary := summarise (mapping config) (length data)
                                (processRows clock config data);
           preview := take 100 (processRows clock config data);
           processedData := processRows clock config data |}.
Proof. intros Hm. unfold processData. by rewrite Hm. Qed.

(** The text of [l.join(', ')], element by element. *)
Lemma join_cons (first : string) (rest : list string) :
  join ", " (first :: rest) = first ++ fold_right (fun col s => ", " ++ col ++ s) "" rest.
Proof.
  revert first. induction rest as [| col rest IH]; intros first.
  - change (first = first ++ "").
    induction first as [| c first IHf]; [reflexivity |].
    change (String c first ++ "") with (String c (first ++ "")). by rewrite <- IHf.
  - change (join ", " (first :: col :: rest)) with (first ++ ", " ++ join ", " (col :: rest)).
    by rewrite IH.
Qed.

(** X25. When a required field is mapped (to a non-empty column name)
    and the first row, which has no column named [hasOwnProperty], has
    no such column, [processData] throws an [Error]: its message is
    [Colunas não encontradas: ], the first missing column, and each
    further one after a comma and a space; the missing columns are those
    of [debt_id, taxpayer_name, due_date, amount], in that order, that
    are mapped and absent; nothing is returned, and the error is the
    same whatever the clock, the rules and the rows after the first. *)
Theorem validation_error_names_the_missing_columns clock (data : list Row) config :
  (exists col, In col (requiredCols (mapping config))
               /\ col <> "" /\ firstRowHas data col = inr false) ->
  exists first rest,
    missingCols data (mapping config) = inr (first :: rest)
    /\ processData clock data config
       = inl (Error (erro_colunas ++ first
                       ++ fold_right (fun col s => ", " ++ col ++ s) "" rest))
    /\ sublist (first :: rest)
               [debt_id (mapping config); taxpayer_name (mapping config);
                due_date (mapping config); amount (mapping config)]
    /\ (forall col, In col (first :: rest)
          <-> In col (requiredCols (mapping config))
              /\ col <> "" /\ firstRowHas data col = inr false)
    /\ (forall clock' config' data',
          mapping config' = mapping config ->
          head data' = head data ->
          processData clock' data' config' = processData clock data config).
Proof.
  intros (col & Hin & Hne & Hfirst).
  destruct (missingCols_defined data (mapping config) col false Hfirst) as [missing Hm].
  pose proof (proj2 (missingCols_spec data (mapping config) missing col Hm)
                    (conj Hin (conj Hne Hfirst))) as Hc.
  destruct missing as [| first rest]; [destruct Hc |].
  assert (processData clock data config
          = inl (Error (erro_colunas ++ first
                          ++ fold_right (fun col s => ", " ++ col ++ s) "" rest))) as Hp.
  { rewrite (processData_missing clock data config (first :: rest) Hm) by discriminate.
    by rewrite join_cons. }
  exists first, rest.
  split; [exact Hm |]. split; [exact Hp |].
  split; [exact (filterE_sublist _ _ _ Hm) |].
  split; [intros c; exact (missingCols_spec data (mapping config) _ c Hm) |].
  intros clock' config' data' Hmap Hhead.
  pose proof (missingCols_head data' data (mapping config) Hhead) as Hsame.
  rewrite Hp.
  rewrite (processData_missing clock' data' config' (first :: rest));
    [by rewrite join_cons | by rewrite Hmap, Hsame | discriminate].
Qed.

(** C10. On no rows at all, with the four required fields mapped to
    non-empty column names, [processData] throws the error that names
    the four columns in order; it returns no summary. *)
Theorem empty_input_is_fatal clock config :
  debt_id (mapping config) <> "" ->
  taxpayer_name (mapping config) <> "" ->
  due_date (mapping config) <> "" ->
  amount (mapping config) <> "" ->
  missingCols [] (mapping config) = inr (requiredCols (mapping config))
  /\ processData clock [] config
     = inl (Error (erro_colunas ++ debt_id (mapping config) ++ ", "
                     ++ taxpayer_name (mapping config) ++ ", "
                     ++ due_date (mapping config) ++ ", " ++ amount (mapping config)))
  /\ forall res, processData clock [] config <> inr res.
Proof.
  intros H1 H2 H3 H4.
  assert (missingCols [] (mapping config) = inr (requiredCols (mapping config))) as Hm.
  { unfold missingCols, requiredCols, isMissing. simpl.
    apply String.eqb_neq in H1, H2, H3, H4. by rewrite H1, H2, H3, H4. }
  split; [exact Hm |].
  assert (processData clock [] config
          = inl (Error (erro_colunas ++ debt_id (mapping config) ++ ", "
                          ++ taxpayer_name (mapping config) ++ ", "
                          ++ due_date (mapping config) ++ ", "
                          ++ amount (mapping config)))) as Hp.
  { unfold processData. rewrite Hm. reflexivity. }
  split; [exact Hp |]. intros res. by rewrite Hp.
Qed.

End Validation.

(** ** The summary *)


Lemma label_inj (a b : Status) : label a = label b -> a = b.
Proof. destruct a, b; simpl; intros H; first [reflexivity | discriminate H]. Qed.

Lemma notValido_label (s : Status) :
  notValido (Some (CStr (label s))) = negb (status_eqb s Valido).
Proof. by destruct s. Qed.

Lemma allLabels_initial : allLabels initialCounts.
Proof. intros s. destruct s; vm_compute; eauto. Qed.

Lemma countsTotal_initial : countsTotal initialCounts = 0%nat.
Proof. vm_compute. reflexivity. Qed.

Lemma lookup_annotate_status (row : Row) (st : Status * string) :
  annotate row st !! col_status = Some (CStr (label (fst st))).
Proof.
  unfold annotate. rewrite lookup_insert_ne by done. apply lookup_insert_eq.
Qed.

Lemma lookup_annotate_motivo (row : Row) (st : Status * string) :
  annotate row st !! col_motivo = Some (CStr (snd st)).
Proof. unfold annotate. apply lookup_insert_eq. Qed.

Lemma lookup_annotate_untouched (row : Row) (st : Status * string) (col : string) :
  untouched col -> annotate row st !! col = row !! col.
Proof.
  intros [Hs Hm]. unfold annotate. by rewrite !lookup_insert_ne.
Qed.

Section Summary.
Context {host : Host}.

Lemma processRows_cons clock config (row : Row) (data : list Row) :
  processRows clock config (row :: data)
  = annotate row (classify (clock 0%nat) config row)
      :: processRows (fun i => clock (S i)) config data.
Proof. reflexivity. Qed.

Lemma classified_cons clock config (row : Row) (data : list Row) :
  classified clock config (row :: data)
  = (fst (classify (clock 0%nat) config row), tempAmount (mapping config) row)
      :: classified (fun i => clock (S i)) config data.
Proof. reflexivity. Qed.

Lemma processRows_length clock config (data : list Row) :
  length (processRows clock config data) = length data.
Proof. apply length_imap. Qed.

Lemma processRows_hasStatus clock config (data : list Row) :
  Forall hasStatus (processRows clock config data).
Proof.
  revert clock. induction data as [| row data IH]; intros clock; [constructor |].
  rewrite processRows_cons. constructor; [| apply IH].
  eexists. apply lookup_annotate_status.
Qed.

(** One turn of the loop on a row with a status: one counter moves up
    by one. *)
Lemma tally_counts (m : ColumnMapping) (acc : Totals) (row : Row) :
  allLabels (statusCounts acc) -> hasStatus row ->
  allLabels (statusCounts (tally m acc row))
  /\ countsTotal (statusCounts (tally m acc row)) = S (countsTotal (statusCounts acc)).
Proof.
  intros Hall [s Hs].
  assert (statusCounts (tally m acc row)
          = <[label s := (count (statusCounts acc) s + 1)%nat]> (statusCounts acc)) as ->.
  { unfold tally, count. rewrite Hs. simpl.
    destruct (Hall s) as [n Hn]. rewrite Hn. simpl.
    by destruct (negb _). }
  split.
  - intros s'. destruct (decide (label s = label s')) as [-> | Hne].
    + rewrite lookup_insert_eq. eauto.
    + rewrite lookup_insert_ne by done. apply Hall.
  - unfold countsTotal, count.
    destruct s;
      repeat (rewrite lookup_insert_eq || rewrite lookup_insert_ne by done);
      simpl; lia.
Qed.

Lemma fold_tally_counts (m : ColumnMapping) (rows : list Row) (acc : Totals) :
  allLabels (statusCounts acc) -> Forall hasStatus rows ->
  countsTotal (statusCounts (fold_left (tally m) rows acc))
  = (countsTotal (statusCounts acc) + length rows)%nat.
Proof.
  revert acc. induction rows as [| row rows IH]; intros acc Hall Hrows; simpl; [lia |].
  inversion Hrows as [| ? ? Hrow Hrest]; subst.
  destruct (tally_counts m acc row Hall Hrow) as [Hall' Hcount].
  rewrite IH by done. lia.
Qed.

(** C7. When the validation of the columns passes, [processData]
    returns, the five counts of the summary add up to [total_records],
    [processed_records] is [total_records], and that is the number of
    input rows, every one of which is among the annotated rows. *)
Theorem status_counts_add_up clock (data : list Row) config :
  missingCols data (mapping config) = inr [] ->
  exists res, processData clock data config = inr res
    /\ (valid_count (summary res) + prescribed_count (summary res)
        + immune_count (summary res) + exempt_count (summary res)
        + incomplete_count (summary res))%nat = total_records (summary res)
    /\ processed_records (summary res) = total_records (summary res)
    /\ total_records (summary res) = length data
    /\ length (processedData res) = length data.
Proof.
  intros Hm. eexists. split; [by apply processData_valid |]. simpl.
  split; [| by rewrite processRows_length].
  pose proof (fold_tally_counts (mapping config) (processRows clock config data)
                {| statusCounts := initialCounts; totalRemoved := 0; totalValid := 0 |}
                allLabels_initial (processRows_hasStatus clock config data)) as H.
  simpl in H. rewrite countsTotal_initial, processRows_length in H.
  unfold countsTotal in H. lia.
Qed.

End Summary.

(** ** The totals *)


Lemma sumQ_split (l : list (Status * Q)) :
  (sumQ (amountsWhere isValidoStatus l) + sumQ (amountsWhere isRemovedStatus l)
   == sumQ (map snd l))%Q.
Proof.
  unfold amountsWhere, isRemovedStatus, isValidoStatus.
  induction l as [| [s a] l IH]; simpl; [reflexivity |].
  destruct (status_eqb s Valido); simpl; rewrite <- IH; ring.
Qed.

Section Amounts.
Context {host : Host}.

Lemma classified_amounts clock config (data : list Row) :
  map snd (classified clock config data)
  = map (fun row => parseAmount (row !! amount (mapping config))) data.
Proof.
  revert clock. induction data as [| row data IH]; intros clock; [reflexivity |].
  rewrite classified_cons. simpl. by rewrite IH.
Qed.

(** One turn of the loop on an annotated row, when the amount column is
    not one of the two columns the annotation writes. *)
Lemma tally_annotated (m : ColumnMapping) (acc : Totals) (row : Row) (st : Status * string) :
  untouched (amount m) ->
  totalValid (tally m acc (annotate row st))
    = (if isValidoStatus (fst st)
       then (totalValid acc + parseAmount (row !! amount m))%Q else totalValid acc)
  /\ totalRemoved (tally m acc (annotate row st))
    = (if isValidoStatus (fst st)
       then totalRemoved acc else (totalRemoved acc + parseAmount (row !! amount m))%Q).
Proof.
  intros Hu. unfold tally.
  rewrite lookup_annotate_status, notValido_label, (lookup_annotate_untouched _ _ _ Hu).
  unfold isValidoStatus. by destruct (status_eqb (fst st) Valido).
Qed.

Lemma fold_tally_amounts clock config (data : list Row) (acc : Totals) :
  untouched (amount (mapping config)) ->
  (totalValid (fold_left (tally (mapping config)) (processRows clock config data) acc)
   == totalValid acc + sumQ (amountsWhere isValidoStatus (classified clock config data)))%Q
  /\ (totalRemoved (fold_left (tally (mapping config)) (processRows clock config data) acc)
      == totalRemoved acc
         + sumQ (amountsWhere isRemovedStatus (classified clock config data)))%Q.
Proof.
  intros Hu. revert clock acc.
  induction data as [| row data IH]; intros clock acc.
  - simpl. split; ring.
  - rewrite processRows_cons, classified_cons. simpl fold_left.
    destruct (IH (fun i => clock (S i))
                 (tally (mapping config) acc
                        (annotate row (classify (clock 0%nat) config row)))) as [IHv IHr].
    rewrite IHv, IHr.
    destruct (tally_annotated (mapping config) acc row
                (classify (clock 0%nat) config row) Hu) as [-> ->].
    unfold amountsWhere, isRemovedStatus, isValidoStatus. simpl.
    destruct (status_eqb _ Valido); simpl; unfold tempAmount; split; ring.
Qed.

(** C8, for an amount column other than the two annotation columns.
    When the validation passes, [processData] returns; the total of the
    Valid rows and the total of the others are the sums of the parsed
    amounts of the rows so classified, and together they are the sum of
    the parsed amounts of all input rows. *)
Theorem amount_totals_add_up clock (data : list Row) config :
  untouched (amount (mapping config)) ->
  missingCols data (mapping config) = inr [] ->
  exists res, processData clock data config = inr res
    /\ (total_amount_valid (summary res) + total_amount_removed (summary res)
        == sumQ (map (fun row => parseAmount (row !! amount (mapping config))) data))%Q
    /\ (total_amount_valid (summary res)
        == sumQ (amountsWhere isValidoStatus (classified clock config data)))%Q
    /\ (total_amount_removed (summary res)
        == sumQ (amountsWhere isRemovedStatus (classified clock config data)))%Q.
Proof.
  intros Hu Hm. eexists. split; [by apply processData_valid |]. simpl.
  destruct (fold_tally_amounts clock config data
              {| statusCounts := initialCounts; totalRemoved := 0; totalValid := 0 |} Hu)
    as [Hv Hr].
  simpl in Hv, Hr.
  assert (forall q : Q, (0 + q == q)%Q) as Hz by (intros; ring).
  rewrite Hz in Hv, Hr.
  split; [| split; assumption].
  rewrite Hv, Hr, sumQ_split. by rewrite classified_amounts.
Qed.

End Amounts.

(** ** Classification as a function *)

Section Purity.
Context {host : Host}.

(** The values parsed from a row are those of the row without its two
    annotation columns. *)
Lemma optionalField_annotate (col : option string) (f : string -> string) (row : Row)
    (st : Status * string) :
  (forall c, col = Some c -> mapped col = true -> untouched c) ->
  optionalField col f (annotate row st) = optionalField col f row.
Proof.
  intros Hu. unfold optionalField. destruct col as [c |]; [| reflexivity].
  destruct (mapped (Some c)) eqn:E; [| reflexivity].
  by rewrite lookup_annotate_untouched by (by apply Hu).
Qed.

Lemma columnsRead_optional (m : ColumnMapping) :
  Forall untouched (columnsRead m) ->
  untouched (taxpayer_name m) /\ untouched (due_date m) /\ untouched (amount m)
  /\ (forall c, cpf_cnpj m = Some c -> mapped (cpf_cnpj m) = true -> untouched c)
  /\ (forall c, tribute_type m = Some c -> mapped (tribute_type m) = true -> untouched c).
Proof.
  unfold columnsRead. rewrite !Forall_app, !Forall_cons.
  intros [(Hn & Hd & Ha & _) [Hc Ht]].
  do 3 (split; [assumption |]). split.
  - intros c Hc' Hm. rewrite Hm, Hc' in Hc. simpl in Hc. by inversion Hc.
  - intros c Ht' Hm. rewrite Hm, Ht' in Ht. simpl in Ht. by inversion Ht.
Qed.

Lemma classify_annotate now config (row : Row) (st : Status * string) :
  Forall untouched (columnsRead (mapping config)) ->
  classify now config (annotate row st) = classify now config row.
Proof.
  intros Hu. apply columnsRead_optional in Hu as (Hn & Hd & Ha & Hc & Ht).
  unfold classify, checkPrescription, checkImmunity, checkExemption, exemptByTribute,
    exemptByAmount, checkIncomplete, isBadDoc.
  unfold tempDate, tempAmount, tempName, tempDoc, tempTribute.
  rewrite !(optionalField_annotate _ _ _ _ Hc), !(optionalField_annotate _ _ _ _ Ht).
  by rewrite !(lookup_annotate_untouched _ _ _ Hn), !(lookup_annotate_untouched _ _ _ Hd),
    !(lookup_annotate_untouched _ _ _ Ha).
Qed.

(** With a reference date in the configuration the clock is not read. *)
Lemma cutoffDate_reference now now' config :
  hasReferenceDate config = true ->
  cutoffDate now (prescription config) = cutoffDate now' (prescription config).
Proof.
  unfold hasReferenceDate, mapped, cutoffDate, refDate.
  destruct (PrescriptionRules.reference_date _) as [s |]; [| discriminate].
  by destruct (String.eqb s "").
Qed.

Lemma classify_reference now now' config (row : Row) :
  hasReferenceDate config = true ->
  classify now config row = classify now' config row.
Proof.
  intros Hr. unfold classify, checkPrescription, isPrescribed.
  by rewrite (cutoffDate_reference now now' config Hr).
Qed.

(** C9, with the clock among the arguments. The status and the reason
    of a row are a function of the row, the configuration and the
    reading of the clock; the clock is not read when a reference date
    is configured. Classifying an annotated row again, at the same
    clock reading or with a reference date, with a mapping that reads
    neither of the two added columns, gives the status and the reason
    it has; and the annotated row at each position is made from the
    input row at that position alone. *)
Theorem reclassification_is_stable now now' config (row : Row) :
  now' = now \/ hasReferenceDate config = true ->
  Forall untouched (columnsRead (mapping config)) ->
  classify now' config (annotate row (classify now config row)) = classify now config row
  /\ (forall clock (data : list Row) (i : nat),
        processRows clock config data !! i
        = (fun r => annotate r (classify (clock i) config r)) <$> data !! i)
  /\ (forall (rows rows' : list Row),
        rows ≡ₚ rows' -> classify now config <$> rows ≡ₚ classify now config <$> rows').
Proof.
  intros Hclock Hu. split; [| split].
  - rewrite classify_annotate by done.
    destruct Hclock as [-> | Hr]; [reflexivity | by apply classify_reference].
  - intros clock data i. unfold processRows. by rewrite list_lookup_imap.
  - intros rows rows' Hp. by apply fmap_Permutation.
Qed.

End Purity.


(** * The properties on concrete rows *)

Section Concrete.
Import Scenario.
#[local] Existing Instance Host0.host.

Ltac run := vm_compute; reflexivity.

Lemma untouched_columns_mapping0 : Forall untouched (columnsRead mapping0).
Proof. repeat constructor; discriminate. Qed.

(** C1 on a row: no document column, the check asked for, Valid. *)
Lemma unmapped_document_never_incomplete_witness :
  IncompleteRules.enabled (incomplete defaults) = true
  /\ IncompleteRules.check_cpf_cnpj (incomplete defaults) = true
  /\ mapped (cpf_cnpj (mapping defaults)) = false
  /\ classify now0 defaults maria = (Valido, "").
Proof.
  destruct (unmapped_document_never_incomplete now0 defaults maria
              eq_refl eq_refl eq_refl) as (_ & _ & _ & Hvalid).
  do 3 (split; [reflexivity |]).
  apply Hvalid; run.
Defined.

(** C2 on 2019: the first of January 2019, where the serial date 2019
    is the 11th of July 1905. *)
Lemma parseDate_bare_year_number_witness :
  (1900 <= 2019 <= 2100)%Q
  /\ parseDate (Some (CNum 2019)) = Some (newDate 2019 0 1)
  /\ newDate 2019 0 1 = jan_1_2019
  /\ parse_date_code 2019 = Some (1905, 7, 11).
Proof.
  assert (1900 <= 2019 <= 2100)%Q as Hn by (unfold Qle; simpl; lia).
  split; [exact Hn |].
  split; [exact (proj1 (parseDate_bare_year_number 2019 Hn)) |].
  split; run.
Defined.



(** C4 as stated fails on a row the prescription rule takes first: the
    exemption rule is enabled and both of its checks hold, and the row
    is Prescribed. *)
Lemma exemption_both_checks_counterexample :
  ExemptionRules.enabled (exemption exempting) = true
  /\ belowThreshold (exemption exempting) (tempAmount (mapping exempting) oldDebt) = true
  /\ isExemptTribute (exemption exempting) (tempTribute (mapping exempting) oldDebt) = true
  /\ classify now0 exempting oldDebt = (Prescrito, "Vencimento anterior a 01/01/2019")
  /\ classify now0 exempting oldDebt <> (Isento, motivo_tributo).
Proof.
  split; [run |]. split; [run |]. split; [run |]. split; [run |].
  vm_compute; discriminate.
Qed.

(** C4 with the two earlier rules out of the way. *)
Lemma exemption_tribute_reason_wins_witness :
  ExemptionRules.enabled (exemption exempting) = true
  /\ prescribes now0 exempting newDebt = false
  /\ immunises exempting newDebt = false
  /\ belowThreshold (exemption exempting) (tempAmount (mapping exempting) newDebt) = true
  /\ isExemptTribute (exemption exempting) (tempTribute (mapping exempting) newDebt) = true
  /\ exemptByAmount exempting newDebt (Valido, "") = (Isento, "Valor abaixo de R$ 100")
  /\ classify now0 exempting newDebt = (Isento, "Tributo Isento").
Proof.
  assert (ExemptionRules.enabled (exemption exempting) = true) as H1 by run.
  assert (prescribes now0 exempting newDebt = false) as H2 by run.
  assert (immunises exempting newDebt = false) as H3 by run.
  assert (belowThreshold (exemption exempting) (tempAmount (mapping exempting) newDebt)
          = true) as H4 by run.
  assert (isExemptTribute (exemption exempting) (tempTribute (mapping exempting) newDebt)
          = true) as H5 by run.
  destruct (exemption_tribute_reason_wins now0 exempting newDebt H1 H2 H3 H4 H5)
    as (Hamount & _ & Hfinal).
  do 5 (split; [assumption |]).
  split; [exact Hamount | exact Hfinal].
Defined.

(** C5 as stated fails when the prescription takes twenty years: the
    due date is ten years before the clock to the day, the name has an
    immunity keyword, both rules are enabled, and the row is Immune. *)
Lemma ten_years_past_counterexample :
  PrescriptionRules.enabled (prescription twentyYears) = true
  /\ ImmunityRules.enabled (immunity twentyYears) = true
  /\ tempDate (mapping twentyYears) bahia = Some (setFullYear now0 (2024 - 10))
  /\ hasKeyword (ImmunityRules.keywords (immunity twentyYears))
                (tempName (mapping twentyYears) bahia) = true
  /\ classify now0 twentyYears bahia = (Imune, motivo_imune)
  /\ fst (classify now0 twentyYears bahia) <> Prescrito.
Proof.
  split; [run |]. split; [run |]. split; [run |]. split; [run |]. split; [run |].
  vm_compute; discriminate.
Qed.

(** C5 on the same row with prescription after five years. *)
Lemma first_matching_rule_wins_witness :
  PrescriptionRules.enabled (prescription fiveYears) = true
  /\ ImmunityRules.enabled (immunity fiveYears) = true
  /\ isPrescribed now0 (prescription fiveYears) (tempDate (mapping fiveYears) bahia) = true
  /\ hasKeyword (ImmunityRules.keywords (immunity fiveYears))
                (tempName (mapping fiveYears) bahia) = true
  /\ classify now0 fiveYears bahia
     = (Prescrito, motivo_prescrito (cutoffDate now0 (prescription fiveYears)))
  /\ motivo_prescrito (cutoffDate now0 (prescription fiveYears))
     = "Vencimento anterior a 01/01/2019".
Proof.
  assert (PrescriptionRules.enabled (prescription fiveYears) = true) as H1 by run.
  assert (ImmunityRules.enabled (immunity fiveYears) = true) as H2 by run.
  assert (isPrescribed now0 (prescription fiveYears) (tempDate (mapping fiveYears) bahia)
          = true) as H3 by run.
  assert (hasKeyword (ImmunityRules.keywords (immunity fiveYears))
                     (tempName (mapping fiveYears) bahia) = true) as H4 by run.
  destruct (first_matching_rule_wins now0 fiveYears bahia) as [_ Hscenario].
  destruct (Hscenario H1 H2 H3 H4) as [Hfinal _].
  do 4 (split; [assumption |]).
  split; [exact Hfinal | run].
Defined.

(** X25 on a sheet with neither the name nor the due date column. *)
Lemma validation_error_names_the_missing_columns_witness :
  (exists col, In col (requiredCols (mapping defaults))
               /\ col <> "" /\ firstRowHas [twoColumns; maria] col = inr false)
  /\ exists first rest,
       missingCols [twoColumns; maria] (mapping defaults) = inr (first :: rest)
       /\ processData (fun _ => now0) [twoColumns; maria] defaults
          = inl (Error (erro_colunas ++ first
                          ++ fold_right (fun col s => ", " ++ col ++ s) "" rest)).
Proof.
  assert (exists col, In col (requiredCols (mapping defaults))
                      /\ col <> "" /\ firstRowHas [twoColumns; maria] col = inr false)
    as Hex.
  { exists "Vencimento". split; [simpl; tauto |]. split; [discriminate | run]. }
  split; [exact Hex |].
  destruct (validation_error_names_the_missing_columns (fun _ => now0)
              [twoColumns; maria] defaults Hex) as (first & rest & Hm & Hp & _).
  exists first, rest. by split.
Defined.

(** C6 where the code departs from it: the sheet has a column named
    [hasOwnProperty] and no due date column.  The validation calls the
    cell of that column instead of the method, and the run ends in a
    [TypeError] that names no column; without that column the same
    sheet gives the error that names [Vencimento]. *)
Lemma hasOwnProperty_column_breaks_validation :
  ownMethodColumn !! due_date (mapping defaults) = None
  /\ processData (fun _ => now0) [ownMethodColumn] defaults = inl TypeError
  /\ processData (fun _ => now0) [delete "hasOwnProperty" ownMethodColumn] defaults
     = inl (Error (erro_colunas ++ "Vencimento")).
Proof. split; [run |]. split; run. Qed.

(** C10 on the default mapping. *)
Lemma empty_input_is_fatal_witness :
  debt_id (mapping defaults) <> "" /\ taxpayer_name (mapping defaults) <> ""
  /\ due_date (mapping defaults) <> "" /\ amount (mapping defaults) <> ""
  /\ processData (fun _ => now0) [] defaults
     = inl (Error (erro_colunas ++ "ID" ++ ", " ++ "Nome" ++ ", " ++ "Vencimento"
                     ++ ", " ++ "Valor")).
Proof.
  assert (debt_id (mapping defaults) <> "") as H1 by discriminate.
  assert (taxpayer_name (mapping defaults) <> "") as H2 by discriminate.
  assert (due_date (mapping defaults) <> "") as H3 by discriminate.
  assert (amount (mapping defaults) <> "") as H4 by discriminate.
  do 4 (split; [assumption |]).
  exact (proj1 (proj2 (empty_input_is_fatal (fun _ => now0) defaults H1 H2 H3 H4))).
Defined.

(** C7 on three rows: one Valid, one Prescribed, one Valid. *)
Lemma status_counts_add_up_witness :
  missingCols threeRows (mapping defaults) = inr []
  /\ summaryOf (processData (fun _ => now0) threeRows defaults)
     = Some {| total_records := 3; processed_records := 3; prescribed_count := 1;
               immune_count := 0; exempt_count := 0; incomplete_count := 0;
               valid_count := 2; total_amount_removed := 10;
               total_amount_valid := 31114 # 25 |}
  /\ exists res, processData (fun _ => now0) threeRows defaults = inr res
       /\ (valid_count (summary res) + prescribed_count (summary res)
           + immune_count (summary res) + exempt_count (summary res)
           + incomplete_count (summary res))%nat = total_records (summary res)
       /\ processed_records (summary res) = total_records (summary res)
       /\ total_records (summary res) = length threeRows
       /\ length (processedData res) = length threeRows.
Proof.
  assert (missingCols threeRows (mapping defaults) = inr []) as Hm by run.
  split; [exact Hm |]. split; [run |].
  exact (status_counts_add_up (fun _ => now0) threeRows defaults Hm).
Defined.

(** C8 as stated fails when the amount is mapped to a column the
    annotation overwrites: the validation passes, the amounts of the
    input rows add up to 100, and both totals of the summary are 0. *)
Lemma amount_totals_counterexample :
  missingCols [exported] (mapping amountInMotivo) = inr []
  /\ sumQ (map (fun row => parseAmount (row !! amount (mapping amountInMotivo))) [exported])
     = 100%Q
  /\ summaryOf (processData (fun _ => now0) [exported] amountInMotivo)
     = Some {| total_records := 1; processed_records := 1; prescribed_count := 0;
               immune_count := 0; exempt_count := 0; incomplete_count := 0;
               valid_count := 1; total_amount_removed := 0; total_amount_valid := 0 |}
  /\ exists res, processData (fun _ => now0) [exported] amountInMotivo = inr res
       /\ ~ (total_amount_valid (summary res) + total_amount_removed (summary res)
             == sumQ (map (fun row => parseAmount (row !! amount (mapping amountInMotivo)))
                          [exported]))%Q.
Proof.
  split; [run |]. split; [run |]. split; [run |].
  eexists. split; [reflexivity |]. vm_compute. discriminate.
Qed.

(** C8 on the three rows, whose amount column is [Valor]. *)
Lemma amount_totals_add_up_witness :
  untouched (amount (mapping defaults))
  /\ missingCols threeRows (mapping defaults) = inr []
  /\ exists res, processData (fun _ => now0) threeRows defaults = inr res
       /\ (total_amount_valid (summary res) + total_amount_removed (summary res)
           == sumQ (map (fun row => parseAmount (row !! amount (mapping defaults)))
                        threeRows))%Q
       /\ (total_amount_valid (summary res)
           == sumQ (amountsWhere isValidoStatus
                      (classified (fun _ => now0) defaults threeRows)))%Q
       /\ (total_amount_removed (summary res)
           == sumQ (amountsWhere isRemovedStatus
                      (classified (fun _ => now0) defaults threeRows)))%Q.
Proof.
  assert (untouched (amount (mapping defaults))) as Hu by (split; discriminate).
  assert (missingCols threeRows (mapping defaults) = inr []) as Hm by run.
  split; [exact Hu |]. split; [exact Hm |].
  exact (amount_totals_add_up (fun _ => now0) threeRows defaults Hu Hm).
Defined.

(** C9 as stated fails without a reference date: the mapping reads
    neither of the added columns, the row is Valid when classified the
    day before [now0], and the annotated row is Prescribed when
    classified again two days later. *)
Lemma reclassification_counterexample :
  Forall untouched (columnsRead (mapping fiveYears))
  /\ hasReferenceDate fiveYears = false
  /\ classify dayBefore fiveYears due2019 = (Valido, "")
  /\ classify dayAfter fiveYears (annotate due2019 (classify dayBefore fiveYears due2019))
     = (Prescrito, "Vencimento anterior a 02/01/2019")
  /\ classify dayAfter fiveYears (annotate due2019 (classify dayBefore fiveYears due2019))
     <> classify dayBefore fiveYears due2019.
Proof.
  split; [exact untouched_columns_mapping0 |].
  split; [run |]. split; [run |]. split; [run |].
  vm_compute; discriminate.
Qed.

(** C9 with a reference date, the clock moving two days between the
    two runs. *)
Lemma reclassification_is_stable_witness :
  (dayAfter = dayBefore \/ hasReferenceDate defaults = true)
  /\ Forall untouched (columnsRead (mapping defaults))
  /\ classify dayAfter defaults (annotate maria (classify dayBefore defaults maria))
     = classify dayBefore defaults maria.
Proof.
  assert (dayAfter = dayBefore \/ hasReferenceDate defaults = true) as Hc by (right; run).
  split; [exact Hc |].
  split; [exact untouched_columns_mapping0 |].
  exact (proj1 (reclassification_is_stable dayBefore dayAfter defaults maria
                  Hc untouched_columns_mapping0)).
Defined.

(** The earlier revision on the inputs of C1 and C2: there the number
    2019 is a serial date, the 11th of July 1905, and the document check
    fires though no document column is mapped. *)
Lemma earlier_year_number_is_serial :
  Earlier.parseDate (Some (CNum 2019)) = Some (newDate 1905 6 11)
  /\ Earlier.parseDate (Some (CNum 2019)) <> parseDate (Some (CNum 2019)).
Proof. split; [run | vm_compute; discriminate]. Qed.

Lemma earlier_document_check_fires :
  mapped (cpf_cnpj (mapping defaults)) = false
  /\ Earlier.isBadDoc defaults maria = true
  /\ isBadDoc defaults maria = false.
Proof. split; [run |]. split; run. Qed.

End Concrete.

(** * Further properties *)

(** ** White space and [trim] *)

Lemma reverse_string_cons (c : ascii) (s : string) :
  reverse_string (String c s) = reverse_string s ++ String c "".
Proof.
  unfold reverse_string. simpl.
  generalize (rev (list_ascii_of_string s)). intros l.
  induction l as [| d l IH]; simpl; [reflexivity | by rewrite IH].
Qed.

Lemma reverse_string_snoc (s : string) (c : ascii) :
  reverse_string (s ++ String c "") = String c (reverse_string s).
Proof.
  induction s as [| d s IH]; [reflexivity |].
  change (String d s ++ String c "") with (String d (s ++ String c "")).
  by rewrite !reverse_string_cons, IH.
Qed.

Lemma reverse_string_involutive (s : string) : reverse_string (reverse_string s) = s.
Proof.
  induction s as [| c s IH]; [reflexivity |].
  by rewrite reverse_string_cons, reverse_string_snoc, IH.
Qed.

Lemma trimStart_idempotent (s : string) : trimStart (trimStart s) = trimStart s.
Proof.
  induction s as [| c s IH]; [reflexivity |]. simpl.
  destruct (isWhiteSpace c) eqn:E; [exact IH |]. simpl. by rewrite E.
Qed.

Lemma trimStart_clean (s : string) : startsClean s = true -> trimStart s = s.
Proof. destruct s as [| c s]; [done |]. simpl. by intros ->%negb_true_iff. Qed.

Lemma startsClean_trimStart (s : string) : startsClean (trimStart s) = true.
Proof.
  induction s as [| c s IH]; [reflexivity |]. simpl.
  destruct (isWhiteSpace c) eqn:E; [exact IH |]. simpl. by rewrite E.
Qed.

Lemma trimStart_snoc_clean (s : string) (c : ascii) :
  isWhiteSpace c = false ->
  exists s', trimStart (s ++ String c "") = s' ++ String c "".
Proof.
  intros Hc. induction s as [| d s IH]; simpl.
  - rewrite Hc. by exists "".
  - destruct (isWhiteSpace d); [exact IH |]. by exists (String d s).
Qed.

Lemma startsClean_trimEnd (s : string) : startsClean s = true -> startsClean (trimEnd s) = true.
Proof.
  destruct s as [| c s]; [done |]. simpl. intros Hc%negb_true_iff.
  unfold trimEnd. rewrite reverse_string_cons.
  destruct (trimStart_snoc_clean (reverse_string s) c Hc) as [s' ->].
  rewrite reverse_string_snoc. simpl. by rewrite Hc.
Qed.

Lemma trimEnd_idempotent (s : string) : trimEnd (trimEnd s) = trimEnd s.
Proof.
  unfold trimEnd. by rewrite reverse_string_involutive, trimStart_idempotent.
Qed.

Lemma trim_idempotent (s : string) : trim (trim s) = trim s.
Proof.
  unfold trim.
  rewrite (trimStart_clean (trimEnd (trimStart s))).
  - apply trimEnd_idempotent.
  - apply startsClean_trimEnd, startsClean_trimStart.
Qed.

Lemma trim_clean (s : string) : startsClean s = true -> endsClean s = true -> trim s = s.
Proof.
  intros Hs He. unfold trim, trimEnd. rewrite (trimStart_clean s Hs).
  rewrite (trimStart_clean _ He). apply reverse_string_involutive.
Qed.

Lemma isDigit_facts (c : ascii) :
  isDigit c = true ->
  isWhiteSpace c = false /\ Ascii.eqb c "/" = false /\ Ascii.eqb c "-" = false
  /\ Ascii.eqb c "," = false /\ Ascii.eqb c "." = false /\ Ascii.eqb c "R" = false.
Proof.
  destruct c as [[] [] [] [] [] [] [] []]; simpl; intros H;
    first [discriminate H | repeat split; reflexivity].
Qed.

Lemma truncate_inject_Z (z : Z) : truncate (inject_Z z) = z.
Proof.
  unfold truncate. destruct (Qle_bool 0 (inject_Z z)); [apply Qfloor_Z | apply Qceiling_Z].
Qed.

Section DateStrings.
Context {host : Host}.

(** What [parseDate] does with the trimmed text of a cell. *)
Lemma parseDate_CStr (s : string) :
  s <> "" ->
  parseDate (Some (CStr s))
  = if isFourDigits (trim s) && (1900 <=? parseInt (trim s)) && (parseInt (trim s) <=? 2100)
    then Some (newDate (inject_Z (parseInt (trim s))) 0 1)
    else tryFormats 0 formats (trim s).
Proof.
  intros Hs. unfold parseDate, truthy.
  destruct (String.eqb_spec s ""); [done | reflexivity].
Qed.

(** X1. White space around the text of a date changes nothing:
    [parseDate] of a text cell is [parseDate] of its trimmed text. *)
Theorem parseDate_ignores_surrounding_space (s : string) :
  parseDate (Some (CStr s)) = parseDate (Some (CStr (trim s))).
Proof.
  destruct (String.eqb_spec s "") as [-> | Hs]; [reflexivity |].
  rewrite (parseDate_CStr s Hs).
  destruct (String.eqb_spec (trim s) "") as [He | He].
  - rewrite He. reflexivity.
  - rewrite (parseDate_CStr (trim s) He). by rewrite trim_idempotent.
Qed.

(** X2. A text whose trimmed form is four digits naming a year from
    1900 to 2100 is read as that year: local midnight of its first of
    January. *)
Theorem parseDate_year_string (s : string) :
  isFourDigits (trim s) = true ->
  1900 <= parseInt (trim s) <= 2100 ->
  parseDate (Some (CStr s)) = Some (newDate (inject_Z (parseInt (trim s))) 0 1)
  /\ exists tv, newDate (inject_Z (parseInt (trim s))) 0 1 = DateOf tv
       /\ YearFromTime (LocalTime tv) = parseInt (trim s)
       /\ MonthFromTime (LocalTime tv) = 0
       /\ DateFromTime (LocalTime tv) = 1
       /\ TimeWithinDay (LocalTime tv) = 0.
Proof.
  intros H4 Hy.
  assert (s <> "") as Hs by (intros ->; discriminate H4).
  split.
  - rewrite (parseDate_CStr s Hs), H4.
    assert ((1900 <=? parseInt (trim s)) = true) as -> by lia.
    assert ((parseInt (trim s) <=? 2100) = true) as -> by lia.
    reflexivity.
  - destruct (newDate_bare_year (inject_Z (parseInt (trim s)))) as (tv & Hd & Hyear & Hrest).
    { unfold Qle; simpl; lia. }
    exists tv. split; [exact Hd |]. rewrite truncate_inject_Z in Hyear. by split.
Qed.

(** X3. Any two digits, two digits and four digits are accepted in
    the three layouts DD/MM/YYYY, YYYY-MM-DD and DD-MM-YYYY, with no
    check that the day or the month exist, and the three layouts give
    the same [new Date(year, month - 1, day)]. *)
Theorem parseDate_three_formats (d m y : string) :
  String.length d = 2%nat -> String.length m = 2%nat -> String.length y = 4%nat ->
  allDigits d = true -> allDigits m = true -> allDigits y = true ->
  parseDate (Some (CStr (d ++ "/" ++ m ++ "/" ++ y)))
    = Some (newDate (inject_Z (parseInt y)) (parseInt m - 1) (parseInt d))
  /\ parseDate (Some (CStr (y ++ "-" ++ m ++ "-" ++ d)))
    = Some (newDate (inject_Z (parseInt y)) (parseInt m - 1) (parseInt d))
  /\ parseDate (Some (CStr (d ++ "-" ++ m ++ "-" ++ y)))
    = Some (newDate (inject_Z (parseInt y)) (parseInt m - 1) (parseInt d)).
Proof.
  intros Ld Lm Ly Hd Hm Hy.
  destruct d as [| d1 [| d2 [| ? ?]]]; try discriminate Ld.
  destruct m as [| m1 [| m2 [| ? ?]]]; try discriminate Lm.
  destruct y as [| y1 [| y2 [| y3 [| y4 [| ? ?]]]]]; try discriminate Ly.
  unfold allDigits in *. simpl in Hd, Hm, Hy.
  repeat match goal with H : _ && _ = true |- _ => apply andb_prop in H as [? ?] end.
  repeat match goal with
         | H : isDigit ?c = true |- _ =>
             pose proof (isDigit_facts c H) as (? & ? & ? & _); revert H
         end.
  intros. cbv [String.append].
  assert (isDigit "/" = false) as Hslash by reflexivity.
  assert (isDigit "-" = false) as Hdash by reflexivity.
  repeat split.
  all: rewrite parseDate_CStr by discriminate.
  all: rewrite trim_clean
         by (unfold endsClean; cbn;
             repeat match goal with H : isWhiteSpace _ = false |- _ => rewrite H end;
             reflexivity).
  all: unfold isFourDigits, formats, tryFormats, matchGroups; cbn -[parseInt].
  all: repeat (match goal with
               | H : ?x = _ |- context [?x] => rewrite H
               end; cbn -[parseInt]).
  all: reflexivity.
Qed.

End DateStrings.

(** ** The text of an amount *)

Lemma append_cons (c : ascii) (s t : string) : String c s ++ t = String c (s ++ t).
Proof. reflexivity. Qed.

Lemma append_nil (t : string) : "" ++ t = t.
Proof. reflexivity. Qed.

Lemma stripCurrency_white (c : ascii) (s : string) :
  isWhiteSpace c = true ->
  stripCurrency true (String c s) = stripCurrency true s
  /\ stripCurrency false (String c s) = String c (stripCurrency false s).
Proof.
  destruct c as [[] [] [] [] [] [] [] []]; simpl; intros H;
    first [discriminate H | split; reflexivity].
Qed.

Lemma stripCurrency_not_R (c : ascii) (s : string) :
  Ascii.eqb c "R" = false -> stripCurrency false (String c s) = String c (stripCurrency false s).
Proof.
  destruct c as [[] [] [] [] [] [] [] []]; simpl; intros H;
    first [discriminate H | reflexivity].
Qed.

Lemma stripCurrency_skip (ws s : string) :
  allWhite ws = true -> stripCurrency true (ws ++ s) = stripCurrency true s.
Proof.
  unfold allWhite. induction ws as [| c ws IH]; [reflexivity |].
  intros H. simpl in H. apply andb_prop in H as [Hc Hws].
  rewrite append_cons, (proj1 (stripCurrency_white c _ Hc)). by apply IH.
Qed.

Lemma trimStart_stripCurrency (s : string) :
  trimStart (stripCurrency true s) = trimStart (stripCurrency false s).
Proof.
  induction s as [| c s IH]; [reflexivity |].
  destruct (isWhiteSpace c) eqn:E.
  - destruct (stripCurrency_white c s E) as [-> ->]. simpl. by rewrite E.
  - simpl. by rewrite E.
Qed.

Lemma isBare_strip (s : string) : isBare s = true -> stripCurrency false s = s.
Proof.
  unfold isBare. induction s as [| c s IH]; [reflexivity |].
  intros H. simpl in H. apply andb_prop in H as [[_ Hc%negb_true_iff]%andb_prop Hs].
  rewrite (stripCurrency_not_R c s Hc). by rewrite IH.
Qed.

Lemma startsClean_of_list (l : list ascii) :
  forallb (fun c => negb (isWhiteSpace c)) l = true ->
  startsClean (string_of_list_ascii l) = true.
Proof. destruct l as [| c l]; [done |]. simpl. by intros [? _]%andb_prop. Qed.

Lemma isBare_trim (s : string) : isBare s = true -> trim s = s.
Proof.
  unfold isBare. intros H.
  assert (forallb (fun c => negb (isWhiteSpace c)) (list_ascii_of_string s) = true) as Hn.
  { rewrite forallb_forall in *. intros c Hc. by destruct (andb_prop _ _ (H c Hc)). }
  apply trim_clean.
  - rewrite <- (string_of_list_ascii_of_string s). by apply startsClean_of_list.
  - unfold endsClean, reverse_string. apply startsClean_of_list.
    rewrite forallb_forall in *. intros c Hc. apply Hn. by apply in_rev.
Qed.

Lemma list_ascii_of_string_app (s t : string) :
  list_ascii_of_string (s ++ t) = (list_ascii_of_string s ++ list_ascii_of_string t)%list.
Proof. induction s as [| c s IH]; [reflexivity |]. simpl. by rewrite IH. Qed.

Lemma includesChar_app (s t : string) (c : ascii) :
  includesChar (s ++ t) c = includesChar s c || includesChar t c.
Proof.
  induction s as [| d s IH]; [reflexivity |]. simpl.
  rewrite IH. by rewrite orb_assoc.
Qed.

Lemma removeAll_app (c : ascii) (s t : string) :
  removeAll c (s ++ t) = removeAll c s ++ removeAll c t.
Proof.
  induction s as [| d s IH]; [reflexivity |]. simpl.
  destruct (Ascii.eqb d c); [exact IH |]. by simpl; rewrite IH.
Qed.

Lemma removeAll_absent (c : ascii) (s : string) :
  includesChar s c = false -> removeAll c s = s.
Proof.
  induction s as [| d s IH]; [reflexivity |]. simpl.
  intros [-> Hs]%orb_false_elim. by rewrite IH.
Qed.

Lemma includesChar_removeAll (c d : ascii) (s : string) :
  includesChar s d = false -> includesChar (removeAll c s) d = false.
Proof.
  induction s as [| e s IH]; [reflexivity |]. simpl.
  intros [He Hs]%orb_false_elim.
  destruct (Ascii.eqb e c); [by apply IH |]. simpl. by rewrite He, IH.
Qed.

Lemma includesChar_removeAll_same (c : ascii) (s : string) :
  includesChar (removeAll c s) c = false.
Proof.
  induction s as [| e s IH]; [reflexivity |]. simpl.
  destruct (Ascii.eqb e c) eqn:E; [exact IH |]. simpl. by rewrite E, IH.
Qed.

Lemma replaceFirst_app (c r : ascii) (s t : string) :
  includesChar s c = false -> replaceFirst c r (s ++ t) = s ++ replaceFirst c r t.
Proof.
  induction s as [| d s IH]; [reflexivity |]. simpl.
  intros [Hd Hs]%orb_false_elim. simpl. by rewrite Hd, IH.
Qed.

Lemma isGrouped_facts (s : string) :
  isGrouped s = true -> isBare s = true /\ includesChar s "," = false.
Proof.
  unfold isGrouped, isBare. induction s as [| c s IH]; [done |].
  simpl. intros [Hc Hs]%andb_prop. destruct (IH Hs) as [-> ->].
  assert (isWhiteSpace c = false /\ Ascii.eqb c "R" = false /\ Ascii.eqb c "," = false)
    as (-> & -> & ->); [| done].
  revert Hc. destruct c as [[] [] [] [] [] [] [] []]; simpl; intros H;
    first [discriminate H | repeat split; reflexivity].
Qed.

Lemma allDigits_facts (s : string) :
  allDigits s = true ->
  isBare s = true /\ includesChar s "," = false /\ includesChar s "." = false.
Proof.
  unfold allDigits, isBare. induction s as [| c s IH]; [done |].
  simpl. intros [Hc Hs]%andb_prop. destruct (IH Hs) as (-> & -> & ->).
  destruct (isDigit_facts c Hc) as (-> & _ & _ & -> & -> & ->). done.
Qed.

Lemma isBare_app (s t : string) : isBare (s ++ t) = isBare s && isBare t.
Proof. unfold isBare. by rewrite list_ascii_of_string_app, forallb_app. Qed.

Section AmountStrings.
Context {host : Host}.

Lemma parseAmount_CStr (s : string) :
  s <> "" ->
  parseAmount (Some (CStr s))
  = match parseFloat (cleanedAmount s) with Some num => num | None => 0%Q end.
Proof.
  intros Hs. unfold parseAmount, truthy, cleanedAmount.
  destruct (String.eqb_spec s ""); [done | reflexivity].
Qed.

(** X4. A leading [R$] and the white space after it do not change
    the amount read from a text that is not empty. *)
Theorem parseAmount_currency_marker (ws s : string) :
  allWhite ws = true -> s <> "" ->
  parseAmount (Some (CStr ("R$" ++ ws ++ s))) = parseAmount (Some (CStr s)).
Proof.
  intros Hws Hs.
  rewrite (parseAmount_CStr s Hs), parseAmount_CStr by discriminate.
  unfold cleanedAmount.
  assert (trim (stripCurrency false ("R$" ++ ws ++ s)) = trim (stripCurrency false s)) as ->;
    [| reflexivity].
  change (stripCurrency false ("R$" ++ ws ++ s)) with (stripCurrency true (ws ++ s)).
  rewrite (stripCurrency_skip ws s Hws). unfold trim.
  by rewrite trimStart_stripCurrency.
Qed.

(** X5. Digits and dots, a comma, then digits: the dots are taken
    for thousands separators and the comma for the decimal point, so
    the text is read as the same text without its dots and with a point
    for the comma. *)
Theorem parseAmount_decimal_comma (s c : string) :
  isGrouped s = true -> allDigits c = true ->
  cleanedAmount (s ++ "," ++ c) = removeAll "." s ++ "." ++ c
  /\ parseAmount (Some (CStr (s ++ "," ++ c)))
     = parseAmount (Some (CStr (removeAll "." s ++ "." ++ c))).
Proof.
  intros Hs Hc.
  destruct (isGrouped_facts s Hs) as [Hbare Hcomma].
  destruct (allDigits_facts c Hc) as (Hcbare & Hccomma & Hcdot).
  assert (cleanedAmount (s ++ "," ++ c) = removeAll "." s ++ "." ++ c) as Hleft.
  { unfold cleanedAmount.
    assert (isBare (s ++ "," ++ c) = true) as Hb.
    { rewrite !isBare_app, Hbare, Hcbare. reflexivity. }
    rewrite (isBare_strip _ Hb), (isBare_trim _ Hb).
    rewrite !includesChar_app, Hcomma, Hcdot. simpl. rewrite !orb_false_r.
    destruct (includesChar s ".") eqn:Hdot.
    - rewrite !removeAll_app. rewrite (removeAll_absent "." c Hcdot).
      rewrite replaceFirst_app by (by apply includesChar_removeAll). reflexivity.
    - rewrite (removeAll_absent "." s Hdot).
      rewrite replaceFirst_app by done. reflexivity. }
  split; [exact Hleft |].
  assert (cleanedAmount (removeAll "." s ++ "." ++ c) = removeAll "." s ++ "." ++ c) as Hright.
  { unfold cleanedAmount.
    assert (isBare (removeAll "." s ++ "." ++ c) = true) as Hb.
    { rewrite !isBare_app, Hcbare.
      assert (isBare (removeAll "." s) = true) as ->; [| reflexivity].
      revert Hbare. unfold isBare. clear. induction s as [| d s IH]; [done |].
      simpl. intros [Hd Hs]%andb_prop.
      destruct (Ascii.eqb d "."); [by apply IH |]. simpl. by rewrite Hd, IH. }
    rewrite (isBare_strip _ Hb), (isBare_trim _ Hb).
    rewrite !includesChar_app, (includesChar_removeAll "." "," s Hcomma), Hccomma.
    reflexivity. }
  rewrite !parseAmount_CStr.
  - by rewrite Hleft, Hright.
  - destruct (removeAll "." s); discriminate.
  - destruct s; discriminate.
Qed.

End AmountStrings.

Lemma includes_empty (s : string) : includes s "" = true.
Proof. destruct s; reflexivity. Qed.

Lemma digitsOnly_noDigit (s : string) : noDigit s = true -> digitsOnly s = "".
Proof.
  unfold noDigit. induction s as [| c s IH]; [reflexivity |]. simpl.
  intros [Hc%negb_true_iff Hs]%andb_prop. rewrite Hc. by apply IH.
Qed.

Section Statuses.
Context {host : Host}.
Implicit Types (config : CleansingConfig) (row : Row) (now : Z).

Lemma motivo_prescrito_nonempty (d : Date) : motivo_prescrito d <> "".
Proof. discriminate. Qed.

Lemma motivo_valor_nonempty (q : Q) : motivo_valor q <> "".
Proof. discriminate. Qed.

(** X6. The reason is empty exactly on the Valid rows. *)
Theorem reason_empty_iff_valid now config row :
  snd (classify now config row) = "" <-> fst (classify now config row) = Valido.
Proof.
  rewrite classify_firstMatch. unfold firstMatch.
  destruct (prescribes _ _ _); [split; discriminate |].
  destruct (immunises _ _); [split; discriminate |].
  destruct (exempts _ _).
  { destruct (exemptTribute _ _); split; discriminate. }
  destruct (incompletes _ _); [split; discriminate | done].
Qed.

(** X7. A status comes from its own rule: a rule that is switched
    off assigns nothing, and with the four rules off every row is
    Valid. *)
Theorem status_needs_its_rule now config row :
  (fst (classify now config row) = Prescrito ->
     PrescriptionRules.enabled (prescription config) = true)
  /\ (fst (classify now config row) = Imune ->
     ImmunityRules.enabled (immunity config) = true)
  /\ (fst (classify now config row) = Isento ->
     ExemptionRules.enabled (exemption config) = true)
  /\ (fst (classify now config row) = DadosIncompletos ->
     IncompleteRules.enabled (incomplete config) = true)
  /\ (PrescriptionRules.enabled (prescription config) = false ->
      ImmunityRules.enabled (immunity config) = false ->
      ExemptionRules.enabled (exemption config) = false ->
      IncompleteRules.enabled (incomplete config) = false ->
      classify now config row = (Valido, "")).
Proof.
  rewrite classify_firstMatch.
  unfold firstMatch, prescribes, immunises, exempts, incompletes.
  destruct (PrescriptionRules.enabled _), (ImmunityRules.enabled _),
    (ExemptionRules.enabled _), (IncompleteRules.enabled _); simpl;
    repeat match goal with |- context [if ?b then _ else _] => destruct b end;
    simpl; repeat split; intros; first [reflexivity | discriminate].
Qed.

Lemma prescribed_inv now config row :
  fst (classify now config row) = Prescrito ->
  exists t c, tempDate (mapping config) row = Some (DateOf t)
    /\ cutoffDate now (prescription config) = DateOf c
    /\ t < c.
Proof.
  rewrite classify_firstMatch. unfold firstMatch, prescribes, isPrescribed.
  destruct (PrescriptionRules.enabled _); simpl.
  - destruct (tempDate _ _) as [[| t] |]; simpl.
    + repeat match goal with |- context [if ?b then _ else _] => destruct b end;
        discriminate.
    + destruct (cutoffDate _ _) as [| c]; simpl.
      * repeat match goal with |- context [if ?b then _ else _] => destruct b end;
          discriminate.
      * destruct (t <? c) eqn:E.
        -- intros _. exists t, c. repeat split. lia.
        -- repeat match goal with |- context [if ?b then _ else _] => destruct b end;
             discriminate.
    + repeat match goal with |- context [if ?b then _ else _] => destruct b end;
        discriminate.
  - repeat match goal with |- context [if ?b then _ else _] => destruct b end;
      discriminate.
Qed.

(** X8. A row is Prescribed only on a due date that was parsed, is
    valid, and lies strictly before a valid cutoff; so without a due
    date that parses, or with a reference date that does not, no row is
    Prescribed. *)
Theorem no_date_no_prescription now config row :
  (fst (classify now config row) = Prescrito ->
   exists t c, tempDate (mapping config) row = Some (DateOf t)
     /\ cutoffDate now (prescription config) = DateOf c
     /\ t < c)
  /\ (tempDate (mapping config) row = None -> fst (classify now config row) <> Prescrito)
  /\ (forall s, PrescriptionRules.reference_date (prescription config) = Some s ->
        s <> "" -> Date_parse s = InvalidDate ->
        fst (classify now config row) <> Prescrito).
Proof.
  split; [apply prescribed_inv |]. split.
  - intros Hd Hp. destruct (prescribed_inv _ _ _ Hp) as (t & c & Ht & _).
    congruence.
  - intros s Hs Hne Hinv Hp.
    destruct (prescribed_inv _ _ _ Hp) as (t & c & _ & Hc & _).
    unfold cutoffDate, refDate in Hc. rewrite Hs in Hc.
    destruct (String.eqb_spec s ""); [done |]. rewrite Hinv in Hc. discriminate.
Qed.


(** X10. With the document check on and the document column mapped,
    a row whose document has no digit (or no document at all), on
    which no earlier rule matches, is Incomplete. *)
Theorem document_without_digits_is_incomplete now config row (col : string) :
  IncompleteRules.enabled (incomplete config) = true ->
  IncompleteRules.check_cpf_cnpj (incomplete config) = true ->
  cpf_cnpj (mapping config) = Some col -> col <> "" ->
  noDigit (stringOrEmpty (row !! col)) = true ->
  prescribes now config row = false ->
  immunises config row = false ->
  exempts config row = false ->
  isBadDoc config row = true
  /\ classify now config row = (DadosIncompletos, motivo_incompleto).
Proof.
  intros Hen Hchk Hcol Hne Hdig Hp Hi He.
  assert (isBadDoc config row = true) as Hdoc.
  { unfold isBadDoc, tempDoc, optionalField, mapped. rewrite Hchk, Hcol.
    destruct (String.eqb_spec col ""); [done |]. simpl.
    by rewrite (digitsOnly_noDigit _ Hdig). }
  split; [exact Hdoc |].
  rewrite classify_firstMatch. unfold firstMatch, incompletes.
  rewrite Hp, Hi, He, Hen, Hdoc. by rewrite orb_true_r.
Qed.

(** X11. A threshold of zero or less switches the amount check off,
    an empty list of tributes the tribute check, and with both no row
    is Exempt. *)
Theorem exemption_off_by_default now config row :
  (ExemptionRules.amount_threshold (exemption config) <= 0)%Q ->
  ExemptionRules.tributes (exemption config) = [] ->
  exemptAmount config row = false
  /\ exemptTribute config row = false
  /\ fst (classify now config row) <> Isento.
Proof.
  intros Hth Htr.
  assert (exemptAmount config row = false) as Ha.
  { unfold exemptAmount, belowThreshold, Qltb.
    apply Qle_bool_iff in Hth. by rewrite Hth. }
  assert (exemptTribute config row = false) as Ht.
  { unfold exemptTribute, isExemptTribute. by rewrite Htr. }
  do 2 (split; [assumption |]).
  rewrite classify_firstMatch. unfold firstMatch, exempts. rewrite Ha, Ht, andb_false_r.
  repeat match goal with |- context [if ?b then _ else _] => destruct b end; discriminate.
Qed.

(** X12. An empty keyword is part of every name: with one among the
    immunity keywords, every row the prescription rule leaves is
    Immune. *)
Theorem empty_keyword_matches_every_name now config row :
  ImmunityRules.enabled (immunity config) = true ->
  In "" (ImmunityRules.keywords (immunity config)) ->
  prescribes now config row = false ->
  (forall name, hasKeyword (ImmunityRules.keywords (immunity config)) name = true)
  /\ classify now config row = (Imune, motivo_imune).
Proof.
  intros Hen Hin Hp.
  assert (forall name, hasKeyword (ImmunityRules.keywords (immunity config)) name = true) as Hk.
  { intros name. unfold hasKeyword. apply existsb_exists. exists "".
    split; [| apply includes_empty].
    rewrite <- toUpperCase_empty. by apply in_map. }
  split; [exact Hk |].
  rewrite classify_firstMatch. unfold firstMatch, immunises. by rewrite Hp, Hen, Hk.
Qed.

End Statuses.

Lemma status_eqb_eq (a b : Status) : status_eqb a b = true <-> a = b.
Proof. destruct a, b; simpl; split; first [done | discriminate]. Qed.

Lemma status_eqb_refl (a : Status) : status_eqb a a = true.
Proof. by destruct a. Qed.

Lemma status_eqb_sym (a b : Status) : status_eqb a b = status_eqb b a.
Proof. by destruct a, b. Qed.

Section Run.
Context {host : Host}.

(** X13. [processData] returns a result exactly when every required
    field that is mapped names a column of the first row and the call
    that looks for it does not throw; it throws a [TypeError] exactly
    when some required field is mapped and the first row has a column
    named [hasOwnProperty]. *)
Theorem processData_returns_iff clock (data : list Row) config :
  ((exists res, processData clock data config = inr res)
   <-> (forall col, In col (requiredCols (mapping config)) -> col <> "" ->
          firstRowHas data col = inr true))
  /\ (processData clock data config = inl TypeError
      <-> (exists col, In col (requiredCols (mapping config)) /\ col <> "")
          /\ exists row, head data = Some row /\ is_Some (row !! "hasOwnProperty")).
Proof.
  split.
  - rewrite <- missingCols_nil_iff. split.
    + intros [res Hres]. unfold processData in Hres.
      destruct (missingCols data (mapping config)) as [e | [| col l]]; done.
    + intros Hm. eexists. by apply processData_valid.
  - split.
    + intros Hp. unfold processData in Hp.
      destruct (missingCols data (mapping config)) as [e | missing] eqn:E;
        [| by destruct (0 <? length missing)%nat].
      injection Hp as ->.
      apply filterE_inl_inv in E as (col & Hin & Hcol).
      apply isMissing_inl in Hcol as [Hne Hcol].
      apply firstRowHas_inl in Hcol as [_ Hrow]. split; [by exists col | exact Hrow].
    + intros [(col & Hin & Hne) Hrow]. apply processData_thrown.
      apply (filterE_inl _ _ _ col Hin).
      * apply isMissing_inl. split; [exact Hne |]. by apply firstRowHas_inl.
      * intros y e' Hy. apply isMissing_inl in Hy as [_ Hy].
        by apply firstRowHas_inl in Hy as [-> _].
Qed.

(** X14. Required fields left unmapped (the empty string) are not
    validated: the run returns whatever the rows are, and on no rows
    it returns the summary of zeros. *)
Theorem unmapped_required_fields_pass clock (data : list Row) config :
  debt_id (mapping config) = "" -> taxpayer_name (mapping config) = "" ->
  due_date (mapping config) = "" -> amount (mapping config) = "" ->
  (exists res, processData clock data config = inr res
               /\ total_records (summary res) = length data)
  /\ processData clock [] config
     = inr {| summary := zeroSummary; preview := []; processedData := [] |}.
Proof.
  intros H1 H2 H3 H4.
  assert (forall d, missingCols d (mapping config) = inr []) as Hm.
  { intros d. unfold missingCols, requiredCols, isMissing. by rewrite H1, H2, H3, H4. }
  split.
  - eexists. split; [by apply processData_valid |]. reflexivity.
  - rewrite processData_valid by apply Hm. reflexivity.
Qed.

Lemma count_insert (counts : gmap string nat) (s s' : Status) (n : nat) :
  count (<[label s := n]> counts) s'
  = if status_eqb s' s then n else count counts s'.
Proof.
  unfold count. destruct (status_eqb s' s) eqn:E.
  - apply status_eqb_eq in E as ->. by rewrite lookup_insert_eq.
  - rewrite lookup_insert_ne; [done |]. intros Heq%label_inj. subst.
    by rewrite status_eqb_refl in E.
Qed.

Lemma tally_annotated_counts (m : ColumnMapping) (acc : Totals) (row : Row)
    (st : Status * string) :
  allLabels (statusCounts acc) ->
  statusCounts (tally m acc (annotate row st))
  = <[label (fst st) := (count (statusCounts acc) (fst st) + 1)%nat]> (statusCounts acc).
Proof.
  intros Hall. unfold tally, count. rewrite lookup_annotate_status. simpl.
  destruct (Hall (fst st)) as [n Hn]. rewrite Hn. simpl.
  by destruct (negb _).
Qed.

Lemma fold_tally_status clock config (data : list Row) (acc : Totals) (s : Status) :
  allLabels (statusCounts acc) ->
  count (statusCounts (fold_left (tally (mapping config)) (processRows clock config data) acc)) s
  = (count (statusCounts acc) s + rowsWith s (classified clock config data))%nat.
Proof.
  revert clock acc. induction data as [| row data IH]; intros clock acc Hall.
  - simpl. unfold rowsWith. simpl. lia.
  - rewrite processRows_cons, classified_cons. simpl fold_left.
    rewrite IH.
    + rewrite tally_annotated_counts by done. rewrite count_insert.
      unfold rowsWith. simpl. rewrite (status_eqb_sym s).
      destruct (status_eqb _ s) eqn:E; simpl; [| lia].
      apply status_eqb_eq in E. rewrite E. lia.
    + rewrite tally_annotated_counts by done.
      intros s'. destruct (decide (label (fst (classify (clock 0%nat) config row)) = label s'))
        as [-> | Hne].
      * rewrite lookup_insert_eq. eauto.
      * rewrite lookup_insert_ne by done. apply Hall.
Qed.

(** X15. Each count of the summary is the number of rows classified
    with that status. *)
Theorem status_counts_are_exact clock (data : list Row) config :
  missingCols data (mapping config) = inr [] ->
  exists res, processData clock data config = inr res
    /\ valid_count (summary res) = rowsWith Valido (classified clock config data)
    /\ prescribed_count (summary res) = rowsWith Prescrito (classified clock config data)
    /\ immune_count (summary res) = rowsWith Imune (classified clock config data)
    /\ exempt_count (summary res) = rowsWith Isento (classified clock config data)
    /\ incomplete_count (summary res)
       = rowsWith DadosIncompletos (classified clock config data).
Proof.
  intros Hm. eexists. split; [by apply processData_valid |]. simpl.
  repeat split; rewrite fold_tally_status by apply allLabels_initial; reflexivity.
Qed.

(** X16. The annotated rows are the input rows, in order, each with
    its status and its reason in the two added columns and every other
    column as it was; the preview is the first hundred of them. *)
Theorem annotated_rows_keep_the_input clock (data : list Row) config :
  missingCols data (mapping config) = inr [] ->
  exists res, processData clock data config = inr res
    /\ length (processedData res) = length data
    /\ preview res = take 100 (processedData res)
    /\ forall (i : nat) (row : Row), data !! i = Some row ->
         exists out, processedData res !! i = Some out
           /\ out !! col_status = Some (CStr (label (fst (classify (clock i) config row))))
           /\ out !! col_motivo = Some (CStr (snd (classify (clock i) config row)))
           /\ forall col, untouched col -> out !! col = row !! col.
Proof.
  intros Hm. eexists. split; [by apply processData_valid |]. simpl.
  split; [apply processRows_length |]. split; [reflexivity |].
  intros i row Hrow. eexists. split.
  - unfold processRows. rewrite list_lookup_imap, Hrow. reflexivity.
  - split; [apply lookup_annotate_status |].
    split; [apply lookup_annotate_motivo |].
    intros col Hcol. by apply lookup_annotate_untouched.
Qed.

End Run.

(** ** The progress reports *)

Lemma multiples_below (k m : nat) :
  (0 < k)%nat ->
  length (List.filter (fun i => (i mod k =? 0)%nat) (seq 0 m)) = ((m + k - 1) / k)%nat.
Proof.
  intros Hk. induction m as [| m IH].
  - simpl. symmetry. apply Nat.div_small. lia.
  - rewrite seq_S, List.filter_app, length_app, IH.
    pose proof (Nat.div_mod_eq m k) as Hdm.
    pose proof (Nat.mod_upper_bound m k ltac:(lia)) as Hlt.
    change (0 + m)%nat with m. cbn [List.filter].
    destruct (Nat.eqb_spec (m mod k) 0) as [E | E]; cbn [length].
    + rewrite E in Hdm.
      rewrite <- (Nat.div_unique (m + k - 1) k (m / k) (k - 1)) by lia.
      rewrite <- (Nat.div_unique (S m + k - 1) k (S (m / k)) 0) by lia. lia.
    + rewrite <- (Nat.div_unique (m + k - 1) k (S (m / k)) (m mod k - 1)) by lia.
      rewrite <- (Nat.div_unique (S m + k - 1) k (S (m / k)) (m mod k)) by lia. lia.
Qed.

Lemma length_omap_filter {A B} (f : A -> option B) (l : list A) :
  length (omap f l)
  = length (List.filter (fun x => match f x with Some _ => true | None => false end) l).
Proof.
  induction l as [| x l IH]; [reflexivity |]. simpl.
  destruct (f x); simpl; [f_equal |]; exact IH.
Qed.

Lemma progressStep_pos (n : nat) : (0 < n)%nat -> (0 < progressStep n)%nat /\ (n <= 10 * progressStep n)%nat.
Proof.
  intros Hn. unfold progressStep.
  pose proof (Nat.div_mod_eq (n + 9) 10) as Hdm.
  pose proof (Nat.mod_upper_bound (n + 9) 10 ltac:(lia)) as Hlt.
  lia.
Qed.

Lemma rowPercent_bounds (n i : nat) :
  (i < n)%nat -> (10 <= rowPercent n i)%Q /\ (rowPercent n i < 90)%Q.
Proof.
  intros Hi. unfold rowPercent. destruct n as [| n]; [lia |].
  unfold Qle, Qlt, Qplus, Qmult, Qdiv, Qinv, inject_Z. simpl.
  split; nia.
Qed.

Lemma rowPercent_mono (n i j : nat) :
  (i <= j)%nat -> (rowPercent n i <= rowPercent n j)%Q.
Proof.
  intros Hij. unfold rowPercent. destruct n as [| n].
  - unfold Qle, Qplus, Qmult, Qdiv, Qinv, inject_Z. simpl. lia.
  - unfold Qle, Qplus, Qmult, Qdiv, Qinv, inject_Z. simpl. nia.
Qed.

(** X17. While the rows are mapped there are at most ten progress
    reports, the first at row 0, each from 10 to under 90 per cent,
    growing with the row. *)
Theorem progress_reports_are_few (totalRows : nat) :
  (length (omap (rowProgress totalRows) (seq 0 totalRows)) <= 10)%nat
  /\ (forall index p s, (index < totalRows)%nat ->
        rowProgress totalRows index = Some (p, s) ->
        (10 <= p)%Q /\ (p < 90)%Q)
  /\ (forall i j p q s t, (i <= j)%nat -> (j < totalRows)%nat ->
        rowProgress totalRows i = Some (p, s) ->
        rowProgress totalRows j = Some (q, t) -> (p <= q)%Q)
  /\ ((0 < totalRows)%nat ->
      exists p, rowProgress totalRows 0 = Some (p, "Processando registros...")
                /\ (p == 10)%Q).
Proof.
  assert (forall i p s, rowProgress totalRows i = Some (p, s) ->
                        p = Qmin (rowPercent totalRows i) 90) as Hval.
  { intros i p s. unfold rowProgress, rowPercent.
    destruct (_ =? _)%nat; [| discriminate]. by intros [= <- _]. }
  split; [| split; [| split]].
  - destruct totalRows as [| n]; [simpl; lia |].
    destruct (progressStep_pos (S n) ltac:(lia)) as [Hk Hle].
    rewrite length_omap_filter.
    rewrite (filter_ext _ (fun i => (i mod progressStep (S n) =? 0)%nat)).
    + rewrite multiples_below by done.
      apply Nat.lt_succ_r, Nat.Div0.div_lt_upper_bound; lia.
    + intros i. unfold rowProgress. by destruct (_ =? _)%nat.
  - intros i p s Hi Hp. rewrite (Hval _ _ _ Hp).
    destruct (rowPercent_bounds totalRows i Hi) as [Hlo Hhi]. split.
    + apply Q.min_glb; [exact Hlo | discriminate].
    + apply Q.min_lt_iff. by left.
  - intros i j p q s t Hij Hj Hp Hq.
    rewrite (Hval _ _ _ Hp), (Hval _ _ _ Hq).
    apply Q.min_le_compat_r. by apply rowPercent_mono.
  - intros Hn. eexists. split.
    + unfold rowProgress. by rewrite Nat.Div0.mod_0_l.
    + destruct (rowPercent_bounds totalRows 0 Hn) as [Hlo Hhi].
      fold (rowPercent totalRows 0).
      rewrite Q.min_l by (by apply Qlt_le_weak).
      unfold rowPercent. destruct totalRows; [lia |].
      unfold Qeq, Qplus, Qmult, Qdiv, Qinv, inject_Z. simpl. lia.
Qed.

Lemma label_eqb (a b : Status) : String.eqb (label a) (label b) = status_eqb a b.
Proof. destruct a, b; reflexivity. Qed.

Lemma statusIs_annotate (s : Status) (row : Row) (st : Status * string) :
  statusIs s (annotate row st) = status_eqb (fst st) s.
Proof. unfold statusIs. rewrite lookup_annotate_status. apply label_eqb. Qed.

Lemma statusIs_exclusive (a b : Status) (row : Row) :
  statusIs a row = true -> statusIs b row = true -> a = b.
Proof.
  unfold statusIs. destruct (row !! col_status) as [[| | | t |] |]; try discriminate.
  intros Ha%String.eqb_eq Hb%String.eqb_eq. apply label_inj. congruence.
Qed.

#[local] Instance leString_total : Total leString.
Proof. intros a b. apply String.leb_total. Qed.

Lemma rowsWith_total (l : list (Status * Q)) :
  (rowsWith Imune l + rowsWith Isento l + rowsWith Prescrito l
   + rowsWith DadosIncompletos l + rowsWith Valido l)%nat = length l.
Proof.
  unfold rowsWith. induction l as [| [s a] l IH]; [reflexivity |].
  simpl. destruct s; simpl; lia.
Qed.

Section ExportProperties.
Context {host : Host}.
Variable formatCurrency : Q -> string.

Lemma length_classified clock config (data : list Row) :
  length (classified clock config data) = length data.
Proof. apply length_imap. Qed.

Lemma filter_status_processRows clock config (data : list Row) (s : Status) :
  length (List.filter (statusIs s) (processRows clock config data))
  = rowsWith s (classified clock config data).
Proof.
  revert clock. induction data as [| row data IH]; intros clock; [reflexivity |].
  rewrite processRows_cons, classified_cons. unfold rowsWith. simpl.
  rewrite statusIs_annotate.
  destruct (status_eqb _ s); simpl; by rewrite IH.
Qed.

Lemma filter_immune_processRows clock config (data : list Row) :
  length (List.filter (fun r => statusIs Imune r || statusIs Isento r)
                      (processRows clock config data))
  = (rowsWith Imune (classified clock config data)
     + rowsWith Isento (classified clock config data))%nat.
Proof.
  revert clock. induction data as [| row data IH]; intros clock; [reflexivity |].
  rewrite processRows_cons, classified_cons. unfold rowsWith in *. simpl.
  rewrite !statusIs_annotate.
  destruct (fst (classify (clock 0%nat) config row)); simpl; rewrite IH; lia.
Qed.

(** X18. The sheets of the workbook made from a run agree with its
    summary: all the annotated rows on the first, and on the other four
    as many rows as the summary counts Immune and Exempt, Prescribed,
    Incomplete and Valid, which together are all the rows. *)
Theorem export_sheets_match_the_summary clock (data : list Row) config :
  missingCols data (mapping config) = inr [] ->
  exists res all imm pre ign val,
    processData clock data config = inr res
    /\ sheets (exportToExcel formatCurrency (processedData res) (mapping config))
       = [(sheet_divida, all); (sheet_imunes, imm); (sheet_prescritos, pre);
          (sheet_ignorados, ign); (sheet_validos, val)]
    /\ all = processedData res
    /\ length imm = (immune_count (summary res) + exempt_count (summary res))%nat
    /\ length pre = prescribed_count (summary res)
    /\ length ign = incomplete_count (summary res)
    /\ length val = valid_count (summary res)
    /\ (length imm + length pre + length ign + length val)%nat = length data.
Proof.
  intros Hm. eexists. do 5 eexists.
  split; [by apply processData_valid |]. simpl.
  split; [reflexivity |]. split; [reflexivity |].
  rewrite filter_immune_processRows, !filter_status_processRows.
  rewrite !fold_tally_status by apply allLabels_initial. simpl.
  do 4 (split; [reflexivity |]).
  rewrite <- (length_classified clock config data).
  apply rowsWith_total.
Qed.

Lemma totalAmount_sum (m : ColumnMapping) (rows : list Row) (a : Q) :
  (fold_left (fun acc row => acc + parseAmount (row !! amount m)) rows a
   == a + sumQ (map (fun row => parseAmount (row !! amount m)) rows))%Q.
Proof.
  revert a. induction rows as [| row rows IH]; intros a; simpl; [ring |].
  rewrite IH. ring.
Qed.

Lemma fold_tally_total (m : ColumnMapping) (rows : list Row) (acc : Totals) :
  (totalValid (fold_left (tally m) rows acc) + totalRemoved (fold_left (tally m) rows acc)
   == totalValid acc + totalRemoved acc
      + sumQ (map (fun row => parseAmount (row !! amount m)) rows))%Q.
Proof.
  revert acc. induction rows as [| row rows IH]; intros acc; simpl; [ring |].
  rewrite IH. unfold tally. destruct (notValido _); simpl; ring.
Qed.

Lemma fold_amounts (m : ColumnMapping) (rows : list Row) (a : Q) :
  fold_left (fun acc row => (acc + parseAmount (row !! amount m))%Q) rows a
  = fold_left Qplus (map (amountOf m) rows) a.
Proof. revert a. induction rows as [| row rows IH]; intros a; simpl; [reflexivity | apply IH]. Qed.

Lemma fold_tally_valid (m : ColumnMapping) (rows : list Row) (acc : Totals) :
  totalValid (fold_left (tally m) rows acc)
  = fold_left Qplus (map (amountOf m) (List.filter isValidRow rows)) (totalValid acc).
Proof.
  revert acc. induction rows as [| row rows IH]; intros acc; simpl; [reflexivity |].
  rewrite IH. unfold tally, isValidRow. by destruct (notValido _).
Qed.

Lemma fold_tally_removed (m : ColumnMapping) (rows : list Row) (acc : Totals) :
  totalRemoved (fold_left (tally m) rows acc)
  = fold_left Qplus
      (map (amountOf m) (List.filter (fun row => negb (isValidRow row)) rows))
      (totalRemoved acc).
Proof.
  revert acc. induction rows as [| row rows IH]; intros acc; simpl; [reflexivity |].
  rewrite IH. unfold tally, isValidRow. by destruct (notValido _).
Qed.

(** X19. The three totals of a run are sums of the same amounts, each
    made from 0 by one addition for each row, in the order of the rows:
    the total the workbook shows before cleansing over all the
    annotated rows, [total_amount_valid] over those whose status is
    Valid, [total_amount_removed] over the others.  In exact arithmetic
    the first is therefore the sum of the other two; the additions
    being made in different orders, nothing more is said of the
    floating point numbers of the code. *)
Theorem export_total_is_the_summary_total clock (data : list Row) config res :
  processData clock data config = inr res ->
  let m := mapping config in
  let rows := processedData res in
  totalAmount m rows = runningSum (map (amountOf m) rows)
  /\ total_amount_valid (summary res)
     = runningSum (map (amountOf m) (List.filter isValidRow rows))
  /\ total_amount_removed (summary res)
     = runningSum (map (amountOf m) (List.filter (fun row => negb (isValidRow row)) rows))
  /\ (totalAmount m rows
      == total_amount_valid (summary res) + total_amount_removed (summary res))%Q.
Proof.
  intros Hres. unfold processData in Hres.
  destruct (missingCols data (mapping config)) as [e | missing]; [discriminate |].
  destruct (0 <? length missing)%nat; [discriminate |]. injection Hres as <-.
  cbn [processedData summary]. cbv zeta.
  split; [apply fold_amounts |].
  split; [apply fold_tally_valid |].
  split; [apply fold_tally_removed |].
  unfold totalAmount, summarise. cbn [total_amount_valid total_amount_removed].
  rewrite totalAmount_sum, fold_tally_total. simpl. ring.
Qed.

(** *** The table of the years *)

Lemma fileRow_statAt (m : ColumnMapping) (stats : gmap string YearStat.t) (row : Row)
    (year : string) :
  isInherited year = false ->
  statAt (fileRow m stats row) year
  = if String.eqb (yearOf m row) year
    then addAmount row (parseAmount (row !! amount m)) (statAt stats year)
    else statAt stats year.
Proof.
  intros Hy. unfold fileRow, statAt.
  destruct (String.eqb_spec (yearOf m row) year) as [-> | Hne].
  - rewrite Hy. by rewrite lookup_insert_eq.
  - destruct (isInherited (yearOf m row)); [reflexivity |].
    by rewrite lookup_insert_ne.
Qed.

Lemma fileRow_lookup (m : ColumnMapping) (stats : gmap string YearStat.t) (row : Row)
    (year : string) :
  is_Some (fileRow m stats row !! year)
  <-> is_Some (stats !! year) \/ (yearOf m row = year /\ isInherited year = false).
Proof.
  unfold fileRow. destruct (isInherited (yearOf m row)) eqn:E.
  - split; [by left |]. intros [H | [<- H]]; [done | congruence].
  - destruct (decide (yearOf m row = year)) as [<- | Hne].
    + rewrite lookup_insert_eq. split; [by right | eauto].
    + rewrite lookup_insert_ne by done. split; [by left |].
      intros [H | [H _]]; [done | congruence].
Qed.

Lemma fold_fileRow_lookup (m : ColumnMapping) (rows : list Row)
    (stats : gmap string YearStat.t) (year : string) :
  is_Some (fold_left (fileRow m) rows stats !! year)
  <-> is_Some (stats !! year)
      \/ (isInherited year = false /\ exists row, In row rows /\ yearOf m row = year).
Proof.
  revert stats. induction rows as [| row rows IH]; intros stats; simpl.
  - split; [by left |]. intros [H | (_ & ? & [] & _)]; done.
  - rewrite IH, fileRow_lookup. split.
    + intros [[H | [H1 H2]] | (H1 & r & H2 & H3)].
      * left; exact H.
      * right. split; [exact H2 |]. exists row. split; [left; reflexivity | exact H1].
      * right. split; [exact H1 |]. exists r. split; [right; exact H2 | exact H3].
    + intros [H | (H1 & r & [<- | H2] & H3)].
      * left; left; exact H.
      * left; right. split; [exact H3 | exact H1].
      * right. split; [exact H1 |]. exists r. split; [exact H2 | exact H3].
Qed.

Lemma addAmount_fields (row : Row) (a : Q) (st : YearStat.t) :
  (YearStat.valid (addAmount row a st)
   == YearStat.valid st + (if statusIs Valido row then a else 0))%Q
  /\ (YearStat.immune (addAmount row a st)
      == YearStat.immune st + (if statusIs Imune row || statusIs Isento row then a else 0))%Q
  /\ (YearStat.incomplete (addAmount row a st)
      == YearStat.incomplete st + (if statusIs DadosIncompletos row then a else 0))%Q
  /\ (YearStat.prescribed (addAmount row a st)
      == YearStat.prescribed st + (if statusIs Prescrito row then a else 0))%Q.
Proof.
  unfold addAmount.
  destruct (statusIs Valido row) eqn:Ev.
  { assert (statusIs Imune row = false /\ statusIs Isento row = false
            /\ statusIs DadosIncompletos row = false /\ statusIs Prescrito row = false)
      as (-> & -> & -> & ->).
    { repeat split; match goal with |- statusIs ?s row = false =>
        destruct (statusIs s row) eqn:E; [| done];
        discriminate (statusIs_exclusive _ _ _ Ev E) end. }
    simpl. repeat split; ring. }
  destruct (statusIs Imune row) eqn:Ei.
  { assert (statusIs DadosIncompletos row = false /\ statusIs Prescrito row = false)
      as (-> & ->).
    { repeat split; match goal with |- statusIs ?s row = false =>
        destruct (statusIs s row) eqn:E; [| done];
        discriminate (statusIs_exclusive _ _ _ Ei E) end. }
    simpl. repeat split; ring. }
  destruct (statusIs Isento row) eqn:Es.
  { assert (statusIs DadosIncompletos row = false /\ statusIs Prescrito row = false)
      as (-> & ->).
    { repeat split; match goal with |- statusIs ?s row = false =>
        destruct (statusIs s row) eqn:E; [| done];
        discriminate (statusIs_exclusive _ _ _ Es E) end. }
    simpl. repeat split; ring. }
  destruct (statusIs DadosIncompletos row) eqn:Ed.
  { assert (statusIs Prescrito row = false) as ->.
    { destruct (statusIs Prescrito row) eqn:E; [| done].
      discriminate (statusIs_exclusive _ _ _ Ed E). }
    simpl. repeat split; ring. }
  destruct (statusIs Prescrito row); simpl; repeat split; ring.
Qed.

Lemma fold_fileRow_fields (m : ColumnMapping) (rows : list Row)
    (stats : gmap string YearStat.t) (year : string) :
  isInherited year = false ->
  (YearStat.valid (statAt (fold_left (fileRow m) rows stats) year)
   == YearStat.valid (statAt stats year) + filedUnder m year (statusIs Valido) rows)%Q
  /\ (YearStat.immune (statAt (fold_left (fileRow m) rows stats) year)
      == YearStat.immune (statAt stats year)
         + filedUnder m year (fun r => statusIs Imune r || statusIs Isento r) rows)%Q
  /\ (YearStat.incomplete (statAt (fold_left (fileRow m) rows stats) year)
      == YearStat.incomplete (statAt stats year)
         + filedUnder m year (statusIs DadosIncompletos) rows)%Q
  /\ (YearStat.prescribed (statAt (fold_left (fileRow m) rows stats) year)
      == YearStat.prescribed (statAt stats year)
         + filedUnder m year (statusIs Prescrito) rows)%Q.
Proof.
  intros Hy. revert stats. induction rows as [| row rows IH]; intros stats.
  - unfold filedUnder. simpl. repeat split; ring.
  - simpl fold_left. destruct (IH (fileRow m stats row)) as (Hv & Hi & Hn & Hp).
    rewrite Hv, Hi, Hn, Hp. rewrite !(fileRow_statAt m stats row year Hy).
    unfold filedUnder. simpl.
    destruct (String.eqb (yearOf m row) year); simpl.
    + destruct (addAmount_fields row (parseAmount (row !! amount m)) (statAt stats year))
        as (-> & -> & -> & ->).
      destruct (statusIs Valido row), (statusIs Imune row || statusIs Isento row),
        (statusIs DadosIncompletos row), (statusIs Prescrito row);
        simpl; repeat split; ring.
    + repeat split; ring.
Qed.

Lemma yearStats_lookup (m : ColumnMapping) (data : list Row) (year : string) :
  is_Some (yearStats m data !! year)
  <-> isInherited year = false /\ exists row, In row data /\ yearOf m row = year.
Proof.
  unfold yearStats. rewrite fold_fileRow_lookup, lookup_empty. split.
  - intros [[? H] | H]; [discriminate H | exact H].
  - by right.
Qed.

(** X20. In the table of the years, a year has an entry exactly when
    some row is filed under it (and it is not the name of a member
    every object inherits); its four amounts are the sums of the
    amounts of the rows filed under it that are Valid, Immune or
    Exempt, Incomplete, and Prescribed. *)
Theorem year_table_adds_up (m : ColumnMapping) (data : list Row) (year : string) :
  (is_Some (yearStats m data !! year)
   <-> isInherited year = false /\ exists row, In row data /\ yearOf m row = year)
  /\ (isInherited year = false ->
      (YearStat.valid (statAt (yearStats m data) year)
       == filedUnder m year (statusIs Valido) data)%Q
      /\ (YearStat.immune (statAt (yearStats m data) year)
          == filedUnder m year (fun r => statusIs Imune r || statusIs Isento r) data)%Q
      /\ (YearStat.incomplete (statAt (yearStats m data) year)
          == filedUnder m year (statusIs DadosIncompletos) data)%Q
      /\ (YearStat.prescribed (statAt (yearStats m data) year)
          == filedUnder m year (statusIs Prescrito) data)%Q).
Proof.
  split; [apply yearStats_lookup |].
  intros Hy. unfold yearStats.
  destruct (fold_fileRow_fields m data ∅ year Hy) as (Hv & Hi & Hn & Hp).
  rewrite Hv, Hi, Hn, Hp. unfold statAt. rewrite lookup_empty. simpl.
  repeat split; ring.
Qed.

(** X21. The lines of the table of the years are in ascending order
    of the year text, one for each year that has rows, each line
    carrying its year. *)
Theorem year_table_is_sorted (m : ColumnMapping) (data : list Row) :
  let wb := exportToExcel formatCurrency data m in
  let years := sortedYears (yearStats m data) in
  Sorted leString years
  /\ NoDup years
  /\ (forall year, year ∈ years
        <-> isInherited year = false /\ exists row, In row data /\ yearOf m row = year)
  /\ length (tableData wb) = length years
  /\ (forall (i : nat) (year : string), years !! i = Some year ->
        exists line, tableData wb !! i = Some line /\ line !! "Ano" = Some (CStr year)).
Proof.
  simpl. unfold sortedYears.
  split; [apply Sorted_merge_sort, _ |].
  split.
  { rewrite merge_sort_Permutation. apply NoDup_fst_map_to_list. }
  split.
  { intros year. rewrite merge_sort_Permutation.
    rewrite <- (yearStats_lookup m data year).
    rewrite list_elem_of_fmap. split.
    - intros ([y st] & -> & Hin). apply elem_of_map_to_list in Hin. simpl. eauto.
    - intros [st Hst]. exists (year, st). split; [done |]. by apply elem_of_map_to_list. }
  split; [by rewrite length_fmap |].
  intros i year Hi. eexists. split.
  - rewrite list_lookup_fmap. unfold sortedYears. rewrite Hi. reflexivity.
  - unfold tableRow. by simplify_map_eq.
Qed.

End ExportProperties.

Lemma share_bounds (c total : Z) :
  0 <= c <= total -> 0 < total -> (0 <= share c total <= 100)%Q.
Proof.
  intros Hc Ht. unfold share. destruct total as [| p | p]; try lia.
  unfold Qle, Qmult, Qdiv, Qinv, inject_Z. simpl. split; nia.
Qed.

Lemma share_zero (c total : Z) : 0 < total -> (share c total == 0)%Q <-> c = 0.
Proof.
  intros Ht. unfold share. destruct total as [| p | p]; try lia.
  unfold Qeq, Qmult, Qdiv, Qinv, inject_Z. simpl. split; nia.
Qed.

Lemma share_full (c total : Z) : 0 < total -> (share c total == 100)%Q <-> c = total.
Proof.
  intros Ht. unfold share. destruct total as [| p | p]; try lia.
  unfold Qeq, Qmult, Qdiv, Qinv, inject_Z. simpl. split; nia.
Qed.

Section Dashboard.
Context {host : Host}.

(** X22. For a run on at least one row, each of the five segments of
    the distribution bar of the dashboard is between 0 and 100 per
    cent wide, empty exactly when no row has its status and full
    exactly when every row has it; the removed percentage, before it
    is rounded for display, is between 0 and 100 and is 0 exactly when
    every row is Valid. *)
Theorem distribution_widths_are_percentages clock (data : list Row) config :
  missingCols data (mapping config) = inr [] -> data <> [] ->
  exists res, processData clock data config = inr res
    /\ Forall (fun w => 0 <= w <= 100)%Q (distribution (summary res))
    /\ (forall count,
          In count [valid_count (summary res); prescribed_count (summary res);
                    immune_count (summary res); exempt_count (summary res);
                    incomplete_count (summary res)] ->
          let width := share (Z.of_nat count) (Z.of_nat (total_records (summary res))) in
          ((width == 0)%Q <-> count = 0%nat)
          /\ ((width == 100)%Q <-> count = total_records (summary res)))
    /\ (0 <= removedPercentage (summary res) <= 100)%Q
    /\ ((removedPercentage (summary res) == 0)%Q
        <-> valid_count (summary res) = total_records (summary res)).
Proof.
  intros Hm Hne. eexists. split; [by apply processData_valid |]. simpl.
  pose proof (fold_tally_counts (mapping config) (processRows clock config data)
                {| statusCounts := initialCounts; totalRemoved := 0; totalValid := 0 |}
                allLabels_initial (processRows_hasStatus clock config data)) as Hsum.
  simpl in Hsum. rewrite countsTotal_initial, processRows_length in Hsum.
  unfold countsTotal in Hsum.
  assert (0 < Z.of_nat (length data)) as Hpos by (destruct data; simpl; [done | lia]).
  split; [| split; [| split]].
  - unfold distribution, summarise.
    cbn [total_records valid_count prescribed_count immune_count
         exempt_count incomplete_count].
    repeat (constructor; [apply share_bounds; lia |]). constructor.
  - intros count Hin. cbv zeta. rewrite (share_zero _ _ Hpos), (share_full _ _ Hpos). lia.
  - unfold removedPercentage, summarise. cbn [total_records valid_count].
    apply share_bounds; lia.
  - unfold removedPercentage, summarise. cbn [total_records valid_count].
    rewrite (share_zero _ _ Hpos). lia.
Qed.

End Dashboard.

(** *** The keyword fields *)

Lemma includesChar_rev (s : string) (c : ascii) :
  includesChar (reverse_string s) c = includesChar s c.
Proof.
  induction s as [| d s IH]; [reflexivity |].
  rewrite reverse_string_cons, includesChar_app, IH. simpl.
  rewrite orb_false_r. apply orb_comm.
Qed.

Lemma includesChar_trimStart (s : string) (c : ascii) :
  includesChar s c = false -> includesChar (trimStart s) c = false.
Proof.
  induction s as [| d s IH]; [done |]. simpl.
  intros [Hd Hs]%orb_false_elim.
  destruct (isWhiteSpace d); [by apply IH |]. simpl. by rewrite Hd, Hs.
Qed.

Lemma includesChar_trim (s : string) (c : ascii) :
  includesChar s c = false -> includesChar (trim s) c = false.
Proof.
  intros H. unfold trim, trimEnd.
  rewrite includesChar_rev. apply includesChar_trimStart.
  rewrite includesChar_rev. by apply includesChar_trimStart.
Qed.

Lemma split_no_separator (c : ascii) (s x : string) :
  In x (splitOn c s) -> includesChar x c = false.
Proof.
  revert x. induction s as [| d s IH]; intros x; simpl.
  - intros [<- | []]. reflexivity.
  - destruct (Ascii.eqb d c) eqn:E.
    + intros [<- | H]; [reflexivity | by apply IH].
    + destruct (splitOn c s) as [| y ys] eqn:Es.
      * intros [<- | []]. simpl. by rewrite E.
      * intros [<- | H].
        -- simpl. rewrite E. apply IH. by left.
        -- apply IH. by right.
Qed.

Lemma split_absent (c : ascii) (s : string) :
  includesChar s c = false -> splitOn c s = [s].
Proof.
  induction s as [| d s IH]; [reflexivity |]. simpl.
  intros [-> Hs]%orb_false_elim. by rewrite (IH Hs).
Qed.

Lemma split_app (c : ascii) (s t : string) :
  includesChar s c = false ->
  splitOn c (s ++ String c t) = s :: splitOn c t.
Proof.
  induction s as [| d s IH]; simpl.
  - intros _. by rewrite Ascii.eqb_refl.
  - intros [-> Hs]%orb_false_elim. by rewrite (IH Hs).
Qed.

Lemma allWhite_facts (ws : string) :
  allWhite ws = true -> includesChar ws "," = false.
Proof.
  unfold allWhite. induction ws as [| c ws IH]; [done |]. simpl.
  intros [Hc Hws]%andb_prop. rewrite (IH Hws), orb_false_r.
  revert Hc. destruct c as [[] [] [] [] [] [] [] []]; simpl; intros H;
    first [discriminate H | reflexivity].
Qed.

Lemma trimStart_white (ws s : string) :
  allWhite ws = true -> trimStart (ws ++ s) = trimStart s.
Proof.
  unfold allWhite. induction ws as [| c ws IH]; [done |].
  intros H. simpl in H. apply andb_prop in H as [Hc Hws].
  rewrite append_cons. simpl. rewrite Hc. by apply IH.
Qed.

Lemma trim_white (ws : string) : allWhite ws = true -> trim ws = "".
Proof.
  intros H. unfold trim.
  assert (trimStart ws = "") as ->; [| reflexivity].
  revert H. unfold allWhite. induction ws as [| c ws IH]; [done |]. simpl.
  intros [-> Hws]%andb_prop. by apply IH.
Qed.

Lemma trim_padded (ws k : string) :
  allWhite ws = true -> startsClean k = true -> endsClean k = true ->
  trim (ws ++ k) = k.
Proof.
  intros Hws Hs He. unfold trim. rewrite (trimStart_white ws k Hws).
  fold (trim k). by apply trim_clean.
Qed.

Lemma append_empty_r (s : string) : s ++ "" = s.
Proof. induction s as [| c s IH]; [done |]. rewrite append_cons. by f_equal. Qed.

Lemma append_assoc (s t u : string) : (s ++ t) ++ u = s ++ t ++ u.
Proof. induction s as [| c s IH]; [done |]. rewrite !append_cons. by f_equal. Qed.

Lemma parseKeywords_padded (ws : string) (kws : list string) :
  allWhite ws = true ->
  forallb isKeyword kws = true ->
  parseKeywords (ws ++ join ", " kws) = kws.
Proof.
  revert ws. induction kws as [| k rest IH]; intros ws Hws Hk.
  - unfold parseKeywords. simpl join.
    rewrite append_empty_r.
    rewrite (split_absent "," ws (allWhite_facts ws Hws)). simpl.
    by rewrite (trim_white ws Hws).
  - simpl in Hk. apply andb_prop in Hk as [Hkw Hrest].
    unfold isKeyword in Hkw.
    apply andb_prop in Hkw as [[[Hne Hs]%andb_prop He]%andb_prop Hc%negb_true_iff].
    assert (includesChar (ws ++ k) "," = false) as Hwk.
    { by rewrite includesChar_app, (allWhite_facts ws Hws), Hc. }
    destruct rest as [| k2 rest].
    + unfold parseKeywords. simpl join.
      rewrite (split_absent "," _ Hwk). simpl.
      rewrite (trim_padded ws k Hws Hs He). by rewrite Hne.
    + change (join ", " (k :: k2 :: rest)) with (k ++ ", " ++ join ", " (k2 :: rest)).
      assert (ws ++ k ++ ", " ++ join ", " (k2 :: rest)
              = (ws ++ k) ++ String "," (" " ++ join ", " (k2 :: rest))) as ->.
      { by rewrite append_assoc. }
      unfold parseKeywords. rewrite (split_app "," _ _ Hwk). simpl.
      rewrite (trim_padded ws k Hws Hs He), Hne. simpl. f_equal.
      apply (IH " "); [reflexivity | exact Hrest].
Qed.

(** X23. What the keyword fields store and show back: every stored
    keyword is non-empty, has no white space at its ends and no comma;
    and a list of such keywords, shown joined by a comma and a space
    and read again, is the same list. *)
Theorem parseKeywords_round_trip :
  (forall value k, In k (parseKeywords value) ->
     k <> "" /\ trim k = k /\ includesChar k "," = false)
  /\ (forall kws, forallb isKeyword kws = true -> parseKeywords (join ", " kws) = kws).
Proof.
  split.
  - intros value k. unfold parseKeywords. rewrite filter_In, in_map_iff.
    intros [(x & <- & Hx) Hne]. split; [| split].
    + intros E. by rewrite E in Hne.
    + apply trim_idempotent.
    + apply includesChar_trim. by apply (split_no_separator _ value).
  - intros kws Hk. by apply (parseKeywords_padded "" kws).
Qed.

(** *** The name of the exported file *)

Lemma stripExtension_app (base ext : string) :
  isExtension ext = true -> stripExtension (base ++ String "." ext) = base.
Proof.
  intros He. induction base as [| c base IH]; simpl.
  - by rewrite He.
  - rewrite IH.
    assert (isExtension (base ++ String "." ext) = false) as ->.
    { unfold isExtension. rewrite (includesChar_app base _ ".").
      simpl. by rewrite orb_true_r, !andb_false_r. }
    by rewrite andb_false_r.
Qed.

Lemma stripExtension_no_dot (name : string) :
  includesChar name "." = false -> stripExtension name = name.
Proof.
  induction name as [| c name IH]; [done |]. simpl.
  intros [-> Hn]%orb_false_elim. simpl. by rewrite IH.
Qed.

(** X24. The exported file is named after the uploaded one with its
    last extension replaced: [higienizado_], the name up to its last
    dot, [.xlsx]; a name without a dot is kept whole. *)
Theorem exportFileName_replaces_the_extension :
  (forall base ext, isExtension ext = true ->
     exportFileName (base ++ "." ++ ext) = "higienizado_" ++ base ++ ".xlsx")
  /\ (forall name, includesChar name "." = false ->
        exportFileName name = "higienizado_" ++ name ++ ".xlsx").
Proof.
  split.
  - intros base ext He. unfold exportFileName.
    change (base ++ "." ++ ext) with (base ++ String "." ext).
    by rewrite stripExtension_app.
  - intros name Hn. unfold exportFileName. by rewrite stripExtension_no_dot.
Qed.

(** * The further properties on concrete rows *)

Section MoreConcrete.
Import Scenario Cases.
#[local] Existing Instance Host0.host.

Ltac run := vm_compute; reflexivity.

Lemma parseDate_ignores_surrounding_space_witness :
  trim "  31/01/2020 " = "31/01/2020"
  /\ parseDate (Some (CStr "  31/01/2020 ")) = parseDate (Some (CStr "31/01/2020")).
Proof.
  split; [run |].
  exact (parseDate_ignores_surrounding_space "  31/01/2020 ").
Defined.

Lemma reason_empty_iff_valid_witness :
  fst (classify now0 defaults maria) = Valido
  /\ snd (classify now0 defaults maria) = "".
Proof.
  assert (fst (classify now0 defaults maria) = Valido) as Hv by run.
  split; [exact Hv |].
  exact (proj2 (reason_empty_iff_valid now0 defaults maria) Hv).
Defined.

(** The year strings, whatever their white space. *)
Lemma parseDate_year_string_witness :
  isFourDigits (trim " 2019 ") = true
  /\ 1900 <= parseInt (trim " 2019 ") <= 2100
  /\ parseDate (Some (CStr " 2019 "))
     = Some (newDate (inject_Z (parseInt (trim " 2019 "))) 0 1)
  /\ parseDate (Some (CStr " 2019 ")) = Some jan_1_2019.
Proof.
  assert (isFourDigits (trim " 2019 ") = true) as H1 by run.
  assert (1900 <= parseInt (trim " 2019 ") <= 2100) as H2 by (vm_compute; split; discriminate).
  split; [exact H1 |]. split; [exact H2 |].
  split; [exact (proj1 (parseDate_year_string " 2019 " H1 H2)) | run].
Defined.

Lemma parseDate_three_formats_witness :
  String.length "31" = 2%nat /\ String.length "01" = 2%nat /\ String.length "2020" = 4%nat
  /\ allDigits "31" = true /\ allDigits "01" = true /\ allDigits "2020" = true
  /\ parseDate (Some (CStr "31/01/2020"))
     = Some (newDate (inject_Z (parseInt "2020")) (parseInt "01" - 1) (parseInt "31"))
  /\ parseDate (Some (CStr "2020-01-31")) = parseDate (Some (CStr "31/01/2020"))
  /\ parseDate (Some (CStr "31-01-2020")) = parseDate (Some (CStr "31/01/2020")).
Proof.
  destruct (parseDate_three_formats "31" "01" "2020" eq_refl eq_refl eq_refl
              eq_refl eq_refl eq_refl) as (H1 & H2 & H3).
  do 6 (split; [reflexivity |]).
  split; [exact H1 |].
  split; [exact (eq_trans H2 (eq_sym H1)) | exact (eq_trans H3 (eq_sym H1))].
Defined.

Lemma parseAmount_currency_marker_witness :
  allWhite "  " = true /\ "1.234,56" <> ""
  /\ parseAmount (Some (CStr "R$  1.234,56")) = parseAmount (Some (CStr "1.234,56")).
Proof.
  assert ("1.234,56" <> "") as Hne by discriminate.
  split; [reflexivity |]. split; [exact Hne |].
  exact (parseAmount_currency_marker "  " "1.234,56" eq_refl Hne).
Defined.

Lemma parseAmount_decimal_comma_witness :
  isGrouped "1.234" = true /\ allDigits "56" = true
  /\ cleanedAmount "1.234,56" = "1234.56"
  /\ parseAmount (Some (CStr "1.234,56")) = parseAmount (Some (CStr "1234.56")).
Proof.
  do 2 (split; [reflexivity |]).
  exact (parseAmount_decimal_comma "1.234" "56" eq_refl eq_refl).
Defined.

Lemma status_needs_its_rule_witness :
  PrescriptionRules.enabled (prescription allOff) = false
  /\ ImmunityRules.enabled (immunity allOff) = false
  /\ ExemptionRules.enabled (exemption allOff) = false
  /\ IncompleteRules.enabled (incomplete allOff) = false
  /\ classify now0 allOff oldDebt = (Valido, "").
Proof.
  do 4 (split; [reflexivity |]).
  exact (proj2 (proj2 (proj2 (proj2 (status_needs_its_rule now0 allOff oldDebt))))
           eq_refl eq_refl eq_refl eq_refl).
Defined.

Lemma no_date_no_prescription_witness :
  tempDate (mapping defaults) noDate = None
  /\ fst (classify now0 defaults noDate) <> Prescrito
  /\ PrescriptionRules.reference_date (prescription badReference) = Some "yesterday"
  /\ Date_parse "yesterday" = InvalidDate
  /\ fst (classify now0 badReference bahia) <> Prescrito.
Proof.
  assert (tempDate (mapping defaults) noDate = None) as H1 by run.
  assert (Date_parse "yesterday" = InvalidDate) as H2 by run.
  split; [exact H1 |].
  split; [exact (proj1 (proj2 (no_date_no_prescription now0 defaults noDate)) H1) |].
  split; [reflexivity |]. split; [exact H2 |].
  refine (proj2 (proj2 (no_date_no_prescription now0 badReference bahia))
            "yesterday" eq_refl _ H2).
  discriminate.
Defined.


Lemma document_without_digits_is_incomplete_witness :
  IncompleteRules.enabled (incomplete withDoc) = true
  /\ IncompleteRules.check_cpf_cnpj (incomplete withDoc) = true
  /\ cpf_cnpj (mapping withDoc) = Some "CPF"
  /\ noDigit (stringOrEmpty (noDocument !! "CPF")) = true
  /\ prescribes now0 withDoc noDocument = false
  /\ immunises withDoc noDocument = false
  /\ exempts withDoc noDocument = false
  /\ classify now0 withDoc noDocument = (DadosIncompletos, motivo_incompleto).
Proof.
  assert (noDigit (stringOrEmpty (noDocument !! "CPF")) = true) as H4 by run.
  assert (prescribes now0 withDoc noDocument = false) as H5 by run.
  assert (immunises withDoc noDocument = false) as H6 by run.
  assert (exempts withDoc noDocument = false) as H7 by run.
  assert ("CPF" <> "") as Hne by discriminate.
  do 3 (split; [reflexivity |]). do 4 (split; [assumption |]).
  exact (proj2 (document_without_digits_is_incomplete now0 withDoc noDocument "CPF"
                  eq_refl eq_refl eq_refl Hne H4 H5 H6 H7)).
Defined.

Lemma exemption_off_by_default_witness :
  (ExemptionRules.amount_threshold (exemption defaults) <= 0)%Q
  /\ ExemptionRules.tributes (exemption defaults) = []
  /\ fst (classify now0 defaults newDebt) <> Isento.
Proof.
  assert (ExemptionRules.amount_threshold (exemption defaults) <= 0)%Q as H1
    by (vm_compute; discriminate).
  split; [exact H1 |]. split; [reflexivity |].
  exact (proj2 (proj2 (exemption_off_by_default now0 defaults newDebt H1 eq_refl))).
Defined.

Lemma empty_keyword_matches_every_name_witness :
  ImmunityRules.enabled (immunity emptyKeyword) = true
  /\ In "" (ImmunityRules.keywords (immunity emptyKeyword))
  /\ prescribes now0 emptyKeyword maria = false
  /\ classify now0 emptyKeyword maria = (Imune, motivo_imune).
Proof.
  assert (In "" (ImmunityRules.keywords (immunity emptyKeyword))) as H2
    by (simpl; tauto).
  assert (prescribes now0 emptyKeyword maria = false) as H3 by run.
  split; [reflexivity |]. split; [exact H2 |]. split; [exact H3 |].
  exact (proj2 (empty_keyword_matches_every_name now0 emptyKeyword maria eq_refl H2 H3)).
Defined.

Lemma processData_returns_iff_witness :
  (forall col, In col (requiredCols (mapping defaults)) -> col <> "" ->
     firstRowHas threeRows col = inr true)
  /\ (exists res, processData (fun _ => now0) threeRows defaults = inr res)
  /\ ((exists col, In col (requiredCols (mapping defaults)) /\ col <> "")
      /\ exists row, head [ownMethodColumn] = Some row
                     /\ is_Some (row !! "hasOwnProperty"))
  /\ processData (fun _ => now0) [ownMethodColumn] defaults = inl TypeError.
Proof.
  assert (forall col, In col (requiredCols (mapping defaults)) -> col <> "" ->
            firstRowHas threeRows col = inr true) as Hall.
  { intros col [<- | [<- | [<- | [<- | []]]]] _; run. }
  assert ((exists col, In col (requiredCols (mapping defaults)) /\ col <> "")
          /\ exists row, head [ownMethodColumn] = Some row
                         /\ is_Some (row !! "hasOwnProperty")) as Hown.
  { split; [exists "ID"; split; [by left | discriminate] |].
    exists ownMethodColumn. split; [reflexivity |]. by exists (CStr "sim"). }
  split; [exact Hall |].
  split; [exact (proj2 (proj1 (processData_returns_iff (fun _ => now0) threeRows defaults))
                   Hall) |].
  split; [exact Hown |].
  exact (proj2 (proj2 (processData_returns_iff (fun _ => now0) [ownMethodColumn] defaults))
           Hown).
Defined.

Lemma unmapped_required_fields_pass_witness :
  debt_id (mapping unmapped) = "" /\ taxpayer_name (mapping unmapped) = ""
  /\ due_date (mapping unmapped) = "" /\ amount (mapping unmapped) = ""
  /\ processData (fun _ => now0) [] unmapped
     = inr {| summary := zeroSummary; preview := []; processedData := [] |}.
Proof.
  do 4 (split; [reflexivity |]).
  exact (proj2 (unmapped_required_fields_pass (fun _ => now0) [maria] unmapped
                  eq_refl eq_refl eq_refl eq_refl)).
Defined.

Lemma status_counts_are_exact_witness :
  missingCols threeRows (mapping defaults) = inr []
  /\ rowsWith Valido (classified (fun _ => now0) defaults threeRows) = 2%nat
  /\ rowsWith Prescrito (classified (fun _ => now0) defaults threeRows) = 1%nat
  /\ exists res, processData (fun _ => now0) threeRows defaults = inr res
       /\ valid_count (summary res)
          = rowsWith Valido (classified (fun _ => now0) defaults threeRows)
       /\ prescribed_count (summary res)
          = rowsWith Prescrito (classified (fun _ => now0) defaults threeRows).
Proof.
  assert (missingCols threeRows (mapping defaults) = inr []) as Hm by run.
  split; [exact Hm |]. split; [run |]. split; [run |].
  destruct (status_counts_are_exact (fun _ => now0) threeRows defaults Hm)
    as (res & Hres & Hv & Hp & _).
  exists res. split; [exact Hres |]. split; [exact Hv | exact Hp].
Defined.

Lemma annotated_rows_keep_the_input_witness :
  missingCols threeRows (mapping defaults) = inr []
  /\ threeRows !! 1%nat = Some bahia
  /\ exists res, processData (fun _ => now0) threeRows defaults = inr res
       /\ length (processedData res) = length threeRows
       /\ exists out, processedData res !! 1%nat = Some out
            /\ out !! col_status
               = Some (CStr (label (fst (classify now0 defaults bahia))))
            /\ out !! "Nome" = bahia !! "Nome".
Proof.
  assert (missingCols threeRows (mapping defaults) = inr []) as Hm by run.
  assert (threeRows !! 1%nat = Some bahia) as Hrow by reflexivity.
  split; [exact Hm |]. split; [exact Hrow |].
  destruct (annotated_rows_keep_the_input (fun _ => now0) threeRows defaults Hm)
    as (res & Hres & Hlen & _ & Hrows).
  destruct (Hrows 1%nat bahia Hrow) as (out & Hout & Hst & _ & Hkeep).
  exists res. split; [exact Hres |]. split; [exact Hlen |].
  exists out. split; [exact Hout |]. split; [exact Hst |].
  apply Hkeep. split; discriminate.
Defined.

Lemma progress_reports_are_few_witness :
  (25 <= 25)%nat
  /\ length (omap (rowProgress 25) (seq 0 25)) = 9%nat
  /\ (length (omap (rowProgress 25) (seq 0 25)) <= 10)%nat
  /\ exists p, rowProgress 25 0 = Some (p, "Processando registros...") /\ (p == 10)%Q.
Proof.
  split; [lia |]. split; [run |].
  split; [exact (proj1 (progress_reports_are_few 25)) |].
  apply (proj2 (proj2 (proj2 (progress_reports_are_few 25)))). lia.
Defined.

Lemma export_sheets_match_the_summary_witness :
  missingCols threeRows (mapping defaults) = inr []
  /\ exists res all imm pre ign val,
       processData (fun _ => now0) threeRows defaults = inr res
       /\ sheets (exportToExcel plainCurrency (processedData res) (mapping defaults))
          = [(sheet_divida, all); (sheet_imunes, imm); (sheet_prescritos, pre);
             (sheet_ignorados, ign); (sheet_validos, val)]
       /\ length pre = prescribed_count (summary res)
       /\ length val = valid_count (summary res)
       /\ (length imm + length pre + length ign + length val)%nat = length threeRows.
Proof.
  assert (missingCols threeRows (mapping defaults) = inr []) as Hm by run.
  split; [exact Hm |].
  destruct (export_sheets_match_the_summary plainCurrency (fun _ => now0) threeRows
              defaults Hm)
    as (res & all & imm & pre & ign & val & Hres & Hsh & _ & _ & Hp & _ & Hv & Hsum).
  exists res, all, imm, pre, ign, val. repeat split; assumption.
Defined.

Lemma export_total_is_the_summary_total_witness :
  exists res, processData (fun _ => now0) threeRows defaults = inr res
    /\ total_amount_valid (summary res)
       = runningSum (map (amountOf (mapping defaults))
                         (List.filter isValidRow (processedData res)))
    /\ (totalAmount (mapping defaults) (processedData res)
        == total_amount_valid (summary res) + total_amount_removed (summary res))%Q.
Proof.
  eexists. split; [reflexivity |].
  destruct (export_total_is_the_summary_total (fun _ => now0) threeRows defaults _ eq_refl)
    as (_ & Hv & _ & Ht).
  split; [exact Hv | exact Ht].
Defined.

Lemma year_table_adds_up_witness :
  isInherited "2023" = false
  /\ (exists row, In row annotated /\ yearOf mapping0 row = "2023")
  /\ is_Some (yearStats mapping0 annotated !! "2023")
  /\ (YearStat.valid (statAt (yearStats mapping0 annotated) "2023")
      == filedUnder mapping0 "2023" (statusIs Valido) annotated)%Q
  /\ filedUnder mapping0 "2023" (statusIs Valido) annotated = (31114 # 25)%Q.
Proof.
  assert (isInherited "2023" = false) as Hy by reflexivity.
  assert (exists row, In row annotated /\ yearOf mapping0 row = "2023") as Hex.
  { eexists. split; [left; reflexivity | run]. }
  destruct (year_table_adds_up mapping0 annotated "2023") as [Hdom Hsum].
  split; [exact Hy |]. split; [exact Hex |].
  split; [exact (proj2 Hdom (conj Hy Hex)) |].
  split; [exact (proj1 (Hsum Hy)) | run].
Defined.

Lemma year_table_is_sorted_witness :
  sortedYears (yearStats mapping0 annotated) = ["2014"; "2023"]
  /\ sortedYears (yearStats mapping0 annotated) !! 1%nat = Some "2023"
  /\ Sorted leString (sortedYears (yearStats mapping0 annotated))
  /\ exists line, tableData (exportToExcel plainCurrency annotated mapping0) !! 1%nat
                   = Some line
       /\ line !! "Ano" = Some (CStr "2023").
Proof.
  assert (sortedYears (yearStats mapping0 annotated) !! 1%nat = Some "2023") as Hi by run.
  destruct (year_table_is_sorted plainCurrency mapping0 annotated)
    as (Hsorted & _ & _ & _ & Hline).
  split; [run |]. split; [exact Hi |]. split; [exact Hsorted |].
  exact (Hline 1%nat "2023" Hi).
Defined.

Lemma distribution_widths_are_percentages_witness :
  missingCols threeRows (mapping defaults) = inr [] /\ threeRows <> []
  /\ exists res, processData (fun _ => now0) threeRows defaults = inr res
       /\ Forall (fun w => 0 <= w <= 100)%Q (distribution (summary res))
       /\ (0 <= removedPercentage (summary res) <= 100)%Q.
Proof.
  assert (missingCols threeRows (mapping defaults) = inr []) as Hm by run.
  assert (threeRows <> []) as Hne by discriminate.
  split; [exact Hm |]. split; [exact Hne |].
  destruct (distribution_widths_are_percentages (fun _ => now0) threeRows defaults Hm Hne)
    as (res & Hres & Hall & _ & Hrem & _).
  exists res. by split.
Defined.

Lemma parseKeywords_round_trip_witness :
  forallb isKeyword ["UNIAO"; "ESTADO"; "SEM NOME"] = true
  /\ join ", " ["UNIAO"; "ESTADO"; "SEM NOME"] = "UNIAO, ESTADO, SEM NOME"
  /\ parseKeywords (join ", " ["UNIAO"; "ESTADO"; "SEM NOME"])
     = ["UNIAO"; "ESTADO"; "SEM NOME"]
  /\ parseKeywords " uniao ,, estado , templo  " = ["uniao"; "estado"; "templo"].
Proof.
  assert (forallb isKeyword ["UNIAO"; "ESTADO"; "SEM NOME"] = true) as Hk by run.
  split; [exact Hk |]. split; [run |].
  split; [exact (proj2 parseKeywords_round_trip _ Hk) | run].
Defined.

Lemma exportFileName_replaces_the_extension_witness :
  isExtension "xls" = true
  /\ exportFileName ("divida.ativa.2024" ++ "." ++ "xls")
     = "higienizado_" ++ "divida.ativa.2024" ++ ".xlsx"
  /\ includesChar "divida" "." = false
  /\ exportFileName "divida" = "higienizado_" ++ "divida" ++ ".xlsx".
Proof.
  split; [reflexivity |].
  split; [exact (proj1 exportFileName_replaces_the_extension
                       "divida.ativa.2024" "xls" eq_refl) |].
  split; [reflexivity |].
  exact (proj2 exportFileName_replaces_the_extension "divida" eq_refl).
Defined.

End MoreConcrete.
